(** * Inside-agent networks: a shallow embedding and its specification

    The repository defines two feed-forward modules in two variants:
    - [Base]  : [inside_agent.py] (no normalization, per-digit heads);
    - [Wire]  : [supervised-wire/inside_agent.py] (batch-normalized trunk,
                one wide output layer reshaped into per-digit scores).

    Tensors are contiguous row-major arrays: a shape and a flat data list.
    Scalars are kept abstract behind the [Scalar] interface, so every theorem
    holds for whatever arithmetic the numerical backend implements; the
    binary64 instance at the end of the definitions is used to run the model
    on concrete inputs.  Library calls ([F.one_hot], [reshape], [nn.Linear],
    [nn.BatchNorm1d], slice assignment) are embedded with the behaviour of
    the tensor library, including the errors they raise. *)

From Stdlib Require Import String.
From Stdlib Require Import ZArith List Lia Bool Arith PeanoNat.
From Stdlib Require Import Floats.
Import ListNotations.
Open Scope string_scope.
Open Scope nat_scope.

Set Implicit Arguments.

(** ** Exceptions and results *)

Inductive exn : Type :=
| RuntimeError (msg : string)
| ValueError (msg : string)
| IndexError (msg : string).

Inductive result (A : Type) : Type :=
| Ok (a : A)
| Raise (e : exn).

Arguments Ok {A} a.
Arguments Raise {A} e.

Definition rbind {A B} (r : result A) (k : A -> result B) : result B :=
  match r with
  | Ok a => k a
  | Raise e => Raise e
  end.

Definition is_ok {A} (r : result A) : bool :=
  match r with Ok _ => true | Raise _ => false end.

Declare Scope result_scope.
Delimit Scope result_scope with result.
Notation "x <-- r ;; k" := (rbind r (fun x => k))
  (at level 61, r at next level, right associativity) : result_scope.

(** ** Forward computations: an exception monad over the module object

    A forward call reads and possibly mutates the attributes of [self]; a
    raised exception keeps the mutations made before it. *)

Definition Fwd (S A : Type) : Type := S -> result A * S.

Definition ret {S A} (a : A) : Fwd S A := fun s => (Ok a, s).

Definition bind {S A B} (m : Fwd S A) (k : A -> Fwd S B) : Fwd S B :=
  fun s =>
    match m s with
    | (Ok a, s') => k a s'
    | (Raise e, s') => (Raise e, s')
    end.

(** Read an attribute of [self]. *)
Definition attr {S A} (f : S -> A) : Fwd S A := fun s => (Ok (f s), s).

(** A library call that touches no attribute of [self]. *)
Definition call {S A} (r : result A) : Fwd S A := fun s => (r, s).

(** A call on a sub-module stored in an attribute: the sub-module is read,
    run, and written back. *)
Definition call_sub {S T A} (get : S -> T) (set : T -> S -> S)
    (m : Fwd T A) : Fwd S A :=
  fun s => let '(r, t') := m (get s) in (r, set t' s).

(** [m], started on a module object satisfying [P], ends on that same
    object: no attribute has been written. *)
Definition preserves {S A} (P : S -> Prop) (m : Fwd S A) : Prop :=
  forall s, P s -> snd (m s) = s.

(** [m] keeps the property [Q] of the module object. *)
Definition maintains {S A} (Q : S -> Prop) (m : Fwd S A) : Prop :=
  forall s, Q s -> Q (snd (m s)).

Declare Scope fwd_scope.
Delimit Scope fwd_scope with fwd.
Notation "x <- m ;; k" := (bind m (fun x => k))
  (at level 61, m at next level, right associativity) : fwd_scope.

(** ** Scalars *)

Class Scalar (F : Type) : Type := {
  of_Z : Z -> F;            (* conversion of an integer, as [.float()] does *)
  fadd : F -> F -> F;
  fsub : F -> F -> F;
  fmul : F -> F -> F;
  fdiv : F -> F -> F;
  fsqrt : F -> F;
  frelu : F -> F            (* [F.relu] on one element *)
}.

(** ** Tensors *)

Record Tensor (A : Type) : Type := mkTensor {
  shape : list nat;
  data : list A
}.

Arguments mkTensor {A} shape data.

Definition numel (s : list nat) : nat := fold_right Nat.mul 1 s.

(** A tensor owns exactly as many elements as its shape announces. *)
Definition tensor_ok {A} (t : Tensor A) : Prop :=
  length (data t) = numel (shape t).

Definition tmap {A B} (f : A -> B) (t : Tensor A) : Tensor B :=
  mkTensor (shape t) (map f (data t)).

(** Row-major offset of a multi-index, [None] when out of bounds or of the
    wrong rank. *)
Fixpoint ravel (acc : nat) (s idx : list nat) : option nat :=
  match s, idx with
  | [], [] => Some acc
  | d :: s', i :: idx' =>
      if i <? d then ravel (acc * d + i) s' idx' else None
  | _, _ => None
  end.

(** [t[i0, i1, ...]] on a full multi-index. *)
Definition tget {A} (t : Tensor A) (idx : list nat) : option A :=
  match ravel 0 (shape t) idx with
  | Some off => nth_error (data t) off
  | None => None
  end.

(** [n] consecutive pieces of width [w]. *)
Fixpoint chunks {A} (n w : nat) (l : list A) : list (list A) :=
  match n with
  | 0 => []
  | S n' => firstn w l :: chunks n' w (skipn w l)
  end.

(** The sub-tensors along the first dimension ([t[0]], [t[1]], ...). *)
Definition rows {A} (t : Tensor A) : list (list A) :=
  match shape t with
  | [] => []
  | b :: rest => chunks b (numel rest) (data t)
  end.

(** [t.shape[0]] *)
Definition shape0 {A} (t : Tensor A) : result nat :=
  match shape t with
  | [] => Raise (IndexError "tuple index out of range")
  | b :: _ => Ok b
  end.

(** [f] applied to each element together with its flat position. *)
Fixpoint imap_from {A B} (f : nat -> A -> B) (start : nat) (l : list A)
    : list B :=
  match l with
  | [] => []
  | x :: l' => f start x :: imap_from f (S start) l'
  end.

Definition imap {A B} (f : nat -> A -> B) (l : list A) : list B :=
  imap_from f 0 l.

(** *** [F.one_hot] *)

Definition zmin_list (l : list Z) : Z :=
  match l with
  | [] => 0%Z
  | x :: l' => fold_right Z.min x l'
  end.

Definition zmax_list (l : list Z) : Z :=
  match l with
  | [] => 0%Z
  | x :: l' => fold_right Z.max x l'
  end.

(** The block of one class value: 1 at the position of the value, else 0. *)
Definition one_hot_vec (num_classes : nat) (v : Z) : list Z :=
  map (fun k => if (Z.of_nat k =? v)%Z then 1%Z else 0%Z) (seq 0 num_classes).

(** [F.one_hot(self, num_classes)] with a given class count: an empty
    tensor only gets the extra dimension; otherwise the class values are
    checked against [0 <= v < num_classes] before the blocks are written. *)
Definition one_hot (self : Tensor Z) (num_classes : nat) : result (Tensor Z) :=
  if numel (shape self) =? 0 then
    if num_classes =? 0 then
      Raise (RuntimeError
        "Can not infer total number of classes from empty tensor.")
    else Ok (mkTensor (shape self ++ [num_classes]) [])
  else if (zmin_list (data self) <? 0)%Z then
    Raise (RuntimeError "Class values must be non-negative.")
  else if (Z.of_nat num_classes <=? zmax_list (data self))%Z then
    Raise (RuntimeError "Class values must be smaller than num_classes.")
  else
    Ok (mkTensor (shape self ++ [num_classes])
          (flat_map (one_hot_vec num_classes) (data self))).

(** A digit of a lock state: a class value in [[0, n_states_per_digit)]. *)
Definition valid_digit (n : nat) (v : Z) : Prop := (0 <= v < Z.of_nat n)%Z.

(** *** [Tensor.reshape]

    A requested size is [Some k], or [None] for the inferred entry [-1]. *)

Definition known_size (sizes : list (option nat)) : nat :=
  fold_right (fun d acc => match d with Some k => k * acc | None => acc end)
    1 sizes.

Definition inferred_dims (sizes : list (option nat)) : nat :=
  length (filter (fun d => match d with None => true | Some _ => false end)
            sizes).

Definition infer_size (sizes : list (option nat)) (n : nat)
    : result (list nat) :=
  let newsize := known_size sizes in
  match inferred_dims sizes with
  | 0 =>
      if n =? newsize
      then Ok (map (fun d => match d with Some k => k | None => 0 end) sizes)
      else Raise (RuntimeError "shape is invalid for input size")
  | 1 =>
      if (n =? newsize) || ((0 <? newsize) && (n mod newsize =? 0)) then
        if newsize =? 0 then
          Raise (RuntimeError
            "cannot reshape tensor of 0 elements: the unspecified dimension size -1 can be any value and is ambiguous")
        else
          Ok (map (fun d => match d with Some k => k | None => n / newsize end)
                sizes)
      else Raise (RuntimeError "shape is invalid for input size")
  | _ => Raise (RuntimeError "only one dimension can be inferred")
  end.

(** The tensors of this program are contiguous, so a reshape keeps the
    data and replaces the shape. *)
Definition reshape {A} (t : Tensor A) (sizes : list (option nat))
    : result (Tensor A) :=
  (s <-- infer_size sizes (numel (shape t)) ;;
   Ok (mkTensor s (data t)))%result.

Section Layers.

Context {F : Type} `{Scalar F}.

Definition f0 : F := of_Z 0.
Definition f1 : F := of_Z 1.

(** [t.float()] on an integer tensor. *)
Definition to_float (t : Tensor Z) : Tensor F := tmap of_Z t.

(** [F.relu] *)
Definition relu (t : Tensor F) : Tensor F := tmap frelu t.

(** The encoding of one lock state: its digits' blocks, in digit order. *)
Definition encode_row (n_states_per_digit : nat) (r : list Z) : list F :=
  map of_Z (flat_map (one_hot_vec n_states_per_digit) r).

(** Line 39 / 41 of both [InsideAgentForInitState.forward]:
    [F.one_hot(state, num_classes=n).reshape(state.shape[0], -1).float()] *)
Definition encode (n_states_per_digit : nat) (state : Tensor Z)
    : result (Tensor F) :=
  (hot <-- one_hot state n_states_per_digit ;;
   b <-- shape0 state ;;
   flat <-- reshape hot [Some b; None] ;;
   Ok (to_float flat))%result.

End Layers.

(** *** Slice assignment [out[:, i, :] = value] and [torch.empty] *)

(** [value.unsqueeze(0)] *)
Definition unsqueeze0 {A} (t : Tensor A) : Tensor A :=
  mkTensor (1 :: shape t) (data t).

(** Leading dimensions of size 1 are dropped from an assigned value. *)
Fixpoint strip_ones (s : list nat) : list nat :=
  match s with
  | 1 :: s' => strip_ones s'
  | _ => s
  end.

Fixpoint sequence {A} (l : list (option A)) : option (list A) :=
  match l with
  | [] => Some []
  | None :: _ => None
  | Some x :: l' =>
      match sequence l' with
      | Some xs => Some (x :: xs)
      | None => None
      end
  end.

(** Broadcasting of data of shape [src] to shape [dst], both of one rank:
    a dimension is kept when the sizes agree and repeated when the source
    has size 1. *)
Fixpoint expand_aligned {A} (src dst : list nat) (d : list A)
    : option (list A) :=
  match src, dst with
  | [], [] => Some d
  | s :: src', t :: dst' =>
      if s =? t then
        option_map (@concat A)
          (sequence (map (expand_aligned src' dst') (chunks s (numel src') d)))
      else if s =? 1 then
        option_map (fun e => concat (repeat e t)) (expand_aligned src' dst' d)
      else None
  | _, _ => None
  end.

(** Broadcasting aligns shapes on the right; the source may not have more
    dimensions than the destination. *)
Definition expand {A} (src dst : list nat) (d : list A) : option (list A) :=
  if length dst <? length src then None
  else expand_aligned (repeat 1 (length dst - length src) ++ src) dst d.

(** [out[:, i, :] = value] on a 3-D [out]: element [[b, i, k]] lies at flat
    position [(b * D + i) * n + k]. *)
Definition setitem_mid {A} (out : Tensor A) (i : nat) (value : Tensor A)
    : result (Tensor A) :=
  match shape out with
  | [B; D; n] =>
      if i <? D then
        match expand (strip_ones (shape value)) [B; n] (data value) with
        | Some e =>
            Ok (mkTensor [B; D; n]
                  (imap (fun idx old =>
                           if (idx / n) mod D =? i
                           then nth ((idx / n / D) * n + idx mod n) e old
                           else old)
                        (data out)))
        | None =>
            Raise (RuntimeError
              "The expanded size of the tensor must match the existing size")
        end
      else Raise (IndexError "index is out of bounds for dimension 1")
  | _ => Raise (IndexError "too many indices for tensor")
  end.

(** [torch.empty(size)]: fresh storage whose contents are whatever the
    allocator hands back; [mem] gives them by flat position. *)
Definition empty {A} (mem : nat -> A) (size : list nat) : Tensor A :=
  mkTensor size (map mem (seq 0 (numel size))).

(** [lst[i]] on a Python list. *)
Definition list_index {A} (l : list A) (i : nat) : result A :=
  match nth_error l i with
  | Some x => Ok x
  | None => Raise (IndexError "list index out of range")
  end.

(** ** Layers *)

Section LayerDefs.

Context {F : Type} `{Scalar F}.

(** *** [nn.Linear] *)

Record Linear : Type := mkLinear {
  in_features : nat;
  out_features : nat;
  weight : list (list F);     (* [out_features] rows of [in_features] *)
  bias : list F               (* [out_features] *)
}.

(** The parameter shapes [nn.Linear(i, o)] allocates. *)
Definition Linear_ok (i o : nat) (l : Linear) : Prop :=
  in_features l = i /\ out_features l = o /\
  length (weight l) = o /\ length (bias l) = o /\
  Forall (fun r => length r = i) (weight l).

Definition fsum (xs : list F) : F := fold_left fadd xs f0.

Definition dot (x w : list F) : F :=
  fsum (map (fun p => fmul (fst p) (snd p)) (combine x w)).

(** One input row through the layer: [x @ weight.T + bias]. *)
Definition affine (l : Linear) (x : list F) : list F :=
  map (fun p => fadd (dot x (fst p)) (snd p)) (combine (weight l) (bias l)).

(** [nn.Linear.forward]: the last dimension is mapped, the leading ones are
    kept. *)
Definition Linear_forward (l : Linear) (input : Tensor F)
    : result (Tensor F) :=
  match rev (shape input) with
  | [] => Raise (RuntimeError "linear: input must have at least one dimension")
  | last :: lead =>
      if last =? in_features l then
        Ok (mkTensor (rev lead ++ [out_features l])
              (flat_map (affine l)
                 (chunks (numel (rev lead)) last (data input))))
      else Raise (RuntimeError "mat1 and mat2 shapes cannot be multiplied")
  end.

(** *** [nn.BatchNorm1d] (affine, tracking running statistics, with a
    momentum: the defaults the modules construct it with) *)

Record BatchNorm1d : Type := mkBatchNorm1d {
  num_features : nat;
  eps : F;
  momentum : F;
  bn_weight : list F;
  bn_bias : list F;
  running_mean : list F;
  running_var : list F;
  num_batches_tracked : Z;
  training : bool
}.

Definition BatchNorm1d_ok (c : nat) (bn : BatchNorm1d) : Prop :=
  num_features bn = c /\
  length (bn_weight bn) = c /\ length (bn_bias bn) = c /\
  length (running_mean bn) = c /\ length (running_var bn) = c.

(** [(N, C)] and [(N, C, L)] inputs; a 2-D input has [L = 1]. *)
Definition bn_dims (s : list nat) : option (nat * nat * nat) :=
  match s with
  | [n; c] => Some (n, c, 1)
  | [n; c; l] => Some (n, c, l)
  | _ => None
  end.

(** The values of channel [c], in storage order. *)
Definition channel_values (C L c : nat) (d : list F) : list F :=
  map snd
    (filter (fun p => (fst p / L) mod C =? c)
       (combine (seq 0 (length d)) d)).

Definition mean_of (xs : list F) : F :=
  fdiv (fsum xs) (of_Z (Z.of_nat (length xs))).

Definition var_of (unbiased : bool) (xs : list F) : F :=
  let m := mean_of xs in
  fdiv (fsum (map (fun x => fmul (fsub x m) (fsub x m)) xs))
       (of_Z (Z.of_nat (length xs - (if unbiased then 1 else 0)))).

Definition normalize (e mean var w b x : F) : F :=
  fadd (fmul (fdiv (fsub x mean) (fsqrt (fadd var e))) w) b.

Definition bn_apply (C L : nat) (e : F) (means vars ws bs d : list F)
    : list F :=
  imap (fun idx x =>
          let c := (idx / L) mod C in
          normalize e (nth c means f0) (nth c vars f0)
                    (nth c ws f0) (nth c bs f0) x)
       d.

Definition moving_average (m : F) (old new : list F) : list F :=
  map (fun p => fadd (fmul (fsub f1 m) (fst p)) (fmul m (snd p)))
      (combine old new).

(** [num_batches_tracked] is a [torch.long] tensor: a signed 64-bit
    integer, whose arithmetic wraps around in two's complement. *)
Definition wrap_int64 (z : Z) : Z :=
  ((z + 2 ^ 63) mod 2 ^ 64 - 2 ^ 63)%Z.

(** [self.num_batches_tracked.add_(1)]. *)
Definition count_batch (bn : BatchNorm1d) : BatchNorm1d :=
  mkBatchNorm1d (num_features bn) (eps bn) (momentum bn) (bn_weight bn)
    (bn_bias bn) (running_mean bn) (running_var bn)
    (wrap_int64 (num_batches_tracked bn + 1)) (training bn).

Definition set_running (rm rv : list F) (bn : BatchNorm1d) : BatchNorm1d :=
  mkBatchNorm1d (num_features bn) (eps bn) (momentum bn) (bn_weight bn)
    (bn_bias bn) rm rv (num_batches_tracked bn) (training bn).

(** [nn.BatchNorm1d.forward].  In training mode the batch counter is
    advanced first, a single value per channel is refused, the batch
    statistics normalize the input and are folded into the running
    statistics.  In evaluation mode the running statistics normalize the
    input and nothing is written. *)
Definition BatchNorm1d_forward (input : Tensor F)
    : Fwd BatchNorm1d (Tensor F) :=
  fun self =>
    match bn_dims (shape input) with
    | None => (Raise (ValueError "expected 2D or 3D input"), self)
    | Some (N, C, L) =>
        let self1 := if training self then count_batch self else self in
        if training self && (N * L =? 1) then
          (Raise (ValueError
             "Expected more than 1 value per channel when training"), self1)
        else if numel (shape input) =? 0 then
          match bn_weight self, bn_bias self with
          | w0 :: _, b0 :: _ =>
              (Ok (tmap (fun x => fadd (fmul x w0) b0) input), self1)
          | _, _ =>
              (Raise (IndexError
                 "index 0 is out of bounds for dimension 0 with size 0"),
               self1)
          end
        else if negb (forallb (fun l => length l =? C)
                        [running_mean self; running_var self;
                         bn_weight self; bn_bias self]) then
          (Raise (RuntimeError
             "running statistics and parameters must match the input features"),
           self1)
        else if training self then
          let chans := map (fun c => channel_values C L c (data input))
                           (seq 0 C) in
          let means := map mean_of chans in
          (Ok (mkTensor (shape input)
                 (bn_apply C L (eps self) means (map (var_of false) chans)
                    (bn_weight self) (bn_bias self) (data input))),
           set_running
             (moving_average (momentum self) (running_mean self) means)
             (moving_average (momentum self) (running_var self)
                (map (var_of true) chans))
             self1)
        else
          (Ok (mkTensor (shape input)
                 (bn_apply C L (eps self) (running_mean self)
                    (running_var self) (bn_weight self) (bn_bias self)
                    (data input))),
           self1)
    end.

(** [module.eval()] / [module.train()] on the layer. *)
Definition bn_set_training (mode : bool) (bn : BatchNorm1d) : BatchNorm1d :=
  mkBatchNorm1d (num_features bn) (eps bn) (momentum bn) (bn_weight bn)
    (bn_bias bn) (running_mean bn) (running_var bn)
    (num_batches_tracked bn) mode.

(** The batch-size condition of training mode. *)
Definition bn_batch_ok (bn : BatchNorm1d) (B : nat) : Prop :=
  training bn = true -> 2 <= B.

End LayerDefs.

Arguments Linear F : clear implicits.
Arguments BatchNorm1d F : clear implicits.

(** [for i in l: acc = body(i, acc)] *)
Fixpoint for_each {S A} (l : list nat) (body : nat -> A -> Fwd S A) (acc : A)
    : Fwd S A :=
  match l with
  | [] => ret acc
  | i :: l' => (acc' <- body i acc ;; for_each l' body acc')%fwd
  end.

(** ** [inside_agent.py]

    The constructor arguments [n_digits], [n_states_per_digit],
    [vocab_size] and [latent] are sizes, kept as natural numbers; the
    parameter tensors are whatever values initialization or training left
    in them, with the shapes [__init__] allocates ([init_ok]). *)

Module Base.

Module InitState.
Section Defs.
Context {F : Type} `{Scalar F}.

Record InsideAgentForInitState : Type := mkInsideAgentForInitState {
  n_digits : nat;
  n_states_per_digit : nat;
  vocab_size : nat;
  fc1 : Linear F;
  fc2 : Linear F;
  fc3 : Linear F
}.

(** What [__init__(n_digits, n_states_per_digit, vocab_size, latent)]
    establishes. *)
Definition init_ok (latent : nat) (self : InsideAgentForInitState) : Prop :=
  Linear_ok (n_states_per_digit self * n_digits self) latent (fc1 self) /\
  Linear_ok latent latent (fc2 self) /\
  Linear_ok latent (vocab_size self) (fc3 self).

Definition forward (state : Tensor Z)
    : Fwd InsideAgentForInitState (Tensor F) :=
  (n <- attr n_states_per_digit ;;
   state <- call (encode n state) ;;
   l1 <- attr fc1 ;;
   a1 <- call (Linear_forward l1 state) ;;
   let x := relu a1 in
   l2 <- attr fc2 ;;
   a2 <- call (Linear_forward l2 x) ;;
   let x := relu a2 in
   l3 <- attr fc3 ;;
   x <- call (Linear_forward l3 x) ;;
   ret x)%fwd.

End Defs.
Arguments InsideAgentForInitState F : clear implicits.
End InitState.

Module Action.
Section Defs.
Context {F : Type} `{Scalar F}.

Record InsideAgentForAction : Type := mkInsideAgentForAction {
  n_digits : nat;
  n_states_per_digit : nat;
  vocab_size : nat;
  fc1 : Linear F;
  fc2 : Linear F;
  fc3 : list (Linear F);      (* one layer per digit *)
  fc4 : list (Linear F)       (* one layer per digit *)
}.

Definition init_ok (latent : nat) (self : InsideAgentForAction) : Prop :=
  Linear_ok (vocab_size self) latent (fc1 self) /\
  Linear_ok latent latent (fc2 self) /\
  length (fc3 self) = n_digits self /\
  Forall (Linear_ok latent (latent / 2)) (fc3 self) /\
  length (fc4 self) = n_digits self /\
  Forall (Linear_ok (latent / 2) (n_states_per_digit self)) (fc4 self).

(** The right-hand side of line 78:
    [self.fc4[i](F.relu(self.fc3[i](x))).unsqueeze(0)] *)
Definition head (i : nat) (x : Tensor F)
    : Fwd InsideAgentForAction (Tensor F) :=
  (l4s <- attr fc4 ;;
   l4 <- call (list_index l4s i) ;;
   l3s <- attr fc3 ;;
   l3 <- call (list_index l3s i) ;;
   h <- call (Linear_forward l3 x) ;;
   y <- call (Linear_forward l4 (relu h)) ;;
   ret (unsqueeze0 y))%fwd.

(** Lines 73-74: the trunk shared by all heads. *)
Definition trunk (x : Tensor F) : Fwd InsideAgentForAction (Tensor F) :=
  (l1 <- attr fc1 ;;
   a1 <- call (Linear_forward l1 x) ;;
   let x := relu a1 in
   l2 <- attr fc2 ;;
   a2 <- call (Linear_forward l2 x) ;;
   ret (relu a2))%fwd.

(** The trunk and one head on a single row of the batch. *)
Definition trunk_row (self : InsideAgentForAction) (r : list F) : list F :=
  map frelu (affine (fc2 self) (map frelu (affine (fc1 self) r))).

Definition head_row (l3 l4 : Linear F) (r : list F) : list F :=
  affine l4 (map frelu (affine l3 r)).

(** [mem] is the content of the storage [torch.empty] returns. *)
Definition forward (mem : nat -> F) (x : Tensor F)
    : Fwd InsideAgentForAction (Tensor F) :=
  (x <- trunk x ;;
   b <- call (shape0 x) ;;
   d <- attr n_digits ;;
   n <- attr n_states_per_digit ;;
   let output_lst := empty mem [b; d; n] in
   output_lst <-
     for_each (seq 0 d)
       (fun i output_lst =>
          v <- head i x ;;
          call (setitem_mid output_lst i v))
       output_lst ;;
   ret output_lst)%fwd.

End Defs.
Arguments InsideAgentForAction F : clear implicits.
End Action.

End Base.

(** ** [supervised-wire/inside_agent.py] *)

Module Wire.

Module InitState.
Section Defs.
Context {F : Type} `{Scalar F}.

Record InsideAgentForInitState : Type := mkInsideAgentForInitState {
  n_digits : nat;
  n_states_per_digit : nat;
  vocab_size : nat;
  fc1 : Linear F;
  bn1 : BatchNorm1d F;
  fc2 : Linear F;
  bn2 : BatchNorm1d F;
  fc3 : Linear F
}.

Definition init_ok (latent : nat) (self : InsideAgentForInitState) : Prop :=
  Linear_ok (n_states_per_digit self * n_digits self) latent (fc1 self) /\
  BatchNorm1d_ok latent (bn1 self) /\
  Linear_ok latent latent (fc2 self) /\
  BatchNorm1d_ok latent (bn2 self) /\
  Linear_ok latent (vocab_size self) (fc3 self).

Definition set_bn1 (b : BatchNorm1d F) (self : InsideAgentForInitState) :=
  mkInsideAgentForInitState (n_digits self) (n_states_per_digit self)
    (vocab_size self) (fc1 self) b (fc2 self) (bn2 self) (fc3 self).

Definition set_bn2 (b : BatchNorm1d F) (self : InsideAgentForInitState) :=
  mkInsideAgentForInitState (n_digits self) (n_states_per_digit self)
    (vocab_size self) (fc1 self) (bn1 self) (fc2 self) b (fc3 self).

(** [self.train(mode)]; [self.eval()] is [train false]. *)
Definition train (mode : bool) (self : InsideAgentForInitState) :=
  set_bn2 (bn_set_training mode (bn2 self))
    (set_bn1 (bn_set_training mode (bn1 self)) self).

(** The state [self.eval()] leaves the module in. *)
Definition in_eval_mode (self : InsideAgentForInitState) : Prop :=
  training (bn1 self) = false /\ training (bn2 self) = false.

Definition forward (state : Tensor Z)
    : Fwd InsideAgentForInitState (Tensor F) :=
  (n <- attr n_states_per_digit ;;
   state <- call (encode n state) ;;
   l1 <- attr fc1 ;;
   a1 <- call (Linear_forward l1 state) ;;
   h1 <- call_sub bn1 set_bn1 (BatchNorm1d_forward a1) ;;
   let x := relu h1 in
   l2 <- attr fc2 ;;
   a2 <- call (Linear_forward l2 x) ;;
   h2 <- call_sub bn2 set_bn2 (BatchNorm1d_forward a2) ;;
   let x := relu h2 in
   l3 <- attr fc3 ;;
   x <- call (Linear_forward l3 x) ;;
   ret x)%fwd.

End Defs.
Arguments InsideAgentForInitState F : clear implicits.
End InitState.

Module Action.
Section Defs.
Context {F : Type} `{Scalar F}.

Record InsideAgentForAction : Type := mkInsideAgentForAction {
  n_digits : nat;
  n_states_per_digit : nat;
  vocab_size : nat;
  fc1 : Linear F;
  bn1 : BatchNorm1d F;
  fc2 : Linear F;
  bn2 : BatchNorm1d F;
  fc3 : Linear F
}.

Definition init_ok (latent : nat) (self : InsideAgentForAction) : Prop :=
  Linear_ok (vocab_size self) latent (fc1 self) /\
  BatchNorm1d_ok latent (bn1 self) /\
  Linear_ok latent latent (fc2 self) /\
  BatchNorm1d_ok latent (bn2 self) /\
  Linear_ok latent (n_states_per_digit self * n_digits self) (fc3 self).

Definition set_bn1 (b : BatchNorm1d F) (self : InsideAgentForAction) :=
  mkInsideAgentForAction (n_digits self) (n_states_per_digit self)
    (vocab_size self) (fc1 self) b (fc2 self) (bn2 self) (fc3 self).

Definition set_bn2 (b : BatchNorm1d F) (self : InsideAgentForAction) :=
  mkInsideAgentForAction (n_digits self) (n_states_per_digit self)
    (vocab_size self) (fc1 self) (bn1 self) (fc2 self) b (fc3 self).

Definition train (mode : bool) (self : InsideAgentForAction) :=
  set_bn2 (bn_set_training mode (bn2 self))
    (set_bn1 (bn_set_training mode (bn1 self)) self).

(** The state [self.eval()] leaves the module in. *)
Definition in_eval_mode (self : InsideAgentForAction) : Prop :=
  training (bn1 self) = false /\ training (bn2 self) = false.

(** Lines 76-77: the trunk. *)
Definition trunk (x : Tensor F) : Fwd InsideAgentForAction (Tensor F) :=
  (l1 <- attr fc1 ;;
   a1 <- call (Linear_forward l1 x) ;;
   h1 <- call_sub bn1 set_bn1 (BatchNorm1d_forward a1) ;;
   let x := relu h1 in
   l2 <- attr fc2 ;;
   a2 <- call (Linear_forward l2 x) ;;
   h2 <- call_sub bn2 set_bn2 (BatchNorm1d_forward a2) ;;
   ret (relu h2))%fwd.

(** Line 78: [self.fc3(x).reshape(x.shape[0], self.n_digits, -1)] *)
Definition forward (x : Tensor F) : Fwd InsideAgentForAction (Tensor F) :=
  (x <- trunk x ;;
   l3 <- attr fc3 ;;
   y <- call (Linear_forward l3 x) ;;
   b <- call (shape0 x) ;;
   d <- attr n_digits ;;
   x <- call (reshape y [Some b; Some d; None]) ;;
   ret x)%fwd.

End Defs.
Arguments InsideAgentForAction F : clear implicits.
End Action.

End Wire.

(** ** A concrete scalar type: binary64 floating point *)

Definition float_of_Z (z : Z) : float :=
  match z with
  | Z0 => 0%float
  | Zpos _ => PrimFloat.of_uint63 (Uint63.of_Z z)
  | Zneg p => PrimFloat.opp (PrimFloat.of_uint63 (Uint63.of_Z (Zpos p)))
  end.

#[export] Instance Binary64 : Scalar float := {
  of_Z := float_of_Z;
  fadd := PrimFloat.add;
  fsub := PrimFloat.sub;
  fmul := PrimFloat.mul;
  fdiv := PrimFloat.div;
  fsqrt := PrimFloat.sqrt;
  frelu := fun x => if PrimFloat.ltb x 0%float then 0%float else x
}.

(** ** Small instances

    Layers with a fixed pattern of weights and batch normalization in the state a
    fresh [nn.BatchNorm1d] has: unit scale, zero shift, zero running mean,
    unit running variance, [eps = 1e-5], [momentum = 0.1]. *)

Module Demo.

(** Weight [w * (((r + 2 c) mod 5) - 2)] in row [r], column [c], and
    bias [b * (r - 1)] in row [r]. *)
Definition layer (i o : nat) (w b : float) : Linear float :=
  mkLinear i o
    (map (fun r =>
            map (fun c =>
                   PrimFloat.mul w
                     (float_of_Z (Z.of_nat ((r + 2 * c) mod 5) - 2)))
                (seq 0 i))
         (seq 0 o))
    (map (fun r => PrimFloat.mul b (float_of_Z (Z.of_nat r - 1))) (seq 0 o)).

Definition norm (c : nat) (mode : bool) : BatchNorm1d float :=
  mkBatchNorm1d c 0x1.4f8b588e368f1p-17%float 0x1.999999999999ap-4%float
    (repeat 1%float c) (repeat 0%float c)
    (repeat 0%float c) (repeat 1%float c) 0%Z mode.

(** [n_digits = 2], [n_states_per_digit = 3], [vocab_size = 2],
    [latent = 4]. *)
Definition base_encoder : Base.InitState.InsideAgentForInitState float :=
  Base.InitState.mkInsideAgentForInitState 2 3 2
    (layer 6 4 1 0) (layer 4 4 0.5 1) (layer 4 2 1 0.5).

Definition base_decoder : Base.Action.InsideAgentForAction float :=
  Base.Action.mkInsideAgentForAction 2 3 2
    (layer 2 4 1 (-1)) (layer 4 4 (-0.5) 0.5)
    [layer 4 2 1 1; layer 4 2 2 2]
    [layer 2 3 1 1; layer 2 3 0.25 0.25].

(** The same decoder with the head of digit 1 zeroed. *)
Definition base_decoder_zeroed : Base.Action.InsideAgentForAction float :=
  Base.Action.mkInsideAgentForAction 2 3 2
    (layer 2 4 1 (-1)) (layer 4 4 (-0.5) 0.5)
    [layer 4 2 1 1; layer 4 2 0 0]
    [layer 2 3 1 1; layer 2 3 0 0].

Definition wire_encoder (mode : bool)
    : Wire.InitState.InsideAgentForInitState float :=
  Wire.InitState.mkInsideAgentForInitState 2 3 2
    (layer 6 4 1 0) (norm 4 mode) (layer 4 4 0.5 1) (norm 4 mode)
    (layer 4 2 1 0.5).

Definition wire_decoder (mode : bool)
    : Wire.Action.InsideAgentForAction float :=
  Wire.Action.mkInsideAgentForAction 2 3 2
    (layer 2 4 1 1) (norm 4 mode) (layer 4 4 0.5 0.5) (norm 4 mode)
    (layer 4 6 1 1).

(** The batch-normalized decoder with the rows of [fc3] that belong to
    digit 1 zeroed. *)
Definition wire_decoder_other : Wire.Action.InsideAgentForAction float :=
  Wire.Action.mkInsideAgentForAction 2 3 2
    (layer 2 4 1 1) (norm 4 true) (layer 4 4 0.5 0.5) (norm 4 true)
    (mkLinear 4 6
       (firstn 3 (weight (layer 4 6 1 1)) ++ repeat (repeat 0%float 4) 3)
       (firstn 3 (bias (layer 4 6 1 1)) ++ repeat 0%float 3)).

(** A normalization layer that has already seen batches, and modules
    using it. *)
Definition norm_seen (c : nat) (mode : bool) : BatchNorm1d float :=
  mkBatchNorm1d c 0x1.4f8b588e368f1p-17%float 0x1.999999999999ap-4%float
    (repeat 1%float c) (repeat 0%float c)
    (repeat 0.5%float c) (repeat 2%float c) 7%Z mode.

Definition wire_encoder_seen (mode : bool)
    : Wire.InitState.InsideAgentForInitState float :=
  Wire.InitState.mkInsideAgentForInitState 2 3 2
    (layer 6 4 1 0) (norm_seen 4 mode) (layer 4 4 0.5 1) (norm_seen 4 mode)
    (layer 4 2 1 0.5).

Definition wire_decoder_seen (mode : bool)
    : Wire.Action.InsideAgentForAction float :=
  Wire.Action.mkInsideAgentForAction 2 3 2
    (layer 2 4 1 1) (norm_seen 4 mode) (layer 4 4 0.5 0.5)
    (norm_seen 4 mode) (layer 4 6 1 1).

(** Two lock states and two one-hot symbols. *)
Definition states : Tensor Z := mkTensor [2; 2] [1; 2; 0; 2]%Z.
Definition symbols : Tensor float := mkTensor [2; 2] [1; 0; 0; 1]%float.

(** Another batch whose row 1 is row 1 of the batch above. *)
Definition states' : Tensor Z := mkTensor [3; 2] [2; 2; 0; 2; 1; 1]%Z.
Definition symbols' : Tensor float :=
  mkTensor [3; 2] [0; 1; 0; 1; 1; 0]%float.

(** The boundary configuration: one digit, one symbol, one sample. *)
Definition unit_base_encoder : Base.InitState.InsideAgentForInitState float :=
  Base.InitState.mkInsideAgentForInitState 1 3 1
    (layer 3 4 1 0) (layer 4 4 0.5 1) (layer 4 1 1 0.5).

Definition unit_base_decoder : Base.Action.InsideAgentForAction float :=
  Base.Action.mkInsideAgentForAction 1 3 1
    (layer 1 4 1 1) (layer 4 4 0.5 0.5) [layer 4 2 1 1] [layer 2 3 1 1].

Definition unit_wire_encoder (mode : bool)
    : Wire.InitState.InsideAgentForInitState float :=
  Wire.InitState.mkInsideAgentForInitState 1 3 1
    (layer 3 4 1 0) (norm 4 mode) (layer 4 4 0.5 1) (norm 4 mode)
    (layer 4 1 1 0.5).

Definition unit_wire_decoder (mode : bool)
    : Wire.Action.InsideAgentForAction float :=
  Wire.Action.mkInsideAgentForAction 1 3 1
    (layer 1 4 1 1) (norm 4 mode) (layer 4 4 0.5 0.5) (norm 4 mode)
    (layer 4 3 1 1).

Definition unit_state : Tensor Z := mkTensor [1; 1] [2]%Z.
Definition unit_symbol : Tensor float := mkTensor [1; 1] [1]%float.

End Demo.

(** ** Construction

    [nn.Linear] allocates its weight and bias and lets [reset_parameters]
    fill them from the random generator, the weight first; [draws] is the
    sequence of values written, and a constructor runs from the number of
    values written so far.  [nn.BatchNorm1d] starts with unit scale, zero
    shift, zero running mean, unit running variance, no batch counted, in
    training mode; [eps_default] and [momentum_default] stand for its
    default arguments [1e-5] and [0.1]. *)

Definition Ctor (A : Type) : Type := nat -> A * nat.

(** [[m for _ in range(n)]] *)
Fixpoint replicate_ctor {A} (n : nat) (m : Ctor A) : Ctor (list A) :=
  fun pos =>
    match n with
    | 0 => ([], pos)
    | S n' =>
        let (x, p1) := m pos in
        let (xs, p2) := replicate_ctor n' m p1 in
        (x :: xs, p2)
    end.

Section Construction.

Context {F : Type} `{Scalar F}.

Variable draws : nat -> F.
Variables eps_default momentum_default : F.

(** [nn.Linear(i, o)] *)
Definition Linear_init (i o : nat) : Ctor (Linear F) :=
  fun pos =>
    (mkLinear i o
       (map (fun r => map (fun c => draws (pos + r * i + c)) (seq 0 i))
            (seq 0 o))
       (map (fun r => draws (pos + o * i + r)) (seq 0 o)),
     pos + o * i + o).

(** [nn.BatchNorm1d(c)] *)
Definition BatchNorm1d_init (c : nat) : BatchNorm1d F :=
  mkBatchNorm1d c eps_default momentum_default
    (repeat f1 c) (repeat f0 c) (repeat f0 c) (repeat f1 c) 0%Z true.

(** An omitted [latent] takes the default of the signature. *)
Definition latent_or (default : nat) (latent : option nat) : nat :=
  match latent with
  | Some l => l
  | None => default
  end.

(** [InsideAgentForInitState.__init__] of [inside_agent.py], lines 19-26. *)
Definition Base_InitState__init__ (n_digits n_states_per_digit vocab_size : nat)
    (latent : option nat) : Ctor (Base.InitState.InsideAgentForInitState F) :=
  fun pos =>
    let latent := latent_or 64 latent in
    let (fc1, p1) := Linear_init (n_states_per_digit * n_digits) latent pos in
    let (fc2, p2) := Linear_init latent latent p1 in
    let (fc3, p3) := Linear_init latent vocab_size p2 in
    (Base.InitState.mkInsideAgentForInitState
       n_digits n_states_per_digit vocab_size fc1 fc2 fc3, p3).

(** [InsideAgentForAction.__init__] of [inside_agent.py], lines 52-60. *)
Definition Base_Action__init__ (n_digits n_states_per_digit vocab_size : nat)
    (latent : option nat) : Ctor (Base.Action.InsideAgentForAction F) :=
  fun pos =>
    let latent := latent_or 64 latent in
    let (fc1, p1) := Linear_init vocab_size latent pos in
    let (fc2, p2) := Linear_init latent latent p1 in
    let (fc3, p3) :=
      replicate_ctor n_digits (Linear_init latent (latent / 2)) p2 in
    let (fc4, p4) :=
      replicate_ctor n_digits
        (Linear_init (latent / 2) n_states_per_digit) p3 in
    (Base.Action.mkInsideAgentForAction
       n_digits n_states_per_digit vocab_size fc1 fc2 fc3 fc4, p4).

(** [InsideAgentForInitState.__init__] of [supervised-wire/inside_agent.py],
    lines 19-28. *)
Definition Wire_InitState__init__ (n_digits n_states_per_digit vocab_size : nat)
    (latent : option nat) : Ctor (Wire.InitState.InsideAgentForInitState F) :=
  fun pos =>
    let latent := latent_or 32 latent in
    let (fc1, p1) := Linear_init (n_states_per_digit * n_digits) latent pos in
    let bn1 := BatchNorm1d_init latent in
    let (fc2, p2) := Linear_init latent latent p1 in
    let bn2 := BatchNorm1d_init latent in
    let (fc3, p3) := Linear_init latent vocab_size p2 in
    (Wire.InitState.mkInsideAgentForInitState
       n_digits n_states_per_digit vocab_size fc1 bn1 fc2 bn2 fc3, p3).

(** [InsideAgentForAction.__init__] of [supervised-wire/inside_agent.py],
    lines 54-63. *)
Definition Wire_Action__init__ (n_digits n_states_per_digit vocab_size : nat)
    (latent : option nat) : Ctor (Wire.Action.InsideAgentForAction F) :=
  fun pos =>
    let latent := latent_or 64 latent in
    let (fc1, p1) := Linear_init vocab_size latent pos in
    let bn1 := BatchNorm1d_init latent in
    let (fc2, p2) := Linear_init latent latent p1 in
    let bn2 := BatchNorm1d_init latent in
    let (fc3, p3) := Linear_init latent (n_states_per_digit * n_digits) p2 in
    (Wire.Action.mkInsideAgentForAction
       n_digits n_states_per_digit vocab_size fc1 bn1 fc2 bn2 fc3, p3).

(** *** Notions used to state what a forward pass keeps *)

(** Everything of a normalization layer but its running statistics and
    batch counter. *)
Definition bn_same_parameters (a b : BatchNorm1d F) : Prop :=
  num_features a = num_features b /\
  eps a = eps b /\
  momentum a = momentum b /\
  bn_weight a = bn_weight b /\
  bn_bias a = bn_bias b /\
  training a = training b.

(** Evaluation-mode normalization of one row: feature [j] is normalized
    with the running statistics of feature [j]. *)
Definition bn_row (bn : BatchNorm1d F) (r : list F) : list F :=
  imap (fun j x =>
          normalize (eps bn) (nth j (running_mean bn) f0)
            (nth j (running_var bn) f0) (nth j (bn_weight bn) f0)
            (nth j (bn_bias bn) f0) x)
       r.

End Construction.

(** The values a generator hands out in the examples. *)
Definition demo_draws (k : nat) : float :=
  float_of_Z (Z.of_nat (k mod 5) - 2).

(** * Properties *)

(** ** Lists cut into rows *)

Section ListFacts.

Variable A : Type.

Lemma chunks_length (n w : nat) (l : list A) : length (chunks n w l) = n.
Proof.
  revert l; induction n as [|n IH]; intros l; simpl; [reflexivity|].
  now rewrite IH.
Qed.

Lemma concat_chunks (n w : nat) (l : list A) :
  length l = n * w -> concat (chunks n w l) = l.
Proof.
  revert l; induction n as [|n IH]; intros l Hl; simpl in *.
  - destruct l; [reflexivity | discriminate].
  - rewrite IH.
    + apply firstn_skipn.
    + rewrite length_skipn; lia.
Qed.

Lemma chunks_concat (w : nat) (ls : list (list A)) :
  Forall (fun r => length r = w) ls ->
  chunks (length ls) w (concat ls) = ls.
Proof.
  induction 1 as [|r ls Hr _ IH]; simpl; [reflexivity|].
  rewrite firstn_app, skipn_app, Hr, Nat.sub_diag; simpl.
  rewrite firstn_all2 by lia.
  rewrite skipn_all2 by lia.
  rewrite app_nil_r; simpl.
  now rewrite IH.
Qed.

Lemma chunks_widths (n w : nat) (l : list A) :
  length l = n * w -> Forall (fun r => length r = w) (chunks n w l).
Proof.
  revert l; induction n as [|n IH]; intros l Hl; simpl; constructor.
  - rewrite length_firstn; simpl in Hl; lia.
  - apply IH. rewrite length_skipn; simpl in Hl; lia.
Qed.

Lemma nth_error_chunks (n w b : nat) (l : list A) :
  b < n ->
  nth_error (chunks n w l) b = Some (firstn w (skipn (b * w) l)).
Proof.
  revert b l; induction n as [|n IH]; intros b l Hb; [lia|].
  destruct b as [|b]; simpl; [reflexivity|].
  rewrite IH by lia.
  now rewrite skipn_skipn, Nat.add_comm.
Qed.

Lemma nth_error_firstn_skipn (w off k : nat) (l : list A) :
  k < w ->
  nth_error (firstn w (skipn off l)) k = nth_error l (off + k).
Proof.
  intros Hk.
  rewrite nth_error_firstn.
  destruct (k <? w) eqn:E; [|apply Nat.ltb_ge in E; lia].
  now rewrite nth_error_skipn.
Qed.

Lemma sequence_all_some (ls : list (list A)) :
  sequence (map (@Some (list A)) ls) = Some ls.
Proof.
  induction ls as [|r ls IH]; simpl; [reflexivity|].
  now rewrite IH.
Qed.

Variable B : Type.

Lemma imap_from_length (f : nat -> A -> B) (s : nat) (l : list A) :
  length (imap_from f s l) = length l.
Proof.
  revert s; induction l as [|x l IH]; intros s; simpl; [reflexivity|].
  now rewrite IH.
Qed.

Lemma nth_error_imap_from (f : nat -> A -> B) (s j : nat) (l : list A) :
  nth_error (imap_from f s l) j = option_map (f (s + j)) (nth_error l j).
Proof.
  revert s j; induction l as [|x l IH]; intros s j; simpl.
  - now destruct j.
  - destruct j as [|j]; simpl.
    + now rewrite Nat.add_0_r.
    + rewrite IH. f_equal. f_equal. lia.
Qed.

Lemma flat_map_length_const (f : A -> list B) (w : nat) (l : list A) :
  (forall x, In x l -> length (f x) = w) ->
  length (flat_map f l) = length l * w.
Proof.
  induction l as [|x l IH]; intros Hw; simpl; [reflexivity|].
  rewrite length_app, IH by (intros; apply Hw; simpl; auto).
  rewrite (Hw x) by (simpl; auto). reflexivity.
Qed.

Lemma nth_error_flat_map_const (f : A -> list B) (w i k : nat)
    (l : list A) (x : A) :
  (forall y, In y l -> length (f y) = w) ->
  nth_error l i = Some x ->
  k < w ->
  nth_error (flat_map f l) (i * w + k) = nth_error (f x) k.
Proof.
  revert i; induction l as [|y l IH]; intros i Hw Hi Hk.
  - destruct i; discriminate.
  - simpl. destruct i as [|i]; simpl in *.
    + injection Hi as ->.
      rewrite nth_error_app1; [reflexivity|].
      rewrite (Hw x); auto.
    + rewrite nth_error_app2 by (rewrite (Hw y); auto; lia).
      rewrite (Hw y) by auto.
      replace (w + i * w + k - w) with (i * w + k) by lia.
      apply IH; auto.
Qed.

End ListFacts.

(** ** Class values and one-hot blocks *)



Lemma zmin_list_in (l : list Z) : l <> [] -> In (zmin_list l) l.
Proof.
  destruct l as [|x l]; [congruence|intros _]; simpl.
  revert x; induction l as [|y l IH]; intros x; simpl; [auto|].
  destruct (Z.min_spec y (fold_right Z.min x l)) as [[_ ->]|[_ ->]].
  - auto.
  - destruct (IH x) as [E|Hin]; [left; exact E | right; right; exact Hin].
Qed.

Lemma zmax_list_in (l : list Z) : l <> [] -> In (zmax_list l) l.
Proof.
  destruct l as [|x l]; [congruence|intros _]; simpl.
  revert x; induction l as [|y l IH]; intros x; simpl; [auto|].
  destruct (Z.max_spec y (fold_right Z.max x l)) as [[_ ->]|[_ ->]].
  - destruct (IH x) as [E|Hin]; [left; exact E | right; right; exact Hin].
  - auto.
Qed.

Lemma one_hot_vec_length (n : nat) (v : Z) : length (one_hot_vec n v) = n.
Proof. unfold one_hot_vec. now rewrite length_map, length_seq. Qed.

Lemma nth_error_one_hot_vec (n k : nat) (v : Z) :
  k < n ->
  nth_error (one_hot_vec n v) k
  = Some (if (Z.of_nat k =? v)%Z then 1%Z else 0%Z).
Proof.
  intros Hk. unfold one_hot_vec.
  rewrite nth_error_map, nth_error_seq.
  destruct (k <? n) eqn:E; [reflexivity|].
  apply Nat.ltb_ge in E; lia.
Qed.

(** ** Reshaping *)

Lemma reshape_rows {A} (t : Tensor A) (b m : nat) :
  1 <= b ->
  numel (shape t) = b * m ->
  reshape t [Some b; None] = Ok (mkTensor [b; m] (data t)).
Proof.
  intros Hb Hn. unfold reshape, infer_size. rewrite Hn. simpl.
  rewrite Nat.mul_1_r.
  replace ((b * m) mod b) with 0
    by (rewrite Nat.mul_comm; symmetry; apply Nat.Div0.mod_mul).
  assert (E1 : (0 <? b) = true) by (apply Nat.ltb_lt; lia).
  assert (E2 : (b =? 0) = false) by (apply Nat.eqb_neq; lia).
  rewrite E1, E2, orb_true_r. simpl.
  rewrite Nat.mul_comm, Nat.div_mul by lia.
  reflexivity.
Qed.

Lemma reshape_digits {A} (t : Tensor A) (b d m : nat) :
  1 <= b -> 1 <= d ->
  numel (shape t) = b * (d * m) ->
  reshape t [Some b; Some d; None] = Ok (mkTensor [b; d; m] (data t)).
Proof.
  intros Hb Hd Hn. unfold reshape, infer_size. rewrite Hn. simpl.
  rewrite Nat.mul_1_r.
  replace (b * (d * m)) with (m * (b * d)) by lia.
  rewrite Nat.Div0.mod_mul.
  assert (E1 : (0 <? b * d) = true) by (apply Nat.ltb_lt; nia).
  assert (E2 : (b * d =? 0) = false) by (apply Nat.eqb_neq; nia).
  rewrite E1, E2, orb_true_r. simpl.
  rewrite Nat.div_mul by nia.
  reflexivity.
Qed.

Lemma reshape_empty_batch {A} (t : Tensor A) (rest : list (option nat)) :
  inferred_dims rest = 1 ->
  numel (shape t) = 0 ->
  exists msg, reshape t (Some 0 :: rest) = Raise (RuntimeError msg).
Proof.
  intros Hi Hn. unfold reshape, infer_size. rewrite Hn.
  unfold inferred_dims in *. simpl. rewrite Hi. simpl. eauto.
Qed.

(** ** The encoding step *)

Section Encoding.

Context {F : Type} `{Scalar F}.

Lemma one_hot_valid (state : Tensor Z) (n : nat) :
  1 <= n ->
  tensor_ok state ->
  Forall (valid_digit n) (data state) ->
  one_hot state n
  = Ok (mkTensor (shape state ++ [n])
          (flat_map (one_hot_vec n) (data state))).
Proof.
  intros Hn Hok Hv. unfold one_hot, tensor_ok in *.
  destruct (numel (shape state) =? 0) eqn:E0.
  - apply Nat.eqb_eq in E0. rewrite E0 in Hok.
    destruct (data state); [|discriminate].
    destruct n; [lia|reflexivity].
  - apply Nat.eqb_neq in E0.
    assert (Hne : data state <> []).
    { intros E. rewrite E in Hok. simpl in Hok. lia. }
    rewrite Forall_forall in Hv.
    pose proof (Hv _ (zmin_list_in Hne)) as [Hlo _].
    pose proof (Hv _ (zmax_list_in Hne)) as [_ Hhi].
    destruct (zmin_list (data state) <? 0)%Z eqn:E1;
      [apply Z.ltb_lt in E1; lia|].
    destruct (Z.of_nat n <=? zmax_list (data state))%Z eqn:E2;
      [apply Z.leb_le in E2; lia|].
    reflexivity.
Qed.

Lemma numel_app (s1 s2 : list nat) : numel (s1 ++ s2) = numel s1 * numel s2.
Proof.
  induction s1 as [|d s1 IH]; simpl; [lia|]. rewrite IH. lia.
Qed.

Lemma encode_valid (state : Tensor Z) (B D n : nat) :
  shape state = [B; D] ->
  length (data state) = B * D ->
  1 <= B -> 1 <= n ->
  Forall (valid_digit n) (data state) ->
  encode n state
  = Ok (mkTensor [B; D * n]
          (map of_Z (flat_map (one_hot_vec n) (data state)))).
Proof.
  intros Hs Hl HB Hn Hv. unfold encode.
  rewrite one_hot_valid; auto.
  2:{ unfold tensor_ok. rewrite Hs, Hl. simpl. lia. }
  simpl. unfold shape0. rewrite Hs. simpl.
  rewrite (@reshape_rows _ _ B (D * n)); auto.
  simpl. lia.
Qed.

End Encoding.

(** ** Element access *)

Lemma tget_2d {A} (t : Tensor A) (B W b j : nat) :
  shape t = [B; W] -> b < B -> j < W ->
  tget t [b; j] = nth_error (data t) (b * W + j).
Proof.
  intros Hs Hb Hj. unfold tget. rewrite Hs. simpl.
  apply Nat.ltb_lt in Hb, Hj. now rewrite Hb, Hj.
Qed.

Lemma tget_3d {A} (t : Tensor A) (B D n b i k : nat) :
  shape t = [B; D; n] -> b < B -> i < D -> k < n ->
  tget t [b; i; k] = nth_error (data t) ((b * D + i) * n + k).
Proof.
  intros Hs Hb Hi Hk. unfold tget. rewrite Hs. simpl.
  apply Nat.ltb_lt in Hb, Hi, Hk. now rewrite Hb, Hi, Hk.
Qed.

Lemma nth_error_in_range {A} (l : list A) (j : nat) :
  j < length l -> exists x, nth_error l j = Some x.
Proof.
  intros Hj. destruct (nth_error l j) eqn:E; [eauto|].
  apply nth_error_None in E. lia.
Qed.

(** C1. For every valid StateEncoder input batch (shape
    [(batch_size, n_digits)] with at least one row, every digit in
    [[0, n_states_per_digit)]) the encoding step succeeds and yields a
    tensor of shape [(batch_size, n_digits * n_states_per_digit)] in which
    the block of digit [i] of row [b] (positions [i * n .. i * n + n - 1])
    is the one-hot vector of that digit: 1 at the position of the digit's
    value and 0 elsewhere.  With [n_digits = 2] and
    [n_states_per_digit = 3] the row [[1, 2]] encodes to
    [[0, 1, 0, 0, 0, 1]]. *)
Theorem C1_encode_is_per_digit_one_hot :
  (forall (F : Type) (SF : Scalar F) (state : Tensor Z) (B D n : nat),
      shape state = [B; D] ->
      length (data state) = B * D ->
      1 <= B -> 1 <= n ->
      Forall (valid_digit n) (data state) ->
      exists enc : Tensor F,
        encode n state = Ok enc /\
        shape enc = [B; D * n] /\
        length (data enc) = B * (D * n) /\
        forall b i k, b < B -> i < D -> k < n ->
          exists v,
            tget state [b; i] = Some v /\
            tget enc [b; i * n + k]
            = Some (of_Z (if (Z.of_nat k =? v)%Z then 1 else 0)%Z)) /\
  (forall (F : Type) (SF : Scalar F),
      encode 3 (mkTensor [1; 2] [1; 2]%Z)
      = Ok (mkTensor [1; 6]
              [of_Z 0; of_Z 1; of_Z 0; of_Z 0; of_Z 0; of_Z 1])) /\
  encode 3 (mkTensor [1; 2] [1; 2]%Z)
  = Ok (mkTensor [1; 6] [0; 1; 0; 0; 0; 1]%float).
Proof.
  split; [|split; [intros; reflexivity | reflexivity]].
  intros F SF state B D n Hs Hl HB Hn Hv.
  eexists. split; [apply encode_valid; eassumption|].
  split; [reflexivity|]. simpl.
  assert (Hw : forall y, In y (data state) -> length (one_hot_vec n y) = n)
    by (intros; apply one_hot_vec_length).
  split.
  { rewrite length_map, (flat_map_length_const _ _ Hw). lia. }
  intros b i k Hb Hi Hk.
  destruct (@nth_error_in_range _ (data state) (b * D + i)) as [v Ev];
    [nia|].
  exists v. split.
  - rewrite (tget_2d _ Hs) by assumption. exact Ev.
  - rewrite (@tget_2d _ _ B (D * n)) by (simpl; auto; nia). simpl.
    replace (b * (D * n) + (i * n + k)) with ((b * D + i) * n + k) by lia.
    rewrite nth_error_map.
    rewrite (@nth_error_flat_map_const _ _ (one_hot_vec n) n _ k _ v Hw Ev Hk).
    rewrite nth_error_one_hot_vec by assumption. reflexivity.
Qed.

Lemma C1_encode_is_per_digit_one_hot_witness :
  exists enc : Tensor float,
    encode 3 (mkTensor [2; 2] [1; 2; 0; 2]%Z) = Ok enc /\
    shape enc = [2; 2 * 3] /\
    length (data enc) = 2 * (2 * 3) /\
    forall b i k, b < 2 -> i < 2 -> k < 3 ->
      exists v,
        tget (mkTensor [2; 2] [1; 2; 0; 2]%Z) [b; i] = Some v /\
        tget enc [b; i * 3 + k]
        = Some (of_Z (if (Z.of_nat k =? v)%Z then 1 else 0)%Z).
Proof.
  apply (proj1 C1_encode_is_per_digit_one_hot float Binary64
           (mkTensor [2; 2] [1; 2; 0; 2]%Z) 2 2 3).
  - reflexivity.
  - reflexivity.
  - lia.
  - lia.
  - repeat constructor; unfold valid_digit; simpl; lia.
Defined.

(** The empty batch is not encoded: [reshape(0, -1)] cannot infer the
    second dimension. *)
Lemma encode_empty_batch (F : Type) (SF : Scalar F) (D n : nat) :
  1 <= n ->
  exists msg,
    encode (F := F) n (mkTensor [0; D] []) = Raise (RuntimeError msg).
Proof.
  intros Hn. unfold encode, one_hot. simpl.
  destruct n; [lia|]. simpl. eauto.
Qed.

Ltac fwd_unfold := unfold bind, attr, call, call_sub, ret.




(** ** Layers on batches of rows *)

Lemma chunks_map {A B} (f : A -> B) (n w : nat) (l : list A) :
  chunks n w (map f l) = map (map f) (chunks n w l).
Proof.
  revert l; induction n as [|n IH]; intros l; simpl; [reflexivity|].
  now rewrite firstn_map, skipn_map, IH.
Qed.

Lemma rows_2d {A} (t : Tensor A) (B W : nat) :
  shape t = [B; W] -> rows t = chunks B W (data t).
Proof.
  intros Hs. unfold rows. rewrite Hs. simpl. now rewrite Nat.mul_1_r.
Qed.

Lemma rows_3d {A} (t : Tensor A) (B D n : nat) :
  shape t = [B; D; n] -> rows t = chunks B (D * n) (data t).
Proof.
  intros Hs. unfold rows. rewrite Hs. simpl. now rewrite Nat.mul_1_r.
Qed.

Section LayerFacts.

Context {F : Type} `{Scalar F}.

Lemma affine_length (i o : nat) (l : Linear F) (x : list F) :
  Linear_ok i o l -> length (affine l x) = o.
Proof.
  intros (_ & _ & Hw & Hb & _). unfold affine.
  rewrite length_map, length_combine, Hw, Hb. lia.
Qed.

Lemma Linear_forward_2d (i o B : nat) (l : Linear F) (t : Tensor F) :
  Linear_ok i o l ->
  shape t = [B; i] ->
  Linear_forward l t
  = Ok (mkTensor [B; o] (flat_map (affine l) (chunks B i (data t)))).
Proof.
  intros (Hi & Ho & _) Hs. unfold Linear_forward. rewrite Hs. simpl.
  rewrite Hi, Ho, Nat.eqb_refl, Nat.mul_1_r. reflexivity.
Qed.

Lemma Linear_forward_bad_width (B w : nat) (l : Linear F) (t : Tensor F) :
  shape t = [B; w] ->
  w <> in_features l ->
  exists msg, Linear_forward l t = Raise (RuntimeError msg).
Proof.
  intros Hs Hw. unfold Linear_forward. rewrite Hs. simpl.
  apply Nat.eqb_neq in Hw. rewrite Hw. eauto.
Qed.

Lemma affine_rows_length (i o : nat) (l : Linear F) (rs : list (list F)) :
  Linear_ok i o l ->
  length (flat_map (affine l) rs) = length rs * o.
Proof.
  intros Hl. apply flat_map_length_const.
  intros x _. now apply affine_length with (i := i).
Qed.

Lemma rows_affine (i o : nat) (l : Linear F) (rs : list (list F)) :
  Linear_ok i o l ->
  chunks (length rs) o (flat_map (affine l) rs) = map (affine l) rs.
Proof.
  intros Hl. rewrite flat_map_concat_map.
  rewrite <- (length_map (affine l) rs).
  apply chunks_concat. apply Forall_map, Forall_forall.
  intros x _. now apply affine_length with (i := i).
Qed.

(** The rows of a linear layer's output are the layer applied to the rows
    of its input. *)
Lemma rows_Linear_forward (i o B : nat) (l : Linear F) (t out : Tensor F) :
  Linear_ok i o l ->
  shape t = [B; i] ->
  Linear_forward l t = Ok out ->
  shape out = [B; o] /\
  length (data out) = B * o /\
  rows out = map (affine l) (rows t).
Proof.
  intros Hl Hs Hf. rewrite (Linear_forward_2d _ Hl Hs) in Hf.
  injection Hf as <-. simpl.
  split; [reflexivity|].
  split.
  - rewrite (affine_rows_length _ Hl), chunks_length. reflexivity.
  - rewrite (rows_2d _ Hs).
    erewrite rows_2d by reflexivity. simpl.
    pose proof (rows_affine (chunks B i (data t)) Hl) as E.
    rewrite chunks_length in E. exact E.
Qed.

Lemma rows_relu (t : Tensor F) : rows (relu t) = map (map frelu) (rows t).
Proof.
  unfold rows, relu, tmap. simpl.
  destruct (shape t); [reflexivity|]. apply chunks_map.
Qed.

Lemma shape_relu (t : Tensor F) : shape (relu t) = shape t.
Proof. reflexivity. Qed.

Lemma length_relu (t : Tensor F) :
  length (data (relu t)) = length (data t).
Proof. unfold relu, tmap. simpl. apply length_map. Qed.

(** *** Batch normalization *)

Lemma bn_apply_length (C L : nat) (e : F) (ms vs ws bs d : list F) :
  length (bn_apply C L e ms vs ws bs d) = length d.
Proof. unfold bn_apply, imap. apply imap_from_length. Qed.

Lemma BatchNorm1d_forward_2d (C B : nat) (bn : BatchNorm1d F)
    (t : Tensor F) :
  BatchNorm1d_ok C bn ->
  shape t = [B; C] ->
  1 <= B -> 1 <= C ->
  bn_batch_ok bn B ->
  exists out bn',
    BatchNorm1d_forward t bn = (Ok out, bn') /\
    shape out = [B; C] /\
    length (data out) = length (data t) /\
    BatchNorm1d_ok C bn' /\
    training bn' = training bn /\
    (training bn = false -> bn' = bn).
Proof.
  intros (Hnf & Hw & Hb & Hrm & Hrv) Hs HB HC Hbatch.
  unfold BatchNorm1d_forward, bn_batch_ok in *. rewrite Hs. simpl.
  rewrite Hw, Hb, Hrm, Hrv, Nat.eqb_refl. simpl.
  assert (E0 : (B * (C * 1) =? 0) = false) by (apply Nat.eqb_neq; nia).
  rewrite E0.
  destruct (training bn) eqn:Etr; simpl.
  - specialize (Hbatch eq_refl).
    assert (E1 : (B * 1 =? 1) = false) by (apply Nat.eqb_neq; lia).
    rewrite E1.
    eexists _, _. split; [reflexivity|]. simpl.
    split; [reflexivity|].
    split; [apply bn_apply_length|].
    split; [|split; [exact Etr | discriminate]].
    unfold BatchNorm1d_ok, moving_average; simpl.
    rewrite !length_map, !length_combine, !length_map, length_seq, Hrm, Hrv.
    repeat split; auto; lia.
  - eexists _, _. split; [reflexivity|]. simpl.
    split; [reflexivity|].
    split; [apply bn_apply_length|].
    split; [|split; [exact Etr | reflexivity]].
    repeat split; assumption.
Qed.

Lemma BatchNorm1d_forward_single_row (C : nat) (bn : BatchNorm1d F)
    (t : Tensor F) :
  shape t = [1; C] ->
  training bn = true ->
  BatchNorm1d_forward t bn
  = (Raise (ValueError
       "Expected more than 1 value per channel when training"),
     count_batch bn).
Proof.
  intros Hs Htr. unfold BatchNorm1d_forward. rewrite Hs. simpl.
  now rewrite Htr.
Qed.

End LayerFacts.

Section ForwardFacts.

Context {F : Type} `{Scalar F}.

Lemma Linear_forward_ok (i o B : nat) (l : Linear F) (t : Tensor F) :
  Linear_ok i o l ->
  shape t = [B; i] ->
  exists out,
    Linear_forward l t = Ok out /\
    shape out = [B; o] /\
    length (data out) = B * o /\
    rows out = map (affine l) (rows t).
Proof.
  intros Hl Hs. eexists. split; [apply (Linear_forward_2d _ Hl Hs)|].
  eapply rows_Linear_forward; eauto. apply (Linear_forward_2d _ Hl Hs).
Qed.

(** The non-normalized StateEncoder on a valid batch. *)
Lemma Base_InitState_forward_valid (latent B : nat)
    (self : Base.InitState.InsideAgentForInitState F) (state : Tensor Z) :
  Base.InitState.init_ok latent self ->
  shape state = [B; Base.InitState.n_digits self] ->
  length (data state) = B * Base.InitState.n_digits self ->
  1 <= B -> 1 <= Base.InitState.n_states_per_digit self ->
  Forall (valid_digit (Base.InitState.n_states_per_digit self))
         (data state) ->
  exists enc a1 a2 out,
    encode (Base.InitState.n_states_per_digit self) state = Ok enc /\
    Linear_forward (Base.InitState.fc1 self) enc = Ok a1 /\
    Linear_forward (Base.InitState.fc2 self) (relu a1) = Ok a2 /\
    Linear_forward (Base.InitState.fc3 self) (relu a2) = Ok out /\
    Base.InitState.forward state self = (Ok out, self) /\
    shape out = [B; Base.InitState.vocab_size self] /\
    length (data out) = B * Base.InitState.vocab_size self /\
    rows out
    = map (fun r =>
             affine (Base.InitState.fc3 self)
               (map frelu
                  (affine (Base.InitState.fc2 self)
                     (map frelu (affine (Base.InitState.fc1 self) r)))))
          (rows enc).
Proof.
  intros (H1 & H2 & H3) Hs Hl HB Hn Hv.
  pose proof (encode_valid (F := F) state Hs Hl HB Hn Hv) as Henc.
  set (enc := mkTensor _ _) in Henc.
  rewrite Nat.mul_comm in H1.
  destruct (@Linear_forward_ok _ _ B _ enc H1 eq_refl)
    as (a1 & E1 & S1 & _ & R1).
  destruct (@Linear_forward_ok _ _ B _ (relu a1) H2 S1)
    as (a2 & E2 & S2 & _ & R2).
  destruct (@Linear_forward_ok _ _ B _ (relu a2) H3 S2)
    as (out & E3 & S3 & L3 & R3).
  exists enc, a1, a2, out.
  repeat split; auto.
  - unfold Base.InitState.forward. fwd_unfold.
    now rewrite Henc, E1, E2, E3.
  - rewrite R3, rows_relu, R2, rows_relu, R1, !map_map. reflexivity.
Qed.

(** The batch-normalized StateEncoder on a valid batch. *)
Lemma Wire_InitState_forward_valid (latent B : nat)
    (self : Wire.InitState.InsideAgentForInitState F) (state : Tensor Z) :
  Wire.InitState.init_ok latent self ->
  1 <= latent ->
  shape state = [B; Wire.InitState.n_digits self] ->
  length (data state) = B * Wire.InitState.n_digits self ->
  1 <= B -> 1 <= Wire.InitState.n_states_per_digit self ->
  Forall (valid_digit (Wire.InitState.n_states_per_digit self))
         (data state) ->
  bn_batch_ok (Wire.InitState.bn1 self) B ->
  bn_batch_ok (Wire.InitState.bn2 self) B ->
  exists enc a1 h1 a2 h2 out b1 b2,
    encode (Wire.InitState.n_states_per_digit self) state = Ok enc /\
    Linear_forward (Wire.InitState.fc1 self) enc = Ok a1 /\
    BatchNorm1d_forward a1 (Wire.InitState.bn1 self) = (Ok h1, b1) /\
    Linear_forward (Wire.InitState.fc2 self) (relu h1) = Ok a2 /\
    BatchNorm1d_forward a2 (Wire.InitState.bn2 self) = (Ok h2, b2) /\
    Linear_forward (Wire.InitState.fc3 self) (relu h2) = Ok out /\
    Wire.InitState.forward state self
    = (Ok out, Wire.InitState.set_bn2 b2 (Wire.InitState.set_bn1 b1 self)) /\
    shape out = [B; Wire.InitState.vocab_size self] /\
    length (data out) = B * Wire.InitState.vocab_size self /\
    (training (Wire.InitState.bn1 self) = false -> b1 = Wire.InitState.bn1 self) /\
    (training (Wire.InitState.bn2 self) = false -> b2 = Wire.InitState.bn2 self).
Proof.
  intros (H1 & N1 & H2 & N2 & H3) Hlat Hs Hl HB Hn Hv Hb1 Hb2.
  pose proof (encode_valid (F := F) state Hs Hl HB Hn Hv) as Henc.
  set (enc := mkTensor _ _) in Henc.
  rewrite Nat.mul_comm in H1.
  destruct (@Linear_forward_ok _ _ B _ enc H1 eq_refl)
    as (a1 & E1 & S1 & _).
  destruct (@BatchNorm1d_forward_2d _ _ latent B _ a1 N1 S1 HB Hlat Hb1)
    as (h1 & b1 & Eb1 & Sh1 & _ & _ & _ & K1).
  destruct (@Linear_forward_ok _ _ B _ (relu h1) H2 Sh1)
    as (a2 & E2 & S2 & _).
  destruct (@BatchNorm1d_forward_2d _ _ latent B _ a2 N2 S2 HB Hlat Hb2)
    as (h2 & b2 & Eb2 & Sh2 & _ & _ & _ & K2).
  destruct (@Linear_forward_ok _ _ B _ (relu h2) H3 Sh2)
    as (out & E3 & S3 & L3 & _).
  exists enc, a1, h1, a2, h2, out, b1, b2.
  repeat split; auto.
  unfold Wire.InitState.forward. fwd_unfold.
  rewrite Henc, E1, Eb1. simpl. rewrite E2, Eb2. simpl. now rewrite E3.
Qed.

End ForwardFacts.

(** ** Slice assignment *)

Lemma expand_aligned_same {A} (s : list nat) (d : list A) :
  length d = numel s -> expand_aligned s s d = Some d.
Proof.
  revert d; induction s as [|n s IH]; intros d Hd; simpl; [reflexivity|].
  rewrite Nat.eqb_refl. simpl in Hd.
  rewrite (map_ext_in _ (@Some (list A))).
  - rewrite sequence_all_some. simpl. now rewrite concat_chunks.
  - intros r Hr. apply IH.
    pose proof (chunks_widths n (numel s) d Hd) as Hall.
    rewrite Forall_forall in Hall. now apply Hall.
Qed.

(** A value of shape [(1, B, n)] assigned to a slice of shape [(B, n)] is
    written as it is. *)
Lemma expand_unsqueezed {A} (B n : nat) (d : list A) :
  length d = B * n ->
  expand (strip_ones [1; B; n]) [B; n] d = Some d.
Proof.
  intros Hd.
  assert (E : expand_aligned [B; n] [B; n] d = Some d)
    by (apply expand_aligned_same; simpl; lia).
  destruct B as [|[|B]]; [exact E | | exact E].
  destruct n as [|[|n]]; exact E.
Qed.

Lemma flat_index_parts (B D n idx : nat) :
  idx < B * D * n ->
  0 < n /\ 0 < D /\ (idx / n) mod D < D /\ idx / n / D < B /\ idx mod n < n /\
  idx / n / D * n + idx mod n < B * n.
Proof.
  intros Hidx.
  assert (Hn : 0 < n) by (destruct n; [lia|lia]).
  assert (HD : 0 < D) by (destruct D; [lia|lia]).
  assert (Hq : idx / n < B * D)
    by (apply Nat.Div0.div_lt_upper_bound; lia).
  assert (Hb : idx / n / D < B)
    by (apply Nat.Div0.div_lt_upper_bound; lia).
  assert (Hk : idx mod n < n) by (apply Nat.mod_upper_bound; lia).
  assert (Hi : (idx / n) mod D < D) by (apply Nat.mod_upper_bound; lia).
  repeat split; auto. nia.
Qed.

Lemma flat_index_of (D n b i k : nat) :
  i < D -> k < n ->
  ((b * D + i) * n + k) / n = b * D + i /\
  ((b * D + i) * n + k) mod n = k /\
  (b * D + i) mod D = i /\
  (b * D + i) / D = b.
Proof.
  intros Hi Hk. repeat split.
  - rewrite Nat.div_add_l by lia. rewrite Nat.div_small by lia. lia.
  - rewrite Nat.add_comm, Nat.Div0.mod_add. now apply Nat.mod_small.
  - rewrite Nat.add_comm, Nat.Div0.mod_add. now apply Nat.mod_small.
  - rewrite Nat.div_add_l by lia. rewrite Nat.div_small by lia. lia.
Qed.

Lemma setitem_mid_unsqueezed {A} (out y : Tensor A) (B D n i : nat) :
  shape out = [B; D; n] ->
  length (data out) = B * D * n ->
  i < D ->
  shape y = [B; n] ->
  length (data y) = B * n ->
  exists out',
    setitem_mid out i (unsqueeze0 y) = Ok out' /\
    shape out' = [B; D; n] /\
    length (data out') = B * D * n /\
    forall idx, idx < B * D * n ->
      nth_error (data out') idx
      = if (idx / n) mod D =? i
        then nth_error (data y) (idx / n / D * n + idx mod n)
        else nth_error (data out) idx.
Proof.
  intros Hs Hl Hi Hsy Hly. unfold setitem_mid, unsqueeze0.
  rewrite Hs. simpl shape. simpl data. rewrite Hsy.
  apply Nat.ltb_lt in Hi. rewrite Hi.
  rewrite (expand_unsqueezed B n (data y) Hly).
  eexists. split; [reflexivity|]. simpl.
  split; [reflexivity|].
  split; [unfold imap; now rewrite imap_from_length|].
  intros idx Hidx. unfold imap. rewrite nth_error_imap_from. simpl.
  destruct (@nth_error_in_range _ (data out) idx) as [old Eold]; [lia|].
  rewrite Eold. simpl.
  destruct ((idx / n) mod D =? i); [|reflexivity].
  destruct (flat_index_parts B D n Hidx) as (_ & _ & _ & _ & _ & Hq).
  destruct (@nth_error_in_range _ (data y) (idx / n / D * n + idx mod n))
    as [v Ev]; [lia|].
  rewrite Ev. f_equal. now apply nth_error_nth.
Qed.

(** ** Loops *)

Lemma for_each_app {S A} (l1 l2 : list nat) (body : nat -> A -> Fwd S A)
    (acc : A) (s : S) :
  for_each (l1 ++ l2) body acc s
  = bind (for_each l1 body acc) (fun acc' => for_each l2 body acc') s.
Proof.
  revert acc s; induction l1 as [|i l1 IH]; intros acc s; simpl.
  - reflexivity.
  - unfold bind in *. destruct (body i acc s) as [[a|e] s']; [|reflexivity].
    apply IH.
Qed.

Lemma nth_error_row {A} (t : Tensor A) (B W b k : nat) :
  shape t = [B; W] -> b < B -> k < W ->
  exists r,
    nth_error (rows t) b = Some r /\
    nth_error r k = nth_error (data t) (b * W + k).
Proof.
  intros Hs Hb Hk. rewrite (rows_2d _ Hs), nth_error_chunks by assumption.
  eexists. split; [reflexivity|]. now apply nth_error_firstn_skipn.
Qed.

(** ** The per-digit-head ActionDecoder *)

Section BaseAction.

Context {F : Type} `{Scalar F}.

Import Base.Action.

Variable latent : nat.
Variable self : InsideAgentForAction F.
Hypothesis Hinit : init_ok latent self.

Let D := n_digits self.
Let n := n_states_per_digit self.

Lemma Base_Action_trunk (B : nat) (x : Tensor F) :
  shape x = [B; vocab_size self] ->
  exists lat,
    trunk x self = (Ok lat, self) /\
    shape lat = [B; latent] /\
    length (data lat) = B * latent /\
    rows lat = map (trunk_row self) (rows x).
Proof.
  destruct Hinit as (H1 & H2 & _). intros Hs.
  destruct (@Linear_forward_ok _ _ _ _ B _ x H1 Hs) as (a1 & E1 & S1 & _ & R1).
  destruct (@Linear_forward_ok _ _ _ _ B _ (relu a1) H2 S1)
    as (a2 & E2 & S2 & L2 & R2).
  exists (relu a2). split.
  - unfold trunk. fwd_unfold. now rewrite E1, E2.
  - split; [exact S2|]. split; [now rewrite length_relu|].
    rewrite rows_relu, R2, rows_relu, R1, !map_map. reflexivity.
Qed.

Lemma Base_Action_head (B i : nat) (lat : Tensor F) :
  shape lat = [B; latent] ->
  i < D ->
  exists l3 l4 y,
    nth_error (fc3 self) i = Some l3 /\
    nth_error (fc4 self) i = Some l4 /\
    head i lat self = (Ok (unsqueeze0 y), self) /\
    shape y = [B; n] /\
    length (data y) = B * n /\
    rows y = map (head_row l3 l4) (rows lat).
Proof.
  destruct Hinit as (_ & _ & Hl3 & H3 & Hl4 & H4). intros Hs Hi.
  destruct (@nth_error_in_range _ (fc3 self) i) as [l3 E3]; [fold D in Hl3; lia|].
  destruct (@nth_error_in_range _ (fc4 self) i) as [l4 E4]; [fold D in Hl4; lia|].
  rewrite Forall_forall in H3, H4.
  pose proof (H3 _ (nth_error_In _ _ E3)) as K3.
  pose proof (H4 _ (nth_error_In _ _ E4)) as K4.
  destruct (@Linear_forward_ok _ _ _ _ B _ lat K3 Hs) as (h & Eh & Sh & _ & Rh).
  destruct (@Linear_forward_ok _ _ _ _ B _ (relu h) K4 Sh)
    as (y & Ey & Sy & Ly & Ry).
  exists l3, l4, y. repeat split; auto.
  - unfold head, list_index. fwd_unfold. now rewrite E4, E3, Eh, Ey.
  - rewrite Ry, rows_relu, Rh, !map_map. reflexivity.
Qed.

(** After the first [j] iterations of the loop the slices of the digits
    below [j] hold their heads' outputs and the rest is untouched. *)
Lemma Base_Action_loop (B : nat) (lat out0 : Tensor F) :
  shape lat = [B; latent] ->
  shape out0 = [B; D; n] ->
  length (data out0) = B * D * n ->
  forall j, j <= D ->
  exists out,
    for_each (seq 0 j)
      (fun i output_lst =>
         (v <- head i lat ;; call (setitem_mid output_lst i v))%fwd)
      out0 self
    = (Ok out, self) /\
    shape out = [B; D; n] /\
    length (data out) = B * D * n /\
    forall idx, idx < B * D * n ->
      if (idx / n) mod D <? j then
        exists y,
          head ((idx / n) mod D) lat self = (Ok (unsqueeze0 y), self) /\
          nth_error (data out) idx
          = nth_error (data y) (idx / n / D * n + idx mod n)
      else nth_error (data out) idx = nth_error (data out0) idx.
Proof.
  intros Hs Hs0 Hl0 j. induction j as [|j IH]; intros Hj.
  - exists out0. simpl. repeat split; auto.
  - destruct IH as (out & Eout & So & Lo & Po); [lia|].
    destruct (@Base_Action_head B j lat Hs Hj)
      as (l3 & l4 & y & _ & _ & Ehead & Sy & Ly & _).
    destruct (@setitem_mid_unsqueezed _ out y B D n j So Lo Hj Sy Ly)
      as (out' & Eset & So' & Lo' & Po').
    exists out'. split.
    + rewrite seq_S, for_each_app. simpl.
      unfold bind at 1. rewrite Eout. simpl. fwd_unfold.
      now rewrite Ehead, Eset.
    + split; [exact So'|]. split; [exact Lo'|].
      intros idx Hidx. rewrite (Po' idx Hidx).
      specialize (Po idx Hidx).
      destruct ((idx / n) mod D =? j) eqn:Ej.
      * apply Nat.eqb_eq in Ej. rewrite Ej.
        assert (E : (j <? S j) = true) by (apply Nat.ltb_lt; lia).
        rewrite E. exists y. split; [exact Ehead | reflexivity].
      * apply Nat.eqb_neq in Ej.
        destruct ((idx / n) mod D <? j) eqn:Elt.
        -- assert (E : ((idx / n) mod D <? S j) = true)
             by (apply Nat.ltb_lt; apply Nat.ltb_lt in Elt; lia).
           rewrite E. exact Po.
        -- assert (E : ((idx / n) mod D <? S j) = false)
             by (apply Nat.ltb_ge; apply Nat.ltb_ge in Elt; lia).
           rewrite E. exact Po.
Qed.

(** The forward pass: every position of the output is written by the head
    of its digit. *)
Lemma Base_Action_forward_flat (mem : nat -> F) (B : nat) (x : Tensor F) :
  shape x = [B; vocab_size self] ->
  exists lat out,
    trunk x self = (Ok lat, self) /\
    shape lat = [B; latent] /\
    rows lat = map (trunk_row self) (rows x) /\
    forward mem x self = (Ok out, self) /\
    shape out = [B; D; n] /\
    length (data out) = B * D * n /\
    forall idx, idx < B * D * n ->
      exists y,
        head ((idx / n) mod D) lat self = (Ok (unsqueeze0 y), self) /\
        nth_error (data out) idx
        = nth_error (data y) (idx / n / D * n + idx mod n).
Proof.
  intros Hs.
  destruct (Base_Action_trunk x Hs) as (lat & Et & Sl & _ & Rl).
  assert (Hl0 : length (data (empty mem [B; D; n])) = B * D * n).
  { unfold empty. simpl. rewrite length_map, length_seq. lia. }
  destruct (@Base_Action_loop B lat (empty mem [B; D; n]) Sl eq_refl Hl0 D
              (le_n D))
    as (out & Eo & So & Lo & Po).
  exists lat, out. repeat split; auto.
  - unfold forward. unfold bind at 1. rewrite Et.
    unfold shape0. rewrite Sl. fwd_unfold. fold D n.
    fwd_unfold. unfold bind in Eo. unfold call in Eo.
    now rewrite Eo.
  - intros idx Hidx. specialize (Po idx Hidx).
    destruct (flat_index_parts B D n Hidx) as (_ & _ & Hi & _).
    apply Nat.ltb_lt in Hi. now rewrite Hi in Po.
Qed.

End BaseAction.

Section BaseActionRows.

Context {F : Type} `{Scalar F}.

Import Base.Action.

Lemma unsqueeze0_inj {A} (y y' : Tensor A) :
  unsqueeze0 y = unsqueeze0 y' -> y = y'.
Proof.
  destruct y, y'. unfold unsqueeze0. simpl. intros E.
  injection E as -> ->. reflexivity.
Qed.

(** Entry [[b, i, k]] of the output is score [k] of head [i] on the trunk's
    image of input row [b]. *)
Lemma Base_Action_forward_get (latent : nat) (self : InsideAgentForAction F)
    (mem : nat -> F) (B : nat) (x : Tensor F) :
  init_ok latent self ->
  shape x = [B; vocab_size self] ->
  exists out,
    forward mem x self = (Ok out, self) /\
    shape out = [B; n_digits self; n_states_per_digit self] /\
    length (data out) = B * n_digits self * n_states_per_digit self /\
    forall b i k,
      b < B -> i < n_digits self -> k < n_states_per_digit self ->
      exists l3 l4 r,
        nth_error (fc3 self) i = Some l3 /\
        nth_error (fc4 self) i = Some l4 /\
        nth_error (rows x) b = Some r /\
        tget out [b; i; k]
        = nth_error (head_row l3 l4 (trunk_row self r)) k.
Proof.
  intros Hinit Hs.
  destruct (Base_Action_forward_flat Hinit mem x Hs)
    as (lat & out & _ & Sl & Rl & Ef & So & Lo & Po).
  exists out. repeat split; auto.
  intros b i k Hb Hi Hk.
  destruct (Base_Action_head Hinit lat Sl Hi)
    as (l3 & l4 & y & E3 & E4 & Eh & Sy & Ly & Ry).
  assert (Hr : exists r, nth_error (rows x) b = Some r).
  { apply nth_error_in_range.
    rewrite (rows_2d _ Hs), chunks_length. exact Hb. }
  destruct Hr as [r Er].
  exists l3, l4, r. repeat split; auto.
  rewrite (tget_3d _ So Hb Hi Hk).
  assert (Hidx : (b * n_digits self + i) * n_states_per_digit self + k
                 < B * n_digits self * n_states_per_digit self) by nia.
  destruct (Po _ Hidx) as (y' & Eh' & Ey').
  destruct (flat_index_of b Hi Hk) as (Q1 & Q2 & Q3 & Q4).
  rewrite Q1, Q2, Q3, Q4 in *.
  assert (Eyy : unsqueeze0 y = unsqueeze0 y') by congruence.
  apply unsqueeze0_inj in Eyy. subst y'. rewrite Ey'.
  destruct (nth_error_row y Sy Hb Hk) as (ry & Ery & <-).
  rewrite Ry, Rl, map_map, nth_error_map, Er in Ery. simpl in Ery.
  now injection Ery as <-.
Qed.

End BaseActionRows.

Lemma block_index_lt (D n i k : nat) :
  i < D -> k < n -> i * n + k < D * n.
Proof.
  intros Hi Hk. apply Nat.lt_le_trans with (S i * n); [simpl; lia|].
  apply Nat.mul_le_mono_r. lia.
Qed.

Lemma flat_index_lt (B D n b i k : nat) :
  b < B -> i < D -> k < n -> (b * D + i) * n + k < B * D * n.
Proof.
  intros Hb Hi Hk.
  apply block_index_lt; [|exact Hk].
  apply block_index_lt; assumption.
Qed.

(** ** The batch-normalized ActionDecoder *)

Section WireAction.

Context {F : Type} `{Scalar F}.

Import Wire.Action.

Lemma Wire_Action_set_same (self : InsideAgentForAction F) :
  set_bn2 (bn2 self) (set_bn1 (bn1 self) self) = self.
Proof. now destruct self. Qed.

Lemma Wire_Action_trunk (latent B : nat) (self : InsideAgentForAction F)
    (x : Tensor F) :
  init_ok latent self ->
  1 <= latent -> 1 <= B ->
  shape x = [B; vocab_size self] ->
  bn_batch_ok (bn1 self) B ->
  bn_batch_ok (bn2 self) B ->
  exists a1 h1 a2 h2 b1 b2,
    Linear_forward (fc1 self) x = Ok a1 /\
    BatchNorm1d_forward a1 (bn1 self) = (Ok h1, b1) /\
    Linear_forward (fc2 self) (relu h1) = Ok a2 /\
    BatchNorm1d_forward a2 (bn2 self) = (Ok h2, b2) /\
    trunk x self = (Ok (relu h2), set_bn2 b2 (set_bn1 b1 self)) /\
    shape h2 = [B; latent] /\
    (training (bn1 self) = false -> b1 = bn1 self) /\
    (training (bn2 self) = false -> b2 = bn2 self).
Proof.
  intros (H1 & N1 & H2 & N2 & _) Hlat HB Hs Hb1 Hb2.
  destruct (@Linear_forward_ok _ _ _ _ B _ x H1 Hs) as (a1 & E1 & S1 & _).
  destruct (@BatchNorm1d_forward_2d _ _ latent B _ a1 N1 S1 HB Hlat Hb1)
    as (h1 & b1 & Eb1 & Sh1 & _ & _ & _ & K1).
  destruct (@Linear_forward_ok _ _ _ _ B _ (relu h1) H2 Sh1)
    as (a2 & E2 & S2 & _).
  destruct (@BatchNorm1d_forward_2d _ _ latent B _ a2 N2 S2 HB Hlat Hb2)
    as (h2 & b2 & Eb2 & Sh2 & _ & _ & _ & K2).
  exists a1, h1, a2, h2, b1, b2. repeat split; auto.
  unfold trunk. fwd_unfold.
  rewrite E1, Eb1. simpl. rewrite E2, Eb2. reflexivity.
Qed.

Lemma Wire_Action_forward_ok (latent B : nat) (self : InsideAgentForAction F)
    (x : Tensor F) :
  init_ok latent self ->
  1 <= latent -> 1 <= B -> 1 <= n_digits self ->
  shape x = [B; vocab_size self] ->
  bn_batch_ok (bn1 self) B ->
  bn_batch_ok (bn2 self) B ->
  exists lat y out self',
    trunk x self = (Ok lat, self') /\
    shape lat = [B; latent] /\
    Linear_forward (fc3 self) lat = Ok y /\
    shape y = [B; n_states_per_digit self * n_digits self] /\
    forward x self = (Ok out, self') /\
    shape out = [B; n_digits self; n_states_per_digit self] /\
    data out = data y /\
    length (data out) = B * n_digits self * n_states_per_digit self /\
    (training (bn1 self) = false -> training (bn2 self) = false ->
     self' = self).
Proof.
  intros Hinit Hlat HB HD Hs Hb1 Hb2.
  destruct (Wire_Action_trunk x Hinit Hlat HB Hs Hb1 Hb2)
    as (a1 & h1 & a2 & h2 & b1 & b2 & _ & _ & _ & _ & Et & Sh & K1 & K2).
  destruct Hinit as (_ & _ & _ & _ & H3).
  destruct (@Linear_forward_ok _ _ _ _ B _ (relu h2) H3 Sh)
    as (y & Ey & Sy & Ly & _).
  assert (Er : reshape y [Some B; Some (n_digits self); None]
               = Ok (mkTensor [B; n_digits self; n_states_per_digit self]
                       (data y))).
  { apply reshape_digits; auto. rewrite Sy. simpl. nia. }
  eexists (relu h2), y, _, _. split; [exact Et|].
  split; [exact Sh|]. split; [exact Ey|]. split; [exact Sy|].
  split.
  - unfold forward. unfold bind at 1. rewrite Et. fwd_unfold. simpl.
    rewrite Ey. unfold shape0. simpl. rewrite Sh, Er. reflexivity.
  - simpl. repeat split; auto; [nia|].
    intros T1 T2. rewrite (K1 T1), (K2 T2). apply Wire_Action_set_same.
Qed.

Lemma BatchNorm1d_forward_empty (C : nat) (bn : BatchNorm1d F)
    (t : Tensor F) :
  BatchNorm1d_ok C bn ->
  1 <= C ->
  shape t = [0; C] ->
  exists out bn',
    BatchNorm1d_forward t bn = (Ok out, bn') /\ shape out = [0; C].
Proof.
  intros (_ & Hw & Hb & _) HC Hs.
  unfold BatchNorm1d_forward. rewrite Hs. simpl.
  rewrite andb_false_r.
  destruct (bn_weight bn) as [|w0 ws]; [simpl in Hw; lia|].
  destruct (bn_bias bn) as [|b0 bs]; [simpl in Hb; lia|].
  eexists _, _. split; [reflexivity|]. simpl. exact Hs.
Qed.

(** The batch-normalized decoder refuses an empty batch: the last
    dimension of [reshape(0, n_digits, -1)] cannot be inferred. *)
Lemma Wire_Action_forward_empty_batch (latent : nat)
    (self : InsideAgentForAction F) (x : Tensor F) :
  init_ok latent self ->
  1 <= latent ->
  shape x = [0; vocab_size self] ->
  exists msg self',
    forward x self = (Raise (RuntimeError msg), self').
Proof.
  intros (H1 & N1 & H2 & N2 & H3) Hlat Hs.
  destruct (@Linear_forward_ok _ _ _ _ 0 _ x H1 Hs) as (a1 & E1 & S1 & _).
  destruct (BatchNorm1d_forward_empty a1 N1 Hlat S1) as (h1 & b1 & Eb1 & Sh1).
  destruct (@Linear_forward_ok _ _ _ _ 0 _ (relu h1) H2 Sh1)
    as (a2 & E2 & S2 & _).
  destruct (BatchNorm1d_forward_empty a2 N2 Hlat S2) as (h2 & b2 & Eb2 & Sh2).
  destruct (@Linear_forward_ok _ _ _ _ 0 _ (relu h2) H3 Sh2)
    as (y & E3 & S3 & _).
  destruct (@reshape_empty_batch _ y [Some (n_digits self); None])
    as [msg Er]; [reflexivity | now rewrite S3 |].
  exists msg. eexists.
  unfold forward, trunk. fwd_unfold.
  rewrite E1, Eb1. simpl. rewrite E2, Eb2. simpl. rewrite E3.
  unfold shape0. simpl. rewrite Sh2, Er. reflexivity.
Qed.

(** The whole forward pass on a valid batch, layer by layer: the trunk is
    [fc1], [bn1], ReLU, [fc2], [bn2], ReLU; [fc3] maps the latent to one
    wide row per batch element; the result is that tensor reshaped, so
    that entry [[b, i, k]] is component [i * n_states_per_digit + k] of
    [fc3] applied to row [b] of the latent. *)
Lemma Wire_Action_forward_scores (latent B : nat)
    (self : InsideAgentForAction F) (x : Tensor F) :
  init_ok latent self ->
  1 <= latent -> 1 <= B -> 1 <= n_digits self ->
  shape x = [B; vocab_size self] ->
  bn_batch_ok (bn1 self) B ->
  bn_batch_ok (bn2 self) B ->
  exists a1 h1 a2 h2 b1 b2 y out,
    Linear_forward (fc1 self) x = Ok a1 /\
    BatchNorm1d_forward a1 (bn1 self) = (Ok h1, b1) /\
    Linear_forward (fc2 self) (relu h1) = Ok a2 /\
    BatchNorm1d_forward a2 (bn2 self) = (Ok h2, b2) /\
    trunk x self = (Ok (relu h2), set_bn2 b2 (set_bn1 b1 self)) /\
    shape (relu h2) = [B; latent] /\
    Linear_forward (fc3 self) (relu h2) = Ok y /\
    forward x self = (Ok out, set_bn2 b2 (set_bn1 b1 self)) /\
    shape out = [B; n_digits self; n_states_per_digit self] /\
    data out = data y /\
    length (data out) = B * n_digits self * n_states_per_digit self /\
    forall b i k,
      b < B -> i < n_digits self -> k < n_states_per_digit self ->
      exists r,
        nth_error (rows (relu h2)) b = Some r /\
        tget out [b; i; k]
        = nth_error (affine (fc3 self) r) (i * n_states_per_digit self + k).
Proof.
  intros Hinit Hlat HB HD Hs Hb1 Hb2.
  destruct (Wire_Action_trunk x Hinit Hlat HB Hs Hb1 Hb2)
    as (a1 & h1 & a2 & h2 & b1 & b2 & E1 & Eb1 & E2 & Eb2 & Et & Sh & _).
  destruct Hinit as (_ & _ & _ & _ & H3).
  destruct (@Linear_forward_ok _ _ _ _ B _ (relu h2) H3 Sh)
    as (y & Ey & Sy & Ly & Ry).
  assert (Er : reshape y [Some B; Some (n_digits self); None]
               = Ok (mkTensor [B; n_digits self; n_states_per_digit self]
                       (data y))).
  { apply reshape_digits; auto. rewrite Sy. simpl. nia. }
  exists a1, h1, a2, h2, b1, b2, y,
    (mkTensor [B; n_digits self; n_states_per_digit self] (data y)).
  split; [exact E1|]. split; [exact Eb1|]. split; [exact E2|].
  split; [exact Eb2|]. split; [exact Et|]. split; [exact Sh|].
  split; [exact Ey|].
  split.
  { unfold forward. unfold bind at 1. rewrite Et. fwd_unfold. simpl.
    rewrite Ey. unfold shape0. simpl. rewrite Sh, Er. reflexivity. }
  split; [reflexivity|]. split; [reflexivity|].
  split; [simpl; rewrite Ly; nia|].
  intros b i k Hb Hi Hk.
  assert (Hr : exists r, nth_error (rows (relu h2)) b = Some r).
  { apply nth_error_in_range.
    rewrite (@rows_2d _ (relu h2) B latent Sh), chunks_length. exact Hb. }
  destruct Hr as [r Er0]. exists r. split; [exact Er0|].
  erewrite tget_3d by (try reflexivity; assumption). simpl.
  assert (Hj : i * n_states_per_digit self + k
               < n_states_per_digit self * n_digits self)
    by (rewrite (Nat.mul_comm (n_states_per_digit self));
        now apply block_index_lt).
  destruct (nth_error_row y Sy Hb Hj) as (ry & Ery & Eq).
  replace ((b * n_digits self + i) * n_states_per_digit self + k)
    with (b * (n_states_per_digit self * n_digits self)
          + (i * n_states_per_digit self + k)) by ring.
  rewrite <- Eq.
  rewrite Ry, nth_error_map, Er0 in Ery. simpl in Ery.
  now injection Ery as <-.
Qed.

End WireAction.

(** * The claims *)

Ltac demo_ok :=
  first [ reflexivity
        | lia
        | (intros _; lia)
        | (repeat split; repeat constructor; unfold valid_digit; simpl; lia) ].

(** C2. On every valid input batch (at least one row, digits in range and,
    for the normalized variant in training mode, at least two rows) the
    StateEncoder is the encoding step followed by [fc1], ReLU, [fc2], ReLU
    and [fc3], with batch normalization between each hidden affine layer
    and its ReLU in the normalized variant; nothing is applied after
    [fc3], and the result has shape [(batch_size, vocab_size)]. *)
Theorem C2_state_encoder_is_two_hidden_layers_and_output_layer :
  (forall (F : Type) (SF : Scalar F) (latent B : nat)
          (self : Base.InitState.InsideAgentForInitState F)
          (state : Tensor Z),
      Base.InitState.init_ok latent self ->
      shape state = [B; Base.InitState.n_digits self] ->
      length (data state) = B * Base.InitState.n_digits self ->
      1 <= B -> 1 <= Base.InitState.n_states_per_digit self ->
      Forall (valid_digit (Base.InitState.n_states_per_digit self))
             (data state) ->
      exists enc a1 a2 out,
        encode (Base.InitState.n_states_per_digit self) state = Ok enc /\
        Linear_forward (Base.InitState.fc1 self) enc = Ok a1 /\
        Linear_forward (Base.InitState.fc2 self) (relu a1) = Ok a2 /\
        Linear_forward (Base.InitState.fc3 self) (relu a2) = Ok out /\
        Base.InitState.forward state self = (Ok out, self) /\
        shape out = [B; Base.InitState.vocab_size self] /\
        length (data out) = B * Base.InitState.vocab_size self) /\
  (forall (F : Type) (SF : Scalar F) (latent B : nat)
          (self : Wire.InitState.InsideAgentForInitState F)
          (state : Tensor Z),
      Wire.InitState.init_ok latent self ->
      1 <= latent ->
      shape state = [B; Wire.InitState.n_digits self] ->
      length (data state) = B * Wire.InitState.n_digits self ->
      1 <= B -> 1 <= Wire.InitState.n_states_per_digit self ->
      Forall (valid_digit (Wire.InitState.n_states_per_digit self))
             (data state) ->
      bn_batch_ok (Wire.InitState.bn1 self) B ->
      bn_batch_ok (Wire.InitState.bn2 self) B ->
      exists enc a1 h1 a2 h2 out b1 b2,
        encode (Wire.InitState.n_states_per_digit self) state = Ok enc /\
        Linear_forward (Wire.InitState.fc1 self) enc = Ok a1 /\
        BatchNorm1d_forward a1 (Wire.InitState.bn1 self) = (Ok h1, b1) /\
        Linear_forward (Wire.InitState.fc2 self) (relu h1) = Ok a2 /\
        BatchNorm1d_forward a2 (Wire.InitState.bn2 self) = (Ok h2, b2) /\
        Linear_forward (Wire.InitState.fc3 self) (relu h2) = Ok out /\
        Wire.InitState.forward state self
        = (Ok out,
           Wire.InitState.set_bn2 b2 (Wire.InitState.set_bn1 b1 self)) /\
        shape out = [B; Wire.InitState.vocab_size self] /\
        length (data out) = B * Wire.InitState.vocab_size self).
Proof.
  split.
  - intros F SF latent B self state Hinit Hs Hl HB Hn Hv.
    destruct (Base_InitState_forward_valid state Hinit Hs Hl HB Hn Hv)
      as (enc & a1 & a2 & out & K).
    exists enc, a1, a2, out. intuition.
  - intros F SF latent B self state Hinit Hlat Hs Hl HB Hn Hv Hb1 Hb2.
    destruct (Wire_InitState_forward_valid
                state Hinit Hlat Hs Hl HB Hn Hv Hb1 Hb2)
      as (enc & a1 & h1 & a2 & h2 & out & b1 & b2 & K).
    exists enc, a1, h1, a2, h2, out, b1, b2. intuition.
Qed.

Lemma C2_state_encoder_is_two_hidden_layers_and_output_layer_witness :
  (exists enc a1 a2 out,
      encode 3 Demo.states = Ok enc /\
      Linear_forward (Base.InitState.fc1 Demo.base_encoder) enc = Ok a1 /\
      Linear_forward (Base.InitState.fc2 Demo.base_encoder) (relu a1)
      = Ok a2 /\
      Linear_forward (Base.InitState.fc3 Demo.base_encoder) (relu a2)
      = Ok out /\
      Base.InitState.forward Demo.states Demo.base_encoder
      = (Ok out, Demo.base_encoder) /\
      shape out = [2; 2] /\
      length (data out) = 2 * 2) /\
  (exists enc a1 h1 a2 h2 out b1 b2,
      encode 3 Demo.states = Ok enc /\
      Linear_forward (Wire.InitState.fc1 (Demo.wire_encoder true)) enc
      = Ok a1 /\
      BatchNorm1d_forward a1 (Wire.InitState.bn1 (Demo.wire_encoder true))
      = (Ok h1, b1) /\
      Linear_forward (Wire.InitState.fc2 (Demo.wire_encoder true)) (relu h1)
      = Ok a2 /\
      BatchNorm1d_forward a2 (Wire.InitState.bn2 (Demo.wire_encoder true))
      = (Ok h2, b2) /\
      Linear_forward (Wire.InitState.fc3 (Demo.wire_encoder true)) (relu h2)
      = Ok out /\
      Wire.InitState.forward Demo.states (Demo.wire_encoder true)
      = (Ok out,
         Wire.InitState.set_bn2 b2
           (Wire.InitState.set_bn1 b1 (Demo.wire_encoder true))) /\
      shape out = [2; 2] /\
      length (data out) = 2 * 2).
Proof.
  split.
  - apply (proj1 C2_state_encoder_is_two_hidden_layers_and_output_layer
             float Binary64 4 2 Demo.base_encoder Demo.states); demo_ok.
  - apply (proj2 C2_state_encoder_is_two_hidden_layers_and_output_layer
             float Binary64 4 2 (Demo.wire_encoder true) Demo.states);
      demo_ok.
Defined.

(** C3. For every input batch of shape [(batch_size, vocab_size)] the
    ActionDecoder returns a tensor of shape
    [(batch_size, n_digits, n_states_per_digit)].  In the per-digit-head
    variant entry [[b, i, k]] is score [k] of head [i] (affine, ReLU,
    affine) applied to the trunk's image (affine, ReLU, affine, ReLU) of
    input row [b].  In the batch-normalized variant, for a batch of at
    least one row (two in training mode) and at least one digit, the trunk
    is [fc1], [bn1], ReLU, [fc2], [bn2], ReLU, and entry [[b, i, k]] of the
    output is component [i * n_states_per_digit + k] of [fc3] applied to
    row [b] of the trunk's latent. *)
Theorem C3_action_decoder_output_shape :
  (forall (F : Type) (SF : Scalar F) (latent B : nat)
          (self : Base.Action.InsideAgentForAction F)
          (mem : nat -> F) (x : Tensor F),
      Base.Action.init_ok latent self ->
      shape x = [B; Base.Action.vocab_size self] ->
      exists out,
        Base.Action.forward mem x self = (Ok out, self) /\
        shape out = [B; Base.Action.n_digits self;
                     Base.Action.n_states_per_digit self] /\
        length (data out)
        = B * Base.Action.n_digits self
          * Base.Action.n_states_per_digit self /\
        forall b i k,
          b < B -> i < Base.Action.n_digits self ->
          k < Base.Action.n_states_per_digit self ->
          exists l3 l4 r,
            nth_error (Base.Action.fc3 self) i = Some l3 /\
            nth_error (Base.Action.fc4 self) i = Some l4 /\
            nth_error (rows x) b = Some r /\
            tget out [b; i; k]
            = nth_error
                (Base.Action.head_row l3 l4 (Base.Action.trunk_row self r))
                k) /\
  (forall (F : Type) (SF : Scalar F) (latent B : nat)
          (self : Wire.Action.InsideAgentForAction F) (x : Tensor F),
      Wire.Action.init_ok latent self ->
      1 <= latent -> 1 <= B -> 1 <= Wire.Action.n_digits self ->
      shape x = [B; Wire.Action.vocab_size self] ->
      bn_batch_ok (Wire.Action.bn1 self) B ->
      bn_batch_ok (Wire.Action.bn2 self) B ->
      exists a1 h1 a2 h2 b1 b2 y out,
        Linear_forward (Wire.Action.fc1 self) x = Ok a1 /\
        BatchNorm1d_forward a1 (Wire.Action.bn1 self) = (Ok h1, b1) /\
        Linear_forward (Wire.Action.fc2 self) (relu h1) = Ok a2 /\
        BatchNorm1d_forward a2 (Wire.Action.bn2 self) = (Ok h2, b2) /\
        Wire.Action.trunk x self
        = (Ok (relu h2), Wire.Action.set_bn2 b2 (Wire.Action.set_bn1 b1 self))
        /\
        shape (relu h2) = [B; latent] /\
        Linear_forward (Wire.Action.fc3 self) (relu h2) = Ok y /\
        Wire.Action.forward x self
        = (Ok out, Wire.Action.set_bn2 b2 (Wire.Action.set_bn1 b1 self)) /\
        shape out = [B; Wire.Action.n_digits self;
                     Wire.Action.n_states_per_digit self] /\
        data out = data y /\
        length (data out)
        = B * Wire.Action.n_digits self
          * Wire.Action.n_states_per_digit self /\
        forall b i k,
          b < B -> i < Wire.Action.n_digits self ->
          k < Wire.Action.n_states_per_digit self ->
          exists r,
            nth_error (rows (relu h2)) b = Some r /\
            tget out [b; i; k]
            = nth_error (affine (Wire.Action.fc3 self) r)
                (i * Wire.Action.n_states_per_digit self + k)).
Proof.
  split.
  - intros F SF latent B self mem x Hinit Hs.
    apply (Base_Action_forward_get mem x Hinit Hs).
  - intros F SF latent B self x Hinit Hlat HB HD Hs Hb1 Hb2.
    apply (Wire_Action_forward_scores x Hinit Hlat HB HD Hs Hb1 Hb2).
Qed.

Lemma C3_action_decoder_output_shape_witness :
  (exists out,
      Base.Action.forward (fun _ => 77%float) Demo.symbols Demo.base_decoder
      = (Ok out, Demo.base_decoder) /\
      shape out = [2; 2; 3] /\
      length (data out) = 2 * 2 * 3 /\
      forall b i k,
        b < 2 -> i < 2 -> k < 3 ->
        exists l3 l4 r,
          nth_error (Base.Action.fc3 Demo.base_decoder) i = Some l3 /\
          nth_error (Base.Action.fc4 Demo.base_decoder) i = Some l4 /\
          nth_error (rows Demo.symbols) b = Some r /\
          tget out [b; i; k]
          = nth_error
              (Base.Action.head_row l3 l4
                 (Base.Action.trunk_row Demo.base_decoder r))
              k) /\
  (exists a1 h1 a2 h2 b1 b2 y out,
      Linear_forward (Wire.Action.fc1 (Demo.wire_decoder true)) Demo.symbols
      = Ok a1 /\
      BatchNorm1d_forward a1 (Wire.Action.bn1 (Demo.wire_decoder true))
      = (Ok h1, b1) /\
      Linear_forward (Wire.Action.fc2 (Demo.wire_decoder true)) (relu h1)
      = Ok a2 /\
      BatchNorm1d_forward a2 (Wire.Action.bn2 (Demo.wire_decoder true))
      = (Ok h2, b2) /\
      Wire.Action.trunk Demo.symbols (Demo.wire_decoder true)
      = (Ok (relu h2),
         Wire.Action.set_bn2 b2
           (Wire.Action.set_bn1 b1 (Demo.wire_decoder true))) /\
      shape (relu h2) = [2; 4] /\
      Linear_forward (Wire.Action.fc3 (Demo.wire_decoder true)) (relu h2)
      = Ok y /\
      Wire.Action.forward Demo.symbols (Demo.wire_decoder true)
      = (Ok out,
         Wire.Action.set_bn2 b2
           (Wire.Action.set_bn1 b1 (Demo.wire_decoder true))) /\
      shape out = [2; 2; 3] /\
      data out = data y /\
      length (data out) = 2 * 2 * 3 /\
      forall b i k,
        b < 2 -> i < 2 -> k < 3 ->
        exists r,
          nth_error (rows (relu h2)) b = Some r /\
          tget out [b; i; k]
          = nth_error (affine (Wire.Action.fc3 (Demo.wire_decoder true)) r)
              (i * 3 + k)).
Proof.
  split.
  - apply (proj1 C3_action_decoder_output_shape float Binary64 4 2
             Demo.base_decoder (fun _ => 77%float) Demo.symbols); demo_ok.
  - apply (proj2 C3_action_decoder_output_shape float Binary64 4 2
             (Demo.wire_decoder true) Demo.symbols); demo_ok.
Defined.

(** C4. In the per-digit-head ActionDecoder, two modules that differ only
    in the layers of digit [j]'s head ([fc3[j]], [fc4[j]]) give, on the
    same input, the same output slice for every other digit [i]. *)
Theorem C4_heads_are_independent
    (F : Type) (SF : Scalar F) (latent B i j : nat)
    (self1 self2 : Base.Action.InsideAgentForAction F)
    (mem : nat -> F) (x : Tensor F) :
  Base.Action.init_ok latent self1 ->
  Base.Action.init_ok latent self2 ->
  Base.Action.n_digits self2 = Base.Action.n_digits self1 ->
  Base.Action.n_states_per_digit self2
  = Base.Action.n_states_per_digit self1 ->
  Base.Action.vocab_size self2 = Base.Action.vocab_size self1 ->
  Base.Action.fc1 self2 = Base.Action.fc1 self1 ->
  Base.Action.fc2 self2 = Base.Action.fc2 self1 ->
  (forall i', i' <> j ->
     nth_error (Base.Action.fc3 self2) i'
     = nth_error (Base.Action.fc3 self1) i' /\
     nth_error (Base.Action.fc4 self2) i'
     = nth_error (Base.Action.fc4 self1) i') ->
  shape x = [B; Base.Action.vocab_size self1] ->
  i <> j ->
  exists out1 out2,
    Base.Action.forward mem x self1 = (Ok out1, self1) /\
    Base.Action.forward mem x self2 = (Ok out2, self2) /\
    shape out2 = shape out1 /\
    forall b k, tget out1 [b; i; k] = tget out2 [b; i; k].
Proof.
  intros Hi1 Hi2 ED En EV E1 E2 Eheads Hs Hij.
  destruct (Base_Action_forward_get mem x Hi1 Hs)
    as (out1 & Ef1 & So1 & _ & P1).
  assert (Hs2 : shape x = [B; Base.Action.vocab_size self2])
    by (now rewrite EV).
  destruct (Base_Action_forward_get mem x Hi2 Hs2)
    as (out2 & Ef2 & So2 & _ & P2).
  exists out1, out2. split; [exact Ef1|]. split; [exact Ef2|].
  rewrite ED, En in So2. split; [now rewrite So1, So2|].
  intros b k.
  destruct (b <? B) eqn:Eb;
    [|unfold tget; rewrite So1, So2; simpl; now rewrite Eb].
  destruct (i <? Base.Action.n_digits self1) eqn:Ei;
    [|unfold tget; rewrite So1, So2; simpl; now rewrite Eb, Ei].
  destruct (k <? Base.Action.n_states_per_digit self1) eqn:Ek;
    [|unfold tget; rewrite So1, So2; simpl; now rewrite Eb, Ei, Ek].
  apply Nat.ltb_lt in Eb, Ei, Ek.
  destruct (P1 b i k Eb Ei Ek) as (l3 & l4 & r & A3 & A4 & Ar & ->).
  destruct (P2 b i k) as (l3' & l4' & r' & A3' & A4' & Ar' & ->);
    [assumption | now rewrite ED | now rewrite En |].
  destruct (Eheads i Hij) as [H3 H4].
  rewrite H3, A3 in A3'. rewrite H4, A4 in A4'. rewrite Ar in Ar'.
  injection A3' as <-. injection A4' as <-. injection Ar' as <-.
  unfold Base.Action.trunk_row. now rewrite E1, E2.
Qed.

Lemma C4_heads_are_independent_witness :
  exists out1 out2,
    Base.Action.forward (fun _ => 77%float) Demo.symbols Demo.base_decoder
    = (Ok out1, Demo.base_decoder) /\
    Base.Action.forward (fun _ => 77%float) Demo.symbols
      Demo.base_decoder_zeroed
    = (Ok out2, Demo.base_decoder_zeroed) /\
    shape out2 = shape out1 /\
    forall b k, tget out1 [b; 0; k] = tget out2 [b; 0; k].
Proof.
  apply (@C4_heads_are_independent float Binary64 4 2 0 1
           Demo.base_decoder Demo.base_decoder_zeroed
           (fun _ => 77%float) Demo.symbols); try demo_ok.
  intros [|[|i']] Hi'; [split; reflexivity | congruence | split; reflexivity].
Defined.

(** C5. In the batch-normalized ActionDecoder the output is the wide layer
    [fc3] applied to the trunk's latent, reshaped row-major: entry
    [[b, i, k]] of the output is component [i * n_states_per_digit + k] of
    [fc3]'s output for batch element [b]. *)
Theorem C5_wide_layer_is_reshaped_row_major
    (F : Type) (SF : Scalar F) (latent B : nat)
    (self : Wire.Action.InsideAgentForAction F) (x : Tensor F) :
  Wire.Action.init_ok latent self ->
  1 <= latent -> 1 <= B -> 1 <= Wire.Action.n_digits self ->
  shape x = [B; Wire.Action.vocab_size self] ->
  bn_batch_ok (Wire.Action.bn1 self) B ->
  bn_batch_ok (Wire.Action.bn2 self) B ->
  exists lat y out self',
    Wire.Action.trunk x self = (Ok lat, self') /\
    Linear_forward (Wire.Action.fc3 self) lat = Ok y /\
    Wire.Action.forward x self = (Ok out, self') /\
    forall b i k,
      b < B -> i < Wire.Action.n_digits self ->
      k < Wire.Action.n_states_per_digit self ->
      exists v,
        tget y [b; i * Wire.Action.n_states_per_digit self + k] = Some v /\
        tget out [b; i; k] = Some v.
Proof.
  intros Hinit Hlat HB HD Hs Hb1 Hb2.
  destruct (Wire_Action_forward_ok x Hinit Hlat HB HD Hs Hb1 Hb2)
    as (lat & y & out & self' & Et & _ & Ey & Sy & Ef & So & Ed & Lo & _).
  exists lat, y, out, self'. repeat split; auto.
  intros b i k Hb Hi Hk.
  rewrite (tget_3d _ So Hb Hi Hk).
  rewrite (tget_2d _ Sy Hb)
    by (rewrite (Nat.mul_comm (Wire.Action.n_states_per_digit self));
        now apply block_index_lt).
  rewrite Ed in *.
  replace (b * (Wire.Action.n_states_per_digit self
                * Wire.Action.n_digits self)
           + (i * Wire.Action.n_states_per_digit self + k))
    with ((b * Wire.Action.n_digits self + i)
          * Wire.Action.n_states_per_digit self + k) by ring.
  destruct (@nth_error_in_range _ (data y)
              ((b * Wire.Action.n_digits self + i)
               * Wire.Action.n_states_per_digit self + k)) as [v Ev];
    [rewrite Lo; now apply flat_index_lt|].
  exists v. auto.
Qed.

Lemma C5_wide_layer_is_reshaped_row_major_witness :
  exists lat y out self',
    Wire.Action.trunk Demo.symbols (Demo.wire_decoder true)
    = (Ok lat, self') /\
    Linear_forward (Wire.Action.fc3 (Demo.wire_decoder true)) lat = Ok y /\
    Wire.Action.forward Demo.symbols (Demo.wire_decoder true)
    = (Ok out, self') /\
    forall b i k,
      b < 2 -> i < 2 -> k < 3 ->
      exists v,
        tget y [b; i * 3 + k] = Some v /\
        tget out [b; i; k] = Some v.
Proof.
  apply (@C5_wide_layer_is_reshaped_row_major float Binary64 4 2
           (Demo.wire_decoder true) Demo.symbols); demo_ok.
Defined.

(** ** Frames *)

Section Frames.

Variables S T : Type.
Variable P : S -> Prop.

Lemma preserves_ret {A} (a : A) : preserves P (@ret S A a).
Proof. intros s _. reflexivity. Qed.

Lemma preserves_attr {A} (f : S -> A) : preserves P (attr f).
Proof. intros s _. reflexivity. Qed.

Lemma preserves_call {A} (r : result A) : preserves P (@call S A r).
Proof. intros s _. reflexivity. Qed.

Lemma preserves_bind {A B} (m : Fwd S A) (k : A -> Fwd S B) :
  preserves P m -> (forall a, preserves P (k a)) -> preserves P (bind m k).
Proof.
  intros Hm Hk s Hs. unfold bind. specialize (Hm s Hs).
  destruct (m s) as [[a|e] s']; simpl in Hm; subst s'.
  - apply Hk, Hs.
  - reflexivity.
Qed.

Lemma preserves_for_each {A} (l : list nat) (body : nat -> A -> Fwd S A) :
  (forall i acc, preserves P (body i acc)) ->
  forall acc, preserves P (for_each l body acc).
Proof.
  intros Hb. induction l as [|i l IH]; intros acc; simpl.
  - apply preserves_ret.
  - apply preserves_bind; auto.
Qed.

Lemma preserves_call_sub {A} (get : S -> T) (set : T -> S -> S)
    (m : Fwd T A) :
  (forall s, set (get s) s = s) ->
  (forall s, P s -> snd (m (get s)) = get s) ->
  preserves P (call_sub get set m).
Proof.
  intros Hset Hm s Hs. unfold call_sub. specialize (Hm s Hs).
  destruct (m (get s)) as [r t']. simpl in *. subst t'. apply Hset.
Qed.

End Frames.

Ltac frame_steps :=
  repeat first
    [ apply preserves_ret | apply preserves_attr | apply preserves_call
    | (apply preserves_bind; [|intros ?]) ].

Section ForwardFrames.

Context {F : Type} `{Scalar F}.

(** In evaluation mode batch normalization writes nothing. *)
Lemma BatchNorm1d_forward_eval (t : Tensor F) (bn : BatchNorm1d F) :
  training bn = false -> snd (BatchNorm1d_forward t bn) = bn.
Proof.
  intros Htr. unfold BatchNorm1d_forward.
  destruct (bn_dims (shape t)) as [[[N C] L]|]; [|reflexivity].
  rewrite Htr. simpl.
  destruct (numel (shape t) =? 0).
  - destruct (bn_weight bn), (bn_bias bn); reflexivity.
  - destruct (negb _); reflexivity.
Qed.

(** In training mode batch normalization advances its batch counter on
    every call on a 2-D or 3-D input. *)
Lemma BatchNorm1d_forward_counts (t : Tensor F) (bn : BatchNorm1d F)
    (dims : nat * nat * nat) :
  bn_dims (shape t) = Some dims ->
  training bn = true ->
  num_batches_tracked (snd (BatchNorm1d_forward t bn))
  = wrap_int64 (num_batches_tracked bn + 1).
Proof.
  intros Hd Htr. unfold BatchNorm1d_forward. rewrite Hd.
  destruct dims as [[N C] L]. rewrite Htr. simpl.
  destruct (N * L =? 1); [reflexivity|].
  destruct (numel (shape t) =? 0).
  - destruct (bn_weight bn), (bn_bias bn); reflexivity.
  - destruct (negb _); reflexivity.
Qed.

Lemma Base_InitState_forward_frame (state : Tensor Z) :
  preserves (fun _ => True) (Base.InitState.forward (F := F) state).
Proof. unfold Base.InitState.forward. frame_steps. Qed.

Lemma Base_Action_forward_frame (mem : nat -> F) (x : Tensor F) :
  preserves (fun _ => True) (Base.Action.forward mem x).
Proof.
  unfold Base.Action.forward, Base.Action.trunk. frame_steps.
  apply preserves_for_each. intros i acc.
  unfold Base.Action.head. frame_steps.
Qed.

Lemma Wire_InitState_set_same
    (self : Wire.InitState.InsideAgentForInitState F) :
  Wire.InitState.set_bn1 (Wire.InitState.bn1 self) self = self /\
  Wire.InitState.set_bn2 (Wire.InitState.bn2 self) self = self.
Proof. now destruct self. Qed.

Lemma Wire_InitState_forward_frame (state : Tensor Z) :
  preserves Wire.InitState.in_eval_mode
    (Wire.InitState.forward (F := F) state).
Proof.
  unfold Wire.InitState.forward. frame_steps.
  - apply preserves_call_sub.
    + intros s. apply Wire_InitState_set_same.
    + intros s [H1 _]. now apply BatchNorm1d_forward_eval.
  - apply preserves_call_sub.
    + intros s. apply Wire_InitState_set_same.
    + intros s [_ H2]. now apply BatchNorm1d_forward_eval.
Qed.

Lemma Wire_Action_set_each (self : Wire.Action.InsideAgentForAction F) :
  Wire.Action.set_bn1 (Wire.Action.bn1 self) self = self /\
  Wire.Action.set_bn2 (Wire.Action.bn2 self) self = self.
Proof. now destruct self. Qed.

Lemma Wire_Action_forward_frame (x : Tensor F) :
  preserves Wire.Action.in_eval_mode (Wire.Action.forward (F := F) x).
Proof.
  unfold Wire.Action.forward, Wire.Action.trunk. frame_steps.
  - apply preserves_call_sub.
    + intros s. apply Wire_Action_set_each.
    + intros s [H1 _]. now apply BatchNorm1d_forward_eval.
  - apply preserves_call_sub.
    + intros s. apply Wire_Action_set_each.
    + intros s [_ H2]. now apply BatchNorm1d_forward_eval.
Qed.

End ForwardFrames.

(** ** What a training-mode pass writes *)

Section Maintains.

Variables S : Type.
Variable Q : S -> Prop.

Lemma maintains_ret {A} (a : A) : maintains Q (@ret S A a).
Proof. intros s Hs. exact Hs. Qed.

Lemma maintains_attr {A} (f : S -> A) : maintains Q (attr f).
Proof. intros s Hs. exact Hs. Qed.

Lemma maintains_call {A} (r : result A) : maintains Q (@call S A r).
Proof. intros s Hs. exact Hs. Qed.

Lemma maintains_bind {A B} (m : Fwd S A) (k : A -> Fwd S B) :
  maintains Q m -> (forall a, maintains Q (k a)) -> maintains Q (bind m k).
Proof.
  intros Hm Hk s Hs. unfold bind. specialize (Hm s Hs).
  destruct (m s) as [[a|e] s']; simpl in *.
  - now apply Hk.
  - exact Hm.
Qed.

Lemma maintains_call_sub {T A} (get : S -> T) (set : T -> S -> S)
    (m : Fwd T A) :
  (forall t s, Q s -> Q (set t s)) ->
  maintains Q (call_sub get set m).
Proof.
  intros Hset s Hs. unfold call_sub.
  destruct (m (get s)) as [r t']. simpl. now apply Hset.
Qed.

Lemma maintains_after {A B} (m : Fwd S A) (k : A -> Fwd S B) (s : S) :
  Q (snd (m s)) -> (forall a, maintains Q (k a)) -> Q (snd (bind m k s)).
Proof.
  intros Hm Hk. unfold bind.
  destruct (m s) as [[a|e] s']; simpl in *.
  - now apply Hk.
  - exact Hm.
Qed.

Lemma bind_attr_run {A B} (f : S -> A) (k : A -> Fwd S B) (s : S) :
  bind (attr f) k s = k (f s) s.
Proof. reflexivity. Qed.

Lemma bind_call_run {A B} (r : result A) (a : A) (k : A -> Fwd S B)
    (s : S) :
  r = Ok a -> bind (call r) k s = k a s.
Proof. intros ->. reflexivity. Qed.

End Maintains.

Ltac maintain_steps :=
  repeat first
    [ apply maintains_ret | apply maintains_attr | apply maintains_call
    | (apply maintains_bind; [|intros ?]) ].

(** The 64-bit counter: within range nothing wraps, the largest value is
    followed by the smallest, and advancing never gives the same value. *)
Lemma wrap_int64_in_range (z : Z) :
  (- 2 ^ 63 <= z < 2 ^ 63)%Z -> wrap_int64 z = z.
Proof.
  intros Hz. unfold wrap_int64.
  rewrite Z.mod_small; lia.
Qed.

Lemma wrap_int64_range (z : Z) :
  (- 2 ^ 63 <= wrap_int64 z < 2 ^ 63)%Z.
Proof.
  unfold wrap_int64.
  pose proof (Z.mod_pos_bound (z + 2 ^ 63) (2 ^ 64) ltac:(lia)). lia.
Qed.

Lemma wrap_int64_max : wrap_int64 (2 ^ 63 - 1 + 1) = (- 2 ^ 63)%Z.
Proof. reflexivity. Qed.

Lemma wrap_int64_succ_neq (z : Z) : wrap_int64 (z + 1) <> z.
Proof.
  intros E.
  destruct (Z.eq_dec z (2 ^ 63 - 1)) as [->|Hmax].
  - rewrite wrap_int64_max in E. lia.
  - pose proof (wrap_int64_range (z + 1)) as Hr. rewrite E in Hr.
    rewrite wrap_int64_in_range in E; lia.
Qed.

Section TrainingWrites.

Context {F : Type} `{Scalar F}.

(** A training-mode pass of the batch-normalized decoder that reaches the
    first normalization has advanced that layer's batch counter when it
    ends, normally or not. *)
Lemma Wire_Action_forward_counts (latent B : nat)
    (self : Wire.Action.InsideAgentForAction F) (x : Tensor F) :
  Linear_ok (Wire.Action.vocab_size self) latent (Wire.Action.fc1 self) ->
  shape x = [B; Wire.Action.vocab_size self] ->
  training (Wire.Action.bn1 self) = true ->
  num_batches_tracked
    (Wire.Action.bn1 (snd (Wire.Action.forward x self)))
  = wrap_int64 (num_batches_tracked (Wire.Action.bn1 self) + 1).
Proof.
  intros H1 Hs Htr.
  destruct (@Linear_forward_ok _ _ _ _ B _ x H1 Hs) as (a1 & E1 & S1 & _).
  pose proof (@BatchNorm1d_forward_counts _ _ a1 (Wire.Action.bn1 self)
                (B, latent, 1)) as Hc.
  rewrite S1 in Hc. specialize (Hc eq_refl Htr).
  set (Q := fun s : Wire.Action.InsideAgentForAction F =>
              num_batches_tracked (Wire.Action.bn1 s)
              = wrap_int64 (num_batches_tracked (Wire.Action.bn1 self) + 1)).
  change (Q (snd (Wire.Action.forward x self))).
  unfold Wire.Action.forward.
  apply maintains_after; [|intros lat; maintain_steps].
  unfold Wire.Action.trunk.
  rewrite bind_attr_run, (bind_call_run _ _ E1).
  apply maintains_after.
  - unfold call_sub.
    destruct (BatchNorm1d_forward a1 (Wire.Action.bn1 self)) as [r b1].
    exact Hc.
  - intros h1. maintain_steps.
    apply maintains_call_sub. intros t s Hq. exact Hq.
Qed.

Lemma Wire_InitState_forward_counts (latent B : nat)
    (self : Wire.InitState.InsideAgentForInitState F) (state : Tensor Z) :
  Linear_ok (Wire.InitState.n_states_per_digit self
             * Wire.InitState.n_digits self) latent
            (Wire.InitState.fc1 self) ->
  shape state = [B; Wire.InitState.n_digits self] ->
  length (data state) = B * Wire.InitState.n_digits self ->
  1 <= B -> 1 <= Wire.InitState.n_states_per_digit self ->
  Forall (valid_digit (Wire.InitState.n_states_per_digit self))
         (data state) ->
  training (Wire.InitState.bn1 self) = true ->
  num_batches_tracked
    (Wire.InitState.bn1 (snd (Wire.InitState.forward state self)))
  = wrap_int64 (num_batches_tracked (Wire.InitState.bn1 self) + 1).
Proof.
  intros H1 Hs Hl HB Hn Hv Htr.
  pose proof (encode_valid (F := F) state Hs Hl HB Hn Hv) as Henc.
  set (enc := mkTensor _ _) in Henc.
  rewrite Nat.mul_comm in H1.
  destruct (@Linear_forward_ok _ _ _ _ B _ enc H1 eq_refl)
    as (a1 & E1 & S1 & _).
  pose proof (@BatchNorm1d_forward_counts _ _ a1 (Wire.InitState.bn1 self)
                (B, latent, 1)) as Hc.
  rewrite S1 in Hc. specialize (Hc eq_refl Htr).
  set (Q := fun s : Wire.InitState.InsideAgentForInitState F =>
              num_batches_tracked (Wire.InitState.bn1 s)
              = wrap_int64 (num_batches_tracked (Wire.InitState.bn1 self) + 1)).
  change (Q (snd (Wire.InitState.forward state self))).
  unfold Wire.InitState.forward.
  rewrite bind_attr_run, (bind_call_run _ _ Henc).
  rewrite bind_attr_run, (bind_call_run _ _ E1).
  apply maintains_after.
  - unfold call_sub.
    destruct (BatchNorm1d_forward a1 (Wire.InitState.bn1 self)) as [r b1].
    exact Hc.
  - intros h1. maintain_steps.
    apply maintains_call_sub. intros t s Hq. exact Hq.
Qed.

End TrainingWrites.

(** C7 (as amended).  A forward pass of the non-normalized modules leaves
    the module object as it was, whatever the input and whether or not the
    call raises; so does a forward pass of the batch-normalized modules in
    evaluation mode.  In training mode a forward pass of a batch-normalized
    module on a batch of the right shape advances the 64-bit batch counter
    of its first normalization layer (with wrap-around), whether or not the
    call then raises, so the module is not left as it was. *)
Theorem C7_forward_leaves_module_unchanged_outside_training :
  (forall (F : Type) (SF : Scalar F) (state : Tensor Z)
          (self : Base.InitState.InsideAgentForInitState F),
      snd (Base.InitState.forward state self) = self) /\
  (forall (F : Type) (SF : Scalar F) (mem : nat -> F) (x : Tensor F)
          (self : Base.Action.InsideAgentForAction F),
      snd (Base.Action.forward mem x self) = self) /\
  (forall (F : Type) (SF : Scalar F) (state : Tensor Z)
          (self : Wire.InitState.InsideAgentForInitState F),
      Wire.InitState.in_eval_mode self ->
      snd (Wire.InitState.forward state self) = self) /\
  (forall (F : Type) (SF : Scalar F) (x : Tensor F)
          (self : Wire.Action.InsideAgentForAction F),
      Wire.Action.in_eval_mode self ->
      snd (Wire.Action.forward x self) = self) /\
  (forall (F : Type) (SF : Scalar F) (latent B : nat)
          (self : Wire.InitState.InsideAgentForInitState F)
          (state : Tensor Z),
      Wire.InitState.init_ok latent self ->
      shape state = [B; Wire.InitState.n_digits self] ->
      length (data state) = B * Wire.InitState.n_digits self ->
      1 <= B -> 1 <= Wire.InitState.n_states_per_digit self ->
      Forall (valid_digit (Wire.InitState.n_states_per_digit self))
             (data state) ->
      training (Wire.InitState.bn1 self) = true ->
      num_batches_tracked
        (Wire.InitState.bn1 (snd (Wire.InitState.forward state self)))
      = wrap_int64 (num_batches_tracked (Wire.InitState.bn1 self) + 1) /\
      snd (Wire.InitState.forward state self) <> self) /\
  (forall (F : Type) (SF : Scalar F) (latent B : nat)
          (self : Wire.Action.InsideAgentForAction F) (x : Tensor F),
      Wire.Action.init_ok latent self ->
      shape x = [B; Wire.Action.vocab_size self] ->
      training (Wire.Action.bn1 self) = true ->
      num_batches_tracked
        (Wire.Action.bn1 (snd (Wire.Action.forward x self)))
      = wrap_int64 (num_batches_tracked (Wire.Action.bn1 self) + 1) /\
      snd (Wire.Action.forward x self) <> self).
Proof.
  split; [|split; [|split; [|split; [|split]]]].
  - intros. now apply Base_InitState_forward_frame.
  - intros. now apply Base_Action_forward_frame.
  - intros. now apply Wire_InitState_forward_frame.
  - intros. now apply Wire_Action_forward_frame.
  - intros F SF latent B self state (H1 & _) Hs Hl HB Hn Hv Htr.
    pose proof (@Wire_InitState_forward_counts F SF latent B self state
                  H1 Hs Hl HB Hn Hv Htr) as Hc.
    split; [exact Hc|]. intros E. rewrite E in Hc.
    exact (wrap_int64_succ_neq (eq_sym Hc)).
  - intros F SF latent B self x (H1 & _) Hs Htr.
    pose proof (@Wire_Action_forward_counts F SF latent B self x H1 Hs Htr)
      as Hc.
    split; [exact Hc|]. intros E. rewrite E in Hc.
    exact (wrap_int64_succ_neq (eq_sym Hc)).
Qed.

Lemma C7_forward_leaves_module_unchanged_outside_training_witness :
  snd (Wire.InitState.forward Demo.states (Demo.wire_encoder false))
  = Demo.wire_encoder false /\
  snd (Wire.Action.forward Demo.symbols (Demo.wire_decoder false))
  = Demo.wire_decoder false /\
  snd (Wire.InitState.forward Demo.states (Demo.wire_encoder true))
  <> Demo.wire_encoder true /\
  snd (Wire.Action.forward Demo.symbols (Demo.wire_decoder true))
  <> Demo.wire_decoder true.
Proof.
  pose proof C7_forward_leaves_module_unchanged_outside_training
    as (_ & _ & K3 & K4 & K5 & K6).
  split; [|split; [|split]].
  - apply K3. split; reflexivity.
  - apply K4. split; reflexivity.
  - apply (K5 float Binary64 4 2 (Demo.wire_encoder true) Demo.states);
      demo_ok.
  - apply (K6 float Binary64 4 2 (Demo.wire_decoder true) Demo.symbols);
      demo_ok.
Defined.

(** C7 as stated fails: a freshly constructed batch-normalized decoder is
    in training mode, and its forward pass on a batch of two symbols
    returns normally with the batch counter advanced from 0 to 1 and the
    running mean moved away from 0. *)
Lemma C7_counterexample_training_pass_updates_statistics :
  let self := Demo.wire_decoder true in
  let after := snd (Wire.Action.forward Demo.symbols self) in
  is_ok (fst (Wire.Action.forward Demo.symbols self)) = true /\
  after <> self /\
  num_batches_tracked (Wire.Action.bn1 self) = 0%Z /\
  num_batches_tracked (Wire.Action.bn1 after) = 1%Z /\
  forallb (PrimFloat.eqb 0%float) (running_mean (Wire.Action.bn1 self))
  = true /\
  forallb (PrimFloat.eqb 0%float) (running_mean (Wire.Action.bn1 after))
  = false.
Proof.
  cbv zeta. split; [vm_compute; reflexivity|].
  split.
  - intros E.
    apply (f_equal (fun s => num_batches_tracked (Wire.Action.bn1 s))) in E.
    vm_compute in E. discriminate.
  - repeat split; vm_compute; reflexivity.
Qed.

(** C8. Forward calls are deterministic.  Calling a non-normalized module
    again on the same input gives the same result; the per-digit-head
    decoder's output on a valid batch does not depend on what the freshly
    allocated output storage contained; and a batch-normalized module in
    evaluation mode called again on the same input gives the same
    result. *)
Theorem C8_forward_is_deterministic :
  (forall (F : Type) (SF : Scalar F) (state : Tensor Z)
          (self self' : Base.InitState.InsideAgentForInitState F)
          (r : result (Tensor F)),
      Base.InitState.forward state self = (r, self') ->
      Base.InitState.forward state self' = (r, self')) /\
  (forall (F : Type) (SF : Scalar F) (mem : nat -> F) (x : Tensor F)
          (self self' : Base.Action.InsideAgentForAction F)
          (r : result (Tensor F)),
      Base.Action.forward mem x self = (r, self') ->
      Base.Action.forward mem x self' = (r, self')) /\
  (forall (F : Type) (SF : Scalar F) (latent B : nat)
          (mem1 mem2 : nat -> F) (x : Tensor F)
          (self : Base.Action.InsideAgentForAction F),
      Base.Action.init_ok latent self ->
      shape x = [B; Base.Action.vocab_size self] ->
      exists out,
        Base.Action.forward mem1 x self = (Ok out, self) /\
        Base.Action.forward mem2 x self = (Ok out, self)) /\
  (forall (F : Type) (SF : Scalar F) (state : Tensor Z)
          (self self' : Wire.InitState.InsideAgentForInitState F)
          (r : result (Tensor F)),
      Wire.InitState.in_eval_mode self ->
      Wire.InitState.forward state self = (r, self') ->
      Wire.InitState.forward state self' = (r, self')) /\
  (forall (F : Type) (SF : Scalar F) (x : Tensor F)
          (self self' : Wire.Action.InsideAgentForAction F)
          (r : result (Tensor F)),
      Wire.Action.in_eval_mode self ->
      Wire.Action.forward x self = (r, self') ->
      Wire.Action.forward x self' = (r, self')).
Proof.
  split; [|split; [|split; [|split]]].
  - intros F SF state self self' r E.
    pose proof (@Base_InitState_forward_frame F SF state self I) as K.
    rewrite E in K. simpl in K. subst self'. exact E.
  - intros F SF mem x self self' r E.
    pose proof (@Base_Action_forward_frame F SF mem x self I) as K.
    rewrite E in K. simpl in K. subst self'. exact E.
  - intros F SF latent B mem1 mem2 x self Hinit Hs.
    destruct (Base_Action_forward_flat Hinit mem1 x Hs)
      as (lat1 & out1 & Et1 & _ & _ & Ef1 & So1 & Lo1 & Po1).
    destruct (Base_Action_forward_flat Hinit mem2 x Hs)
      as (lat2 & out2 & Et2 & _ & _ & Ef2 & So2 & Lo2 & Po2).
    assert (lat2 = lat1) by congruence. subst lat2.
    assert (Ed : data out2 = data out1).
    { apply nth_error_ext. intros idx.
      destruct (Nat.lt_ge_cases idx
                  (B * Base.Action.n_digits self
                   * Base.Action.n_states_per_digit self)) as [Hlt|Hge].
      - destruct (Po1 idx Hlt) as (y1 & Eh1 & ->).
        destruct (Po2 idx Hlt) as (y2 & Eh2 & ->).
        assert (Eyy : unsqueeze0 y1 = unsqueeze0 y2) by congruence.
        apply unsqueeze0_inj in Eyy. now subst y2.
      - rewrite (proj2 (nth_error_None _ _)) by lia.
        rewrite (proj2 (nth_error_None _ _)) by lia. reflexivity. }
    assert (out2 = out1).
    { destruct out1, out2. simpl in *. congruence. }
    subst out2. exists out1. auto.
  - intros F SF state self self' r Hev E.
    pose proof (@Wire_InitState_forward_frame F SF state self Hev) as K.
    rewrite E in K. simpl in K. subst self'. exact E.
  - intros F SF x self self' r Hev E.
    pose proof (@Wire_Action_forward_frame F SF x self Hev) as K.
    rewrite E in K. simpl in K. subst self'. exact E.
Qed.

Lemma C8_forward_is_deterministic_witness :
  (exists out,
      Base.Action.forward (fun _ => 77%float) Demo.symbols Demo.base_decoder
      = (Ok out, Demo.base_decoder) /\
      Base.Action.forward (fun k => float_of_Z (Z.of_nat k)) Demo.symbols
        Demo.base_decoder
      = (Ok out, Demo.base_decoder)) /\
  Wire.InitState.forward Demo.states
    (snd (Wire.InitState.forward Demo.states (Demo.wire_encoder false)))
  = (fst (Wire.InitState.forward Demo.states (Demo.wire_encoder false)),
     snd (Wire.InitState.forward Demo.states (Demo.wire_encoder false))) /\
  Wire.Action.forward Demo.symbols
    (snd (Wire.Action.forward Demo.symbols (Demo.wire_decoder false)))
  = (fst (Wire.Action.forward Demo.symbols (Demo.wire_decoder false)),
     snd (Wire.Action.forward Demo.symbols (Demo.wire_decoder false))).
Proof.
  pose proof C8_forward_is_deterministic as (_ & _ & K3 & K4 & K5).
  split; [|split].
  - apply (K3 float Binary64 4 2); demo_ok.
  - apply (K4 float Binary64 Demo.states (Demo.wire_encoder false)).
    + split; reflexivity.
    + apply surjective_pairing.
  - apply (K5 float Binary64 Demo.symbols (Demo.wire_decoder false)).
    + split; reflexivity.
    + apply surjective_pairing.
Defined.

(** ** Rows of the encoding and of a 3-D output *)

Section RowFacts.

Variables A B : Type.
Variable f : A -> list B.
Variable m : nat.
Hypothesis Hf : forall x, length (f x) = m.

Lemma firstn_flat_map_const (w : nat) (l : list A) :
  firstn (w * m) (flat_map f l) = flat_map f (firstn w l).
Proof.
  revert l; induction w as [|w IH]; intros l; [reflexivity|].
  destruct l as [|x l]; [now rewrite firstn_nil|].
  simpl flat_map. simpl Nat.mul.
  rewrite <- (Hf x) at 1. rewrite firstn_app_2. now rewrite IH.
Qed.

Lemma skipn_flat_map_const (w : nat) (l : list A) :
  skipn (w * m) (flat_map f l) = flat_map f (skipn w l).
Proof.
  revert l; induction w as [|w IH]; intros l; [reflexivity|].
  destruct l as [|x l]; [now rewrite skipn_nil|].
  simpl flat_map. simpl Nat.mul.
  rewrite skipn_app, Hf.
  rewrite skipn_all2 by (rewrite Hf; lia).
  replace (m + w * m - m) with (w * m) by lia.
  simpl. apply IH.
Qed.

Lemma chunks_flat_map_const (n w : nat) (l : list A) :
  chunks n (w * m) (flat_map f l) = map (flat_map f) (chunks n w l).
Proof.
  revert l; induction n as [|n IH]; intros l; simpl; [reflexivity|].
  now rewrite firstn_flat_map_const, skipn_flat_map_const, IH.
Qed.

End RowFacts.

Lemma row_3d_eq {A} (t1 t2 : Tensor A) (B1 B2 D n b : nat) :
  shape t1 = [B1; D; n] -> shape t2 = [B2; D; n] ->
  b < B1 -> b < B2 ->
  (forall i k, i < D -> k < n -> tget t1 [b; i; k] = tget t2 [b; i; k]) ->
  nth_error (rows t1) b = nth_error (rows t2) b.
Proof.
  intros S1 S2 H1 H2 Hget.
  rewrite (rows_3d _ S1), (rows_3d _ S2), !nth_error_chunks by assumption.
  f_equal. apply nth_error_ext. intros j.
  destruct (Nat.lt_ge_cases j (D * n)) as [Hlt|Hge].
  - rewrite !nth_error_firstn_skipn by assumption.
    assert (Hn : 0 < n) by (destruct n; lia).
    assert (Hi : j / n < D)
      by (apply Nat.Div0.div_lt_upper_bound; lia).
    assert (Hk : j mod n < n) by (apply Nat.mod_upper_bound; lia).
    specialize (Hget (j / n) (j mod n) Hi Hk).
    rewrite (tget_3d _ S1 H1 Hi Hk), (tget_3d _ S2 H2 Hi Hk) in Hget.
    pose proof (Nat.div_mod_eq j n) as Ej.
    replace (b * (D * n) + j) with ((b * D + j / n) * n + j mod n)
      by (rewrite Ej at 3; ring).
    exact Hget.
  - rewrite (proj2 (nth_error_None _ _))
      by (rewrite length_firstn; lia).
    rewrite (proj2 (nth_error_None _ _))
      by (rewrite length_firstn; lia).
    reflexivity.
Qed.

Section EncodingRows.

Context {F : Type} `{Scalar F}.

Lemma rows_encode (state : Tensor Z) (B D n : nat) (enc : Tensor F) :
  shape state = [B; D] ->
  length (data state) = B * D ->
  1 <= B -> 1 <= n ->
  Forall (valid_digit n) (data state) ->
  encode n state = Ok enc ->
  rows enc = map (encode_row n) (rows state).
Proof.
  intros Hs Hl HB Hn Hv Henc.
  rewrite (encode_valid state Hs Hl HB Hn Hv) in Henc.
  injection Henc as <-.
  erewrite rows_2d by reflexivity. simpl.
  rewrite (rows_2d _ Hs), chunks_map.
  rewrite (chunks_flat_map_const _ (one_hot_vec_length n)).
  rewrite map_map. reflexivity.
Qed.

End EncodingRows.

Lemma valid_digit_positive (n : nat) (v : Z) : valid_digit n v -> 1 <= n.
Proof. unfold valid_digit. lia. Qed.

(** C9. With [n_digits = 1], [vocab_size = 1] and a batch of one valid
    sample, the forward pass of each module returns a tensor: both
    non-normalized modules always, both batch-normalized modules in
    evaluation mode.  In training mode the batch-normalized modules raise
    the documented [ValueError] asking for more than one value per
    channel. *)
Theorem C9_boundary_configuration_does_not_crash :
  (forall (F : Type) (SF : Scalar F) (latent : nat)
          (self : Base.InitState.InsideAgentForInitState F) (v : Z),
      Base.InitState.init_ok latent self ->
      Base.InitState.n_digits self = 1 ->
      Base.InitState.vocab_size self = 1 ->
      valid_digit (Base.InitState.n_states_per_digit self) v ->
      exists out,
        Base.InitState.forward (mkTensor [1; 1] [v]) self = (Ok out, self) /\
        shape out = [1; 1]) /\
  (forall (F : Type) (SF : Scalar F) (latent : nat)
          (self : Base.Action.InsideAgentForAction F)
          (mem : nat -> F) (a : F),
      Base.Action.init_ok latent self ->
      Base.Action.n_digits self = 1 ->
      Base.Action.vocab_size self = 1 ->
      exists out,
        Base.Action.forward mem (mkTensor [1; 1] [a]) self
        = (Ok out, self) /\
        shape out = [1; 1; Base.Action.n_states_per_digit self]) /\
  (forall (F : Type) (SF : Scalar F) (latent : nat)
          (self : Wire.InitState.InsideAgentForInitState F) (v : Z),
      Wire.InitState.init_ok latent self ->
      1 <= latent ->
      Wire.InitState.n_digits self = 1 ->
      Wire.InitState.vocab_size self = 1 ->
      valid_digit (Wire.InitState.n_states_per_digit self) v ->
      Wire.InitState.in_eval_mode self ->
      exists out,
        Wire.InitState.forward (mkTensor [1; 1] [v]) self = (Ok out, self) /\
        shape out = [1; 1]) /\
  (forall (F : Type) (SF : Scalar F) (latent : nat)
          (self : Wire.Action.InsideAgentForAction F) (a : F),
      Wire.Action.init_ok latent self ->
      1 <= latent ->
      Wire.Action.n_digits self = 1 ->
      Wire.Action.vocab_size self = 1 ->
      Wire.Action.in_eval_mode self ->
      exists out,
        Wire.Action.forward (mkTensor [1; 1] [a]) self = (Ok out, self) /\
        shape out = [1; 1; Wire.Action.n_states_per_digit self]) /\
  (forall (F : Type) (SF : Scalar F) (latent : nat)
          (self : Wire.InitState.InsideAgentForInitState F) (v : Z),
      Wire.InitState.init_ok latent self ->
      Wire.InitState.n_digits self = 1 ->
      valid_digit (Wire.InitState.n_states_per_digit self) v ->
      training (Wire.InitState.bn1 self) = true ->
      fst (Wire.InitState.forward (mkTensor [1; 1] [v]) self)
      = Raise (ValueError
          "Expected more than 1 value per channel when training")) /\
  (forall (F : Type) (SF : Scalar F) (latent : nat)
          (self : Wire.Action.InsideAgentForAction F) (a : F),
      Wire.Action.init_ok latent self ->
      Wire.Action.vocab_size self = 1 ->
      training (Wire.Action.bn1 self) = true ->
      fst (Wire.Action.forward (mkTensor [1; 1] [a]) self)
      = Raise (ValueError
          "Expected more than 1 value per channel when training")).
Proof.
  split; [|split; [|split; [|split; [|split]]]].
  - intros F SF latent self v Hinit HD HV Hv.
    destruct (@Base_InitState_forward_valid F SF latent 1 self
                (mkTensor [1; 1] [v]))
      as (_ & _ & _ & out & _ & _ & _ & _ & Ef & So & _); auto.
    + simpl. now rewrite HD.
    + simpl. now rewrite HD.
    + now apply valid_digit_positive with v.
    + simpl. auto.
    + exists out. rewrite HV in So. auto.
  - intros F SF latent self mem a Hinit HD HV.
    destruct (@Base_Action_forward_get F SF latent self mem 1
                (mkTensor [1; 1] [a]) Hinit)
      as (out & Ef & So & _).
    + simpl. now rewrite HV.
    + exists out. rewrite HD in So. auto.
  - intros F SF latent self v Hinit Hlat HD HV Hv [T1 T2].
    destruct (@Wire_InitState_forward_valid F SF latent 1 self
                (mkTensor [1; 1] [v]))
      as (_ & _ & _ & _ & _ & out & b1 & b2
          & _ & _ & _ & _ & _ & _ & Ef & So & _ & K1 & K2); auto.
    + simpl. now rewrite HD.
    + simpl. now rewrite HD.
    + now apply valid_digit_positive with v.
    + simpl. auto.
    + intros E. congruence.
    + intros E. congruence.
    + exists out. rewrite HV in So. split; [|exact So].
      rewrite Ef, (K1 T1), (K2 T2).
      destruct (Wire_InitState_set_same self) as [-> ->]. reflexivity.
  - intros F SF latent self a Hinit Hlat HD HV [T1 T2].
    destruct (@Wire_Action_forward_ok F SF latent 1 self
                (mkTensor [1; 1] [a]) Hinit Hlat)
      as (_ & _ & out & self' & _ & _ & _ & _ & Ef & So & _ & _ & K);
      auto.
    + lia.
    + simpl. now rewrite HV.
    + intros E. congruence.
    + intros E. congruence.
    + exists out. rewrite HD in So. rewrite (K T1 T2) in Ef. auto.
  - intros F SF latent self v (H1 & _) HD Hv Htr.
    unfold Wire.InitState.forward. fwd_unfold.
    rewrite (@encode_valid F SF (mkTensor [1; 1] [v]) 1 1
               (Wire.InitState.n_states_per_digit self));
      simpl; auto; [|now apply valid_digit_positive with v].
    rewrite HD, Nat.mul_1_r in H1.
    erewrite (Linear_forward_2d _ H1) by (simpl; f_equal; f_equal; lia).
    rewrite (@BatchNorm1d_forward_single_row _ _ latent) by auto.
    reflexivity.
  - intros F SF latent self a (H1 & _) HV Htr.
    unfold Wire.Action.forward, Wire.Action.trunk. fwd_unfold.
    rewrite HV in H1.
    erewrite (Linear_forward_2d _ H1) by reflexivity.
    rewrite (@BatchNorm1d_forward_single_row _ _ latent) by auto.
    reflexivity.
Qed.

Lemma C9_boundary_configuration_does_not_crash_witness :
  (exists out,
      Base.InitState.forward Demo.unit_state Demo.unit_base_encoder
      = (Ok out, Demo.unit_base_encoder) /\ shape out = [1; 1]) /\
  (exists out,
      Base.Action.forward (fun _ => 77%float) Demo.unit_symbol
        Demo.unit_base_decoder
      = (Ok out, Demo.unit_base_decoder) /\ shape out = [1; 1; 3]) /\
  (exists out,
      Wire.InitState.forward Demo.unit_state (Demo.unit_wire_encoder false)
      = (Ok out, Demo.unit_wire_encoder false) /\ shape out = [1; 1]) /\
  (exists out,
      Wire.Action.forward Demo.unit_symbol (Demo.unit_wire_decoder false)
      = (Ok out, Demo.unit_wire_decoder false) /\ shape out = [1; 1; 3]) /\
  fst (Wire.InitState.forward Demo.unit_state (Demo.unit_wire_encoder true))
  = Raise (ValueError
      "Expected more than 1 value per channel when training") /\
  fst (Wire.Action.forward Demo.unit_symbol (Demo.unit_wire_decoder true))
  = Raise (ValueError "Expected more than 1 value per channel when training").
Proof.
  pose proof C9_boundary_configuration_does_not_crash
    as (K1 & K2 & K3 & K4 & K5 & K6).
  split; [|split; [|split; [|split; [|split]]]].
  - apply (K1 float Binary64 4 Demo.unit_base_encoder 2%Z); demo_ok.
  - apply (K2 float Binary64 4 Demo.unit_base_decoder); demo_ok.
  - apply (K3 float Binary64 4 (Demo.unit_wire_encoder false) 2%Z); demo_ok.
  - apply (K4 float Binary64 4 (Demo.unit_wire_decoder false)); demo_ok.
  - apply (K5 float Binary64 4 (Demo.unit_wire_encoder true) 2%Z); demo_ok.
  - apply (K6 float Binary64 4 (Demo.unit_wire_decoder true)); demo_ok.
Defined.

(** C10. In the non-normalized variant batch elements do not interact:
    for two valid batches that agree on row [b], the StateEncoder outputs
    agree on row [b], and so do the ActionDecoder outputs (entry by entry
    and as rows), whatever the other rows and the batch sizes are. *)
Theorem C10_rows_do_not_interact :
  (forall (F : Type) (SF : Scalar F) (latent B1 B2 b : nat)
          (self : Base.InitState.InsideAgentForInitState F)
          (state1 state2 : Tensor Z),
      Base.InitState.init_ok latent self ->
      shape state1 = [B1; Base.InitState.n_digits self] ->
      shape state2 = [B2; Base.InitState.n_digits self] ->
      length (data state1) = B1 * Base.InitState.n_digits self ->
      length (data state2) = B2 * Base.InitState.n_digits self ->
      1 <= Base.InitState.n_states_per_digit self ->
      Forall (valid_digit (Base.InitState.n_states_per_digit self))
             (data state1) ->
      Forall (valid_digit (Base.InitState.n_states_per_digit self))
             (data state2) ->
      b < B1 -> b < B2 ->
      nth_error (rows state1) b = nth_error (rows state2) b ->
      exists out1 out2 r,
        Base.InitState.forward state1 self = (Ok out1, self) /\
        Base.InitState.forward state2 self = (Ok out2, self) /\
        nth_error (rows out1) b = Some r /\
        nth_error (rows out2) b = Some r) /\
  (forall (F : Type) (SF : Scalar F) (latent B1 B2 b : nat)
          (self : Base.Action.InsideAgentForAction F)
          (mem1 mem2 : nat -> F) (x1 x2 : Tensor F),
      Base.Action.init_ok latent self ->
      shape x1 = [B1; Base.Action.vocab_size self] ->
      shape x2 = [B2; Base.Action.vocab_size self] ->
      b < B1 -> b < B2 ->
      nth_error (rows x1) b = nth_error (rows x2) b ->
      exists out1 out2 r,
        Base.Action.forward mem1 x1 self = (Ok out1, self) /\
        Base.Action.forward mem2 x2 self = (Ok out2, self) /\
        (forall i k, tget out1 [b; i; k] = tget out2 [b; i; k]) /\
        nth_error (rows out1) b = Some r /\
        nth_error (rows out2) b = Some r).
Proof.
  split.
  - intros F SF latent B1 B2 b self state1 state2 Hinit S1 S2 L1 L2 Hn
           V1 V2 Hb1 Hb2 Hrow.
    destruct (Base_InitState_forward_valid state1 Hinit S1 L1)
      as (enc1 & _ & _ & out1 & E1 & _ & _ & _ & F1 & So1 & _ & R1);
      auto; [lia|].
    destruct (Base_InitState_forward_valid state2 Hinit S2 L2)
      as (enc2 & _ & _ & out2 & E2 & _ & _ & _ & F2 & So2 & _ & R2);
      auto; [lia|].
    rewrite (@rows_encode F SF state1 B1 _ _ enc1 S1 L1 ltac:(lia) Hn V1 E1)
      in R1.
    rewrite (@rows_encode F SF state2 B2 _ _ enc2 S2 L2 ltac:(lia) Hn V2 E2)
      in R2.
    assert (Hr : exists r0, nth_error (rows state1) b = Some r0).
    { apply nth_error_in_range.
      rewrite (rows_2d _ S1), chunks_length. exact Hb1. }
    destruct Hr as [r0 Er0].
    eexists out1, out2, _. split; [exact F1|]. split; [exact F2|].
    rewrite R1, R2, !map_map, !nth_error_map, <- Hrow, Er0. simpl.
    split; reflexivity.
  - intros F SF latent B1 B2 b self mem1 mem2 x1 x2 Hinit S1 S2 Hb1 Hb2
           Hrow.
    destruct (Base_Action_forward_get mem1 x1 Hinit S1)
      as (out1 & F1 & So1 & _ & P1).
    destruct (Base_Action_forward_get mem2 x2 Hinit S2)
      as (out2 & F2 & So2 & _ & P2).
    assert (Hget : forall i k,
               i < Base.Action.n_digits self ->
               k < Base.Action.n_states_per_digit self ->
               tget out1 [b; i; k] = tget out2 [b; i; k]).
    { intros i k Hi Hk.
      destruct (P1 b i k Hb1 Hi Hk) as (l3 & l4 & r & A3 & A4 & Ar & ->).
      destruct (P2 b i k Hb2 Hi Hk)
        as (l3' & l4' & r' & A3' & A4' & Ar' & ->).
      congruence. }
    assert (Hr : exists r, nth_error (rows out1) b = Some r).
    { apply nth_error_in_range.
      rewrite (rows_3d _ So1), chunks_length. exact Hb1. }
    destruct Hr as [r Er].
    exists out1, out2, r. split; [exact F1|]. split; [exact F2|].
    split; [|split; [exact Er|]].
    + intros i k.
      destruct (i <? Base.Action.n_digits self) eqn:Ei;
        [|unfold tget; rewrite So1, So2; simpl;
          apply Nat.ltb_lt in Hb1, Hb2; now rewrite Hb1, Hb2, Ei].
      destruct (k <? Base.Action.n_states_per_digit self) eqn:Ek;
        [|unfold tget; rewrite So1, So2; simpl;
          apply Nat.ltb_lt in Hb1, Hb2; now rewrite Hb1, Hb2, Ei, Ek].
      apply Nat.ltb_lt in Ei, Ek. now apply Hget.
    + rewrite <- Er. symmetry.
      now apply (row_3d_eq out1 out2 So1 So2 Hb1 Hb2).
Qed.

Lemma C10_rows_do_not_interact_witness :
  (exists out1 out2 r,
      Base.InitState.forward Demo.states Demo.base_encoder
      = (Ok out1, Demo.base_encoder) /\
      Base.InitState.forward Demo.states' Demo.base_encoder
      = (Ok out2, Demo.base_encoder) /\
      nth_error (rows out1) 1 = Some r /\
      nth_error (rows out2) 1 = Some r) /\
  (exists out1 out2 r,
      Base.Action.forward (fun _ => 77%float) Demo.symbols Demo.base_decoder
      = (Ok out1, Demo.base_decoder) /\
      Base.Action.forward (fun _ => 0%float) Demo.symbols' Demo.base_decoder
      = (Ok out2, Demo.base_decoder) /\
      (forall i k, tget out1 [1; i; k] = tget out2 [1; i; k]) /\
      nth_error (rows out1) 1 = Some r /\
      nth_error (rows out2) 1 = Some r).
Proof.
  split.
  - apply (proj1 C10_rows_do_not_interact float Binary64 4 2 3 1
             Demo.base_encoder Demo.states Demo.states'); demo_ok.
  - apply (proj2 C10_rows_do_not_interact float Binary64 4 2 3 1
             Demo.base_decoder (fun _ => 77%float) (fun _ => 0%float)
             Demo.symbols Demo.symbols'); demo_ok.
Defined.

(** * Further properties of the modules *)

(** ** Malformed calls *)

Section Malformed.

Context {F : Type} `{Scalar F}.

Lemma encode_2d_shape (state : Tensor Z) (B D n : nat) :
  shape state = [B; D] ->
  length (data state) = B * D ->
  1 <= B -> 1 <= n ->
  Forall (valid_digit n) (data state) ->
  exists enc : Tensor F, encode n state = Ok enc /\ shape enc = [B; D * n].
Proof.
  intros Hs Hl HB Hn Hv. eexists.
  split; [apply (encode_valid state Hs Hl HB Hn Hv)|].
  reflexivity.
Qed.

Lemma Linear_forward_width_mismatch (B w : nat) (l : Linear F)
    (t : Tensor F) :
  shape t = [B; w] ->
  w <> in_features l ->
  Linear_forward l t
  = Raise (RuntimeError "mat1 and mat2 shapes cannot be multiplied").
Proof.
  intros Hs Hw. unfold Linear_forward. rewrite Hs. simpl.
  apply Nat.eqb_neq in Hw. now rewrite Hw.
Qed.

(** A 1-D state of [D] digits is encoded as [D] rows of one block. *)
Lemma encode_1d (state : Tensor Z) (D n : nat) :
  shape state = [D] ->
  length (data state) = D ->
  1 <= D -> 1 <= n ->
  Forall (valid_digit n) (data state) ->
  encode (F := F) n state
  = Ok (mkTensor [D; n] (map of_Z (flat_map (one_hot_vec n) (data state)))).
Proof.
  intros Hs Hl HD Hn Hv. unfold encode.
  rewrite one_hot_valid; auto.
  2:{ unfold tensor_ok. rewrite Hs, Hl. simpl. lia. }
  simpl. unfold shape0. rewrite Hs. simpl.
  rewrite (@reshape_rows _ _ D n); auto.
  simpl. lia.
Qed.

End Malformed.

(** X1. A batch of valid lock states whose number of digits is not the
    module's [n_digits] is refused by [fc1] with a shape error, in both
    StateEncoder variants, and the module is left as it was. *)
Theorem X1_state_with_wrong_digit_count_is_rejected :
  (forall (F : Type) (SF : Scalar F) (latent B D : nat)
          (self : Base.InitState.InsideAgentForInitState F)
          (state : Tensor Z),
      Base.InitState.init_ok latent self ->
      shape state = [B; D] ->
      length (data state) = B * D ->
      1 <= B -> 1 <= Base.InitState.n_states_per_digit self ->
      Forall (valid_digit (Base.InitState.n_states_per_digit self))
             (data state) ->
      D <> Base.InitState.n_digits self ->
      Base.InitState.forward state self
      = (Raise (RuntimeError "mat1 and mat2 shapes cannot be multiplied"),
         self)) /\
  (forall (F : Type) (SF : Scalar F) (latent B D : nat)
          (self : Wire.InitState.InsideAgentForInitState F)
          (state : Tensor Z),
      Wire.InitState.init_ok latent self ->
      shape state = [B; D] ->
      length (data state) = B * D ->
      1 <= B -> 1 <= Wire.InitState.n_states_per_digit self ->
      Forall (valid_digit (Wire.InitState.n_states_per_digit self))
             (data state) ->
      D <> Wire.InitState.n_digits self ->
      Wire.InitState.forward state self
      = (Raise (RuntimeError "mat1 and mat2 shapes cannot be multiplied"),
         self)).
Proof.
  split.
  - intros F SF latent B D self state ((Hi & _) & _) Hs Hl HB Hn Hv HD.
    destruct (@encode_2d_shape F SF state B D _ Hs Hl HB Hn Hv)
      as (enc & Henc & Se).
    unfold Base.InitState.forward. fwd_unfold. rewrite Henc.
    erewrite Linear_forward_width_mismatch;
      [reflexivity | exact Se | rewrite Hi; nia].
  - intros F SF latent B D self state ((Hi & _) & _) Hs Hl HB Hn Hv HD.
    destruct (@encode_2d_shape F SF state B D _ Hs Hl HB Hn Hv)
      as (enc & Henc & Se).
    unfold Wire.InitState.forward. fwd_unfold. rewrite Henc.
    erewrite Linear_forward_width_mismatch;
      [reflexivity | exact Se | rewrite Hi; nia].
Qed.

Lemma X1_state_with_wrong_digit_count_is_rejected_witness :
  Base.InitState.forward (mkTensor [1; 3] [0; 1; 2]%Z) Demo.base_encoder
  = (Raise (RuntimeError "mat1 and mat2 shapes cannot be multiplied"),
     Demo.base_encoder) /\
  Wire.InitState.forward (mkTensor [1; 3] [0; 1; 2]%Z)
    (Demo.wire_encoder true)
  = (Raise (RuntimeError "mat1 and mat2 shapes cannot be multiplied"),
     Demo.wire_encoder true).
Proof.
  split.
  - apply (proj1 X1_state_with_wrong_digit_count_is_rejected
             float Binary64 4 1 3); demo_ok.
  - apply (proj2 X1_state_with_wrong_digit_count_is_rejected
             float Binary64 4 1 3); demo_ok.
Defined.

(** X2. The non-normalized StateEncoder reads a 1-D state of [n_digits]
    valid digits (the input its docstring describes) as [n_digits] samples
    of one digit each: with two or more digits [fc1] refuses it with a
    shape error; with a single digit the result has shape
    [(1, vocab_size)]. *)
Theorem X2_unbatched_state_is_read_as_a_batch_of_single_digits :
  (forall (F : Type) (SF : Scalar F) (latent : nat)
          (self : Base.InitState.InsideAgentForInitState F)
          (state : Tensor Z),
      Base.InitState.init_ok latent self ->
      shape state = [Base.InitState.n_digits self] ->
      length (data state) = Base.InitState.n_digits self ->
      Forall (valid_digit (Base.InitState.n_states_per_digit self))
             (data state) ->
      2 <= Base.InitState.n_digits self ->
      Base.InitState.forward state self
      = (Raise (RuntimeError "mat1 and mat2 shapes cannot be multiplied"),
         self)) /\
  (forall (F : Type) (SF : Scalar F) (latent : nat)
          (self : Base.InitState.InsideAgentForInitState F) (v : Z),
      Base.InitState.init_ok latent self ->
      Base.InitState.n_digits self = 1 ->
      valid_digit (Base.InitState.n_states_per_digit self) v ->
      exists out,
        Base.InitState.forward (mkTensor [1] [v]) self = (Ok out, self) /\
        shape out = [1; Base.InitState.vocab_size self]).
Proof.
  split.
  - intros F SF latent self state ((Hi & _) & _) Hs Hl Hv HD.
    assert (Hn : 1 <= Base.InitState.n_states_per_digit self).
    { destruct (data state) as [|v d]; [simpl in Hl; lia|].
      inversion Hv; subst. now apply valid_digit_positive with v. }
    unfold Base.InitState.forward. fwd_unfold.
    rewrite (@encode_1d F SF state _ _ Hs Hl) by (auto; lia).
    erewrite Linear_forward_width_mismatch;
      [reflexivity | reflexivity | rewrite Hi; nia].
  - intros F SF latent self v (H1 & H2 & H3) HD Hv.
    pose proof (valid_digit_positive Hv) as Hn.
    rewrite HD, Nat.mul_1_r in H1.
    assert (Henc : encode (F := F) (Base.InitState.n_states_per_digit self)
                     (mkTensor [1] [v])
                   = Ok (mkTensor [1; Base.InitState.n_states_per_digit self]
                           (map of_Z
                              (flat_map
                                 (one_hot_vec
                                    (Base.InitState.n_states_per_digit self))
                                 [v])))).
    { apply encode_1d; simpl; auto. }
    set (enc := mkTensor [1; Base.InitState.n_states_per_digit self] _)
      in Henc.
    destruct (@Linear_forward_ok _ _ _ _ 1 _ enc H1 eq_refl)
      as (a1 & E1 & S1 & _).
    destruct (@Linear_forward_ok _ _ _ _ 1 _ (relu a1) H2 S1)
      as (a2 & E2 & S2 & _).
    destruct (@Linear_forward_ok _ _ _ _ 1 _ (relu a2) H3 S2)
      as (out & E3 & S3 & _).
    exists out. split; [|exact S3].
    unfold Base.InitState.forward. fwd_unfold.
    now rewrite Henc, E1, E2, E3.
Qed.

Lemma X2_unbatched_state_is_read_as_a_batch_of_single_digits_witness :
  Base.InitState.forward (mkTensor [2] [1; 2]%Z) Demo.base_encoder
  = (Raise (RuntimeError "mat1 and mat2 shapes cannot be multiplied"),
     Demo.base_encoder) /\
  (exists out,
      Base.InitState.forward (mkTensor [1] [2]%Z) Demo.unit_base_encoder
      = (Ok out, Demo.unit_base_encoder) /\
      shape out = [1; 1]).
Proof.
  split.
  - apply (proj1 X2_unbatched_state_is_read_as_a_batch_of_single_digits
             float Binary64 4); demo_ok.
  - apply (proj2 X2_unbatched_state_is_read_as_a_batch_of_single_digits
             float Binary64 4 Demo.unit_base_encoder 2%Z); demo_ok.
Defined.

(** X3. A batch of symbols whose width is not [vocab_size] is refused by
    [fc1] with a shape error in both ActionDecoder variants, before any
    normalization layer has run, and the module is left as it was. *)
Theorem X3_symbol_of_wrong_width_is_rejected :
  (forall (F : Type) (SF : Scalar F) (latent B W : nat)
          (self : Base.Action.InsideAgentForAction F)
          (mem : nat -> F) (x : Tensor F),
      Base.Action.init_ok latent self ->
      shape x = [B; W] ->
      W <> Base.Action.vocab_size self ->
      Base.Action.forward mem x self
      = (Raise (RuntimeError "mat1 and mat2 shapes cannot be multiplied"),
         self)) /\
  (forall (F : Type) (SF : Scalar F) (latent B W : nat)
          (self : Wire.Action.InsideAgentForAction F) (x : Tensor F),
      Wire.Action.init_ok latent self ->
      shape x = [B; W] ->
      W <> Wire.Action.vocab_size self ->
      Wire.Action.forward x self
      = (Raise (RuntimeError "mat1 and mat2 shapes cannot be multiplied"),
         self)).
Proof.
  split.
  - intros F SF latent B W self mem x ((Hi & _) & _) Hs HW.
    unfold Base.Action.forward, Base.Action.trunk. fwd_unfold.
    erewrite Linear_forward_width_mismatch;
      [reflexivity | exact Hs | now rewrite Hi].
  - intros F SF latent B W self x ((Hi & _) & _) Hs HW.
    unfold Wire.Action.forward, Wire.Action.trunk. fwd_unfold.
    erewrite Linear_forward_width_mismatch;
      [reflexivity | exact Hs | now rewrite Hi].
Qed.

Lemma X3_symbol_of_wrong_width_is_rejected_witness :
  Base.Action.forward (fun _ => 77%float)
    (mkTensor [1; 3] [1; 0; 0]%float) Demo.base_decoder
  = (Raise (RuntimeError "mat1 and mat2 shapes cannot be multiplied"),
     Demo.base_decoder) /\
  Wire.Action.forward (mkTensor [2; 3] [1; 0; 0; 0; 1; 0]%float)
    (Demo.wire_decoder true)
  = (Raise (RuntimeError "mat1 and mat2 shapes cannot be multiplied"),
     Demo.wire_decoder true).
Proof.
  split.
  - apply (proj1 X3_symbol_of_wrong_width_is_rejected
             float Binary64 4 1 3); demo_ok.
  - apply (proj2 X3_symbol_of_wrong_width_is_rejected
             float Binary64 4 2 3); demo_ok.
Defined.

(** ** The empty batch *)

(** With the batch dimension 0 requested, the inferred dimension of a
    reshape is ambiguous. *)
Lemma reshape_empty_batch_ambiguous {A} (t : Tensor A)
    (rest : list (option nat)) :
  inferred_dims rest = 1 ->
  numel (shape t) = 0 ->
  reshape t (Some 0 :: rest)
  = Raise (RuntimeError
      "cannot reshape tensor of 0 elements: the unspecified dimension size -1 can be any value and is ambiguous").
Proof.
  intros Hi Hn. unfold reshape, infer_size. rewrite Hn.
  unfold inferred_dims in *. simpl. rewrite Hi. reflexivity.
Qed.

(** Batch normalization of an empty batch returns an empty batch; in
    training mode the batch is counted, and the running statistics are
    not touched. *)
Lemma BatchNorm1d_forward_empty_counts (F : Type) (SF : Scalar F) (C : nat)
    (bn : BatchNorm1d F) (t : Tensor F) :
  BatchNorm1d_ok C bn ->
  1 <= C ->
  shape t = [0; C] ->
  exists out,
    BatchNorm1d_forward t bn
    = (Ok out, if training bn then count_batch bn else bn) /\
    shape out = [0; C].
Proof.
  intros (_ & Hw & Hb & _) HC Hs.
  unfold BatchNorm1d_forward. rewrite Hs. simpl.
  rewrite andb_false_r.
  destruct (bn_weight bn) as [|w0 ws]; [simpl in Hw; lia|].
  destruct (bn_bias bn) as [|b0 bs]; [simpl in Hb; lia|].
  eexists. split; [reflexivity|]. simpl. exact Hs.
Qed.

(** X4. An empty batch.  In both StateEncoder variants the one-hot step
    returns the empty tensor of shape [(0, n_digits, n_states_per_digit)],
    its reshape to [(0, -1)] raises, and the forward call ends with that
    error and the module as it was.  In the batch-normalized ActionDecoder
    every layer up to [fc3] returns (a normalization layer in training
    mode counts the batch), the final reshape to [(0, n_digits, -1)]
    raises, and the forward call ends with that error.  The per-digit-head
    ActionDecoder returns the empty tensor of shape
    [(0, n_digits, n_states_per_digit)]. *)
Theorem X4_empty_batch :
  (forall (F : Type) (SF : Scalar F) (D : nat)
          (self : Base.InitState.InsideAgentForInitState F),
      1 <= Base.InitState.n_states_per_digit self ->
      one_hot (mkTensor [0; D] []) (Base.InitState.n_states_per_digit self)
      = Ok (mkTensor [0; D; Base.InitState.n_states_per_digit self] []) /\
      reshape (mkTensor [0; D; Base.InitState.n_states_per_digit self]
                 (@nil Z))
        [Some 0; None]
      = Raise (RuntimeError
          "cannot reshape tensor of 0 elements: the unspecified dimension size -1 can be any value and is ambiguous") /\
      Base.InitState.forward (mkTensor [0; D] []) self
      = (Raise (RuntimeError
           "cannot reshape tensor of 0 elements: the unspecified dimension size -1 can be any value and is ambiguous"),
         self)) /\
  (forall (F : Type) (SF : Scalar F) (D : nat)
          (self : Wire.InitState.InsideAgentForInitState F),
      1 <= Wire.InitState.n_states_per_digit self ->
      one_hot (mkTensor [0; D] []) (Wire.InitState.n_states_per_digit self)
      = Ok (mkTensor [0; D; Wire.InitState.n_states_per_digit self] []) /\
      reshape (mkTensor [0; D; Wire.InitState.n_states_per_digit self]
                 (@nil Z))
        [Some 0; None]
      = Raise (RuntimeError
          "cannot reshape tensor of 0 elements: the unspecified dimension size -1 can be any value and is ambiguous") /\
      Wire.InitState.forward (mkTensor [0; D] []) self
      = (Raise (RuntimeError
           "cannot reshape tensor of 0 elements: the unspecified dimension size -1 can be any value and is ambiguous"),
         self)) /\
  (forall (F : Type) (SF : Scalar F) (latent : nat)
          (self : Wire.Action.InsideAgentForAction F),
      Wire.Action.init_ok latent self ->
      1 <= latent ->
      let x := mkTensor [0; Wire.Action.vocab_size self] [] in
      let b1 := if training (Wire.Action.bn1 self)
                then count_batch (Wire.Action.bn1 self)
                else Wire.Action.bn1 self in
      let b2 := if training (Wire.Action.bn2 self)
                then count_batch (Wire.Action.bn2 self)
                else Wire.Action.bn2 self in
      exists a1 h1 a2 h2 y,
        Linear_forward (Wire.Action.fc1 self) x = Ok a1 /\
        BatchNorm1d_forward a1 (Wire.Action.bn1 self) = (Ok h1, b1) /\
        Linear_forward (Wire.Action.fc2 self) (relu h1) = Ok a2 /\
        BatchNorm1d_forward a2 (Wire.Action.bn2 self) = (Ok h2, b2) /\
        Linear_forward (Wire.Action.fc3 self) (relu h2) = Ok y /\
        shape y = [0; Wire.Action.n_states_per_digit self
                      * Wire.Action.n_digits self] /\
        reshape y [Some 0; Some (Wire.Action.n_digits self); None]
        = Raise (RuntimeError
            "cannot reshape tensor of 0 elements: the unspecified dimension size -1 can be any value and is ambiguous") /\
        Wire.Action.forward x self
        = (Raise (RuntimeError
             "cannot reshape tensor of 0 elements: the unspecified dimension size -1 can be any value and is ambiguous"),
           Wire.Action.set_bn2 b2 (Wire.Action.set_bn1 b1 self))) /\
  (forall (F : Type) (SF : Scalar F) (latent : nat)
          (self : Base.Action.InsideAgentForAction F) (mem : nat -> F),
      Base.Action.init_ok latent self ->
      Base.Action.forward mem (mkTensor [0; Base.Action.vocab_size self] [])
        self
      = (Ok (mkTensor [0; Base.Action.n_digits self;
                       Base.Action.n_states_per_digit self] []),
         self)).
Proof.
  split; [|split; [|split]].
  - intros F SF D self Hn.
    assert (E1 : one_hot (mkTensor [0; D] [])
                   (Base.InitState.n_states_per_digit self)
                 = Ok (mkTensor [0; D; Base.InitState.n_states_per_digit self]
                         [])).
    { unfold one_hot. simpl.
      destruct (Base.InitState.n_states_per_digit self); [lia|reflexivity]. }
    split; [exact E1|]. split; [reflexivity|].
    unfold Base.InitState.forward, encode. fwd_unfold. now rewrite E1.
  - intros F SF D self Hn.
    assert (E1 : one_hot (mkTensor [0; D] [])
                   (Wire.InitState.n_states_per_digit self)
                 = Ok (mkTensor [0; D; Wire.InitState.n_states_per_digit self]
                         [])).
    { unfold one_hot. simpl.
      destruct (Wire.InitState.n_states_per_digit self); [lia|reflexivity]. }
    split; [exact E1|]. split; [reflexivity|].
    unfold Wire.InitState.forward, encode. fwd_unfold. now rewrite E1.
  - intros F SF latent self (H1 & N1 & H2 & N2 & H3) Hlat x b1 b2.
    destruct (@Linear_forward_ok _ _ _ _ 0 _ x H1 eq_refl)
      as (a1 & E1 & S1 & _).
    destruct (@BatchNorm1d_forward_empty_counts F SF _ _ a1 N1 Hlat S1)
      as (h1 & Eb1 & Sh1).
    destruct (@Linear_forward_ok _ _ _ _ 0 _ (relu h1) H2 Sh1)
      as (a2 & E2 & S2 & _).
    destruct (@BatchNorm1d_forward_empty_counts F SF _ _ a2 N2 Hlat S2)
      as (h2 & Eb2 & Sh2).
    destruct (@Linear_forward_ok _ _ _ _ 0 _ (relu h2) H3 Sh2)
      as (y & E3 & S3 & _).
    assert (Er : reshape y [Some 0; Some (Wire.Action.n_digits self); None]
                 = Raise (RuntimeError
                     "cannot reshape tensor of 0 elements: the unspecified dimension size -1 can be any value and is ambiguous")).
    { apply reshape_empty_batch_ambiguous; [reflexivity | now rewrite S3]. }
    exists a1, h1, a2, h2, y.
    split; [exact E1|]. split; [exact Eb1|]. split; [exact E2|].
    split; [exact Eb2|]. split; [exact E3|]. split; [exact S3|].
    split; [exact Er|].
    unfold Wire.Action.forward, Wire.Action.trunk. fwd_unfold.
    rewrite E1, Eb1. simpl. rewrite E2, Eb2. simpl. rewrite E3.
    unfold shape0. simpl. rewrite Sh2, Er. reflexivity.
  - intros F SF latent self mem Hinit.
    destruct (@Base_Action_forward_get F SF latent self mem 0
                (mkTensor [0; Base.Action.vocab_size self] []) Hinit
                eq_refl)
      as (out & Ef & So & Lo & _).
    rewrite Ef. f_equal. destruct out as [sh d]. simpl in *.
    subst sh. destruct d; [reflexivity | discriminate].
Qed.

Lemma X4_empty_batch_witness :
  (one_hot (mkTensor [0; 2] []) 3 = Ok (mkTensor [0; 2; 3] []) /\
   reshape (mkTensor [0; 2; 3] (@nil Z)) [Some 0; None]
   = Raise (RuntimeError
       "cannot reshape tensor of 0 elements: the unspecified dimension size -1 can be any value and is ambiguous") /\
   Base.InitState.forward (mkTensor [0; 2] []) Demo.base_encoder
   = (Raise (RuntimeError
        "cannot reshape tensor of 0 elements: the unspecified dimension size -1 can be any value and is ambiguous"),
      Demo.base_encoder)) /\
  (one_hot (mkTensor [0; 2] []) 3 = Ok (mkTensor [0; 2; 3] []) /\
   reshape (mkTensor [0; 2; 3] (@nil Z)) [Some 0; None]
   = Raise (RuntimeError
       "cannot reshape tensor of 0 elements: the unspecified dimension size -1 can be any value and is ambiguous") /\
   Wire.InitState.forward (mkTensor [0; 2] []) (Demo.wire_encoder true)
   = (Raise (RuntimeError
        "cannot reshape tensor of 0 elements: the unspecified dimension size -1 can be any value and is ambiguous"),
      Demo.wire_encoder true)) /\
  (exists a1 h1 a2 h2 y,
      Linear_forward (Wire.Action.fc1 (Demo.wire_decoder true))
        (mkTensor [0; 2] [])
      = Ok a1 /\
      BatchNorm1d_forward a1 (Wire.Action.bn1 (Demo.wire_decoder true))
      = (Ok h1, count_batch (Wire.Action.bn1 (Demo.wire_decoder true))) /\
      Linear_forward (Wire.Action.fc2 (Demo.wire_decoder true)) (relu h1)
      = Ok a2 /\
      BatchNorm1d_forward a2 (Wire.Action.bn2 (Demo.wire_decoder true))
      = (Ok h2, count_batch (Wire.Action.bn2 (Demo.wire_decoder true))) /\
      Linear_forward (Wire.Action.fc3 (Demo.wire_decoder true)) (relu h2)
      = Ok y /\
      shape y = [0; 3 * 2] /\
      reshape y [Some 0; Some 2; None]
      = Raise (RuntimeError
          "cannot reshape tensor of 0 elements: the unspecified dimension size -1 can be any value and is ambiguous") /\
      Wire.Action.forward (mkTensor [0; 2] []) (Demo.wire_decoder true)
      = (Raise (RuntimeError
           "cannot reshape tensor of 0 elements: the unspecified dimension size -1 can be any value and is ambiguous"),
         Wire.Action.set_bn2
           (count_batch (Wire.Action.bn2 (Demo.wire_decoder true)))
           (Wire.Action.set_bn1
              (count_batch (Wire.Action.bn1 (Demo.wire_decoder true)))
              (Demo.wire_decoder true)))) /\
  Base.Action.forward (fun _ => 77%float) (mkTensor [0; 2] [])
    Demo.base_decoder
  = (Ok (mkTensor [0; 2; 3] []), Demo.base_decoder).
Proof.
  pose proof X4_empty_batch as (K1 & K2 & K3 & K4).
  split; [|split; [|split]].
  - apply (K1 float Binary64 2 Demo.base_encoder); demo_ok.
  - apply (K2 float Binary64 2 (Demo.wire_encoder true)); demo_ok.
  - apply (K3 float Binary64 4 (Demo.wire_decoder true)); demo_ok.
  - apply (K4 float Binary64 4 Demo.base_decoder); demo_ok.
Defined.

(** X5. In training mode a single-sample batch makes a batch-normalized
    module raise at its first normalization layer, and the failed call is
    not without effect: that layer's batch counter has been advanced,
    while its running statistics and the rest of the module are as
    before. *)
Theorem X5_failed_training_pass_still_counts_the_batch :
  (forall (F : Type) (SF : Scalar F) (latent : nat)
          (self : Wire.InitState.InsideAgentForInitState F)
          (state : Tensor Z),
      Wire.InitState.init_ok latent self ->
      shape state = [1; Wire.InitState.n_digits self] ->
      length (data state) = Wire.InitState.n_digits self ->
      1 <= Wire.InitState.n_states_per_digit self ->
      Forall (valid_digit (Wire.InitState.n_states_per_digit self))
             (data state) ->
      training (Wire.InitState.bn1 self) = true ->
      Wire.InitState.forward state self
      = (Raise (ValueError
           "Expected more than 1 value per channel when training"),
         Wire.InitState.set_bn1 (count_batch (Wire.InitState.bn1 self))
           self)) /\
  (forall (F : Type) (SF : Scalar F) (latent : nat)
          (self : Wire.Action.InsideAgentForAction F) (x : Tensor F),
      Wire.Action.init_ok latent self ->
      shape x = [1; Wire.Action.vocab_size self] ->
      training (Wire.Action.bn1 self) = true ->
      Wire.Action.forward x self
      = (Raise (ValueError
           "Expected more than 1 value per channel when training"),
         Wire.Action.set_bn1 (count_batch (Wire.Action.bn1 self)) self)).
Proof.
  split.
  - intros F SF latent self state (H1 & _) Hs Hl Hn Hv Htr.
    unfold Wire.InitState.forward. fwd_unfold.
    rewrite (@encode_valid F SF state 1 (Wire.InitState.n_digits self)
               (Wire.InitState.n_states_per_digit self));
      auto; [|lia].
    rewrite Nat.mul_comm in H1.
    erewrite (Linear_forward_2d _ H1) by reflexivity.
    rewrite (@BatchNorm1d_forward_single_row _ _ latent) by auto.
    reflexivity.
  - intros F SF latent self x (H1 & _) Hs Htr.
    unfold Wire.Action.forward, Wire.Action.trunk. fwd_unfold.
    erewrite (Linear_forward_2d _ H1) by exact Hs.
    rewrite (@BatchNorm1d_forward_single_row _ _ latent) by auto.
    reflexivity.
Qed.

Lemma X5_failed_training_pass_still_counts_the_batch_witness :
  Wire.InitState.forward Demo.unit_state (Demo.unit_wire_encoder true)
  = (Raise (ValueError
       "Expected more than 1 value per channel when training"),
     Wire.InitState.set_bn1
       (count_batch (Wire.InitState.bn1 (Demo.unit_wire_encoder true)))
       (Demo.unit_wire_encoder true)) /\
  Wire.Action.forward Demo.unit_symbol (Demo.unit_wire_decoder true)
  = (Raise (ValueError
       "Expected more than 1 value per channel when training"),
     Wire.Action.set_bn1
       (count_batch (Wire.Action.bn1 (Demo.unit_wire_decoder true)))
       (Demo.unit_wire_decoder true)).
Proof.
  split.
  - apply (proj1 X5_failed_training_pass_still_counts_the_batch
             float Binary64 4); demo_ok.
  - apply (proj2 X5_failed_training_pass_still_counts_the_batch
             float Binary64 4); demo_ok.
Defined.

(** ** What a forward pass never writes *)

Section NeverWritten.

Context {F : Type} `{Scalar F}.

Lemma bn_same_parameters_refl (bn : BatchNorm1d F) :
  bn_same_parameters bn bn.
Proof. repeat split. Qed.

Lemma bn_same_parameters_trans (a b c : BatchNorm1d F) :
  bn_same_parameters a b -> bn_same_parameters b c ->
  bn_same_parameters a c.
Proof.
  unfold bn_same_parameters. intuition congruence.
Qed.

(** Whatever the input and the mode, normalization only ever writes its
    running statistics and batch counter. *)
Lemma BatchNorm1d_forward_same_parameters (t : Tensor F)
    (bn : BatchNorm1d F) :
  bn_same_parameters (snd (BatchNorm1d_forward t bn)) bn.
Proof.
  unfold BatchNorm1d_forward.
  destruct (bn_dims (shape t)) as [[[N C] L]|];
    [|apply bn_same_parameters_refl].
  destruct (training bn) eqn:Etr; simpl.
  - destruct (N * L =? 1); [repeat split; simpl; auto|].
    destruct (numel (shape t) =? 0).
    + destruct (bn_weight bn), (bn_bias bn); repeat split; simpl; auto.
    + destruct (negb _); repeat split; simpl; auto.
  - destruct (numel (shape t) =? 0).
    + destruct (bn_weight bn), (bn_bias bn); repeat split; simpl; auto.
    + destruct (negb _); repeat split; simpl; auto.
Qed.

Lemma maintains_call_sub_step {S T A} (Q : S -> Prop) (get : S -> T)
    (set : T -> S -> S) (m : Fwd T A) :
  (forall s, Q s -> Q (set (snd (m (get s))) s)) ->
  maintains Q (call_sub get set m).
Proof.
  intros Hstep s Hs. unfold call_sub. specialize (Hstep s Hs).
  destruct (m (get s)) as [r t']. exact Hstep.
Qed.

End NeverWritten.

(** X6. A forward pass of a batch-normalized module, in either mode, on
    any input and whether or not it raises, never changes a configuration
    field, a linear layer, or the scale, shift, [eps], [momentum],
    [num_features] or training flag of a normalization layer: the only
    attributes it can write are running means, running variances and
    batch counters. *)
Theorem X6_forward_only_writes_running_statistics :
  (forall (F : Type) (SF : Scalar F) (state : Tensor Z)
          (self : Wire.InitState.InsideAgentForInitState F),
      let after := snd (Wire.InitState.forward state self) in
      Wire.InitState.n_digits after = Wire.InitState.n_digits self /\
      Wire.InitState.n_states_per_digit after
      = Wire.InitState.n_states_per_digit self /\
      Wire.InitState.vocab_size after = Wire.InitState.vocab_size self /\
      Wire.InitState.fc1 after = Wire.InitState.fc1 self /\
      Wire.InitState.fc2 after = Wire.InitState.fc2 self /\
      Wire.InitState.fc3 after = Wire.InitState.fc3 self /\
      bn_same_parameters (Wire.InitState.bn1 after)
                         (Wire.InitState.bn1 self) /\
      bn_same_parameters (Wire.InitState.bn2 after)
                         (Wire.InitState.bn2 self)) /\
  (forall (F : Type) (SF : Scalar F) (x : Tensor F)
          (self : Wire.Action.InsideAgentForAction F),
      let after := snd (Wire.Action.forward x self) in
      Wire.Action.n_digits after = Wire.Action.n_digits self /\
      Wire.Action.n_states_per_digit after
      = Wire.Action.n_states_per_digit self /\
      Wire.Action.vocab_size after = Wire.Action.vocab_size self /\
      Wire.Action.fc1 after = Wire.Action.fc1 self /\
      Wire.Action.fc2 after = Wire.Action.fc2 self /\
      Wire.Action.fc3 after = Wire.Action.fc3 self /\
      bn_same_parameters (Wire.Action.bn1 after) (Wire.Action.bn1 self) /\
      bn_same_parameters (Wire.Action.bn2 after) (Wire.Action.bn2 self)).
Proof.
  split.
  - intros F SF state self.
    set (Q := fun s : Wire.InitState.InsideAgentForInitState F =>
      Wire.InitState.n_digits s = Wire.InitState.n_digits self /\
      Wire.InitState.n_states_per_digit s
      = Wire.InitState.n_states_per_digit self /\
      Wire.InitState.vocab_size s = Wire.InitState.vocab_size self /\
      Wire.InitState.fc1 s = Wire.InitState.fc1 self /\
      Wire.InitState.fc2 s = Wire.InitState.fc2 self /\
      Wire.InitState.fc3 s = Wire.InitState.fc3 self /\
      bn_same_parameters (Wire.InitState.bn1 s) (Wire.InitState.bn1 self) /\
      bn_same_parameters (Wire.InitState.bn2 s) (Wire.InitState.bn2 self)).
    assert (Hm : maintains Q (Wire.InitState.forward state)).
    { unfold Wire.InitState.forward. maintain_steps.
      - apply maintains_call_sub_step.
        intros s (A1 & A2 & A3 & A4 & A5 & A6 & A7 & A8).
        repeat split; auto; simpl;
          try apply (bn_same_parameters_trans
                       (BatchNorm1d_forward_same_parameters _ _) A7);
          apply A8.
      - apply maintains_call_sub_step.
        intros s (A1 & A2 & A3 & A4 & A5 & A6 & A7 & A8).
        repeat split; auto; simpl;
          try apply (bn_same_parameters_trans
                       (BatchNorm1d_forward_same_parameters _ _) A8);
          apply A7. }
    apply (Hm self). unfold Q.
    repeat split; auto.
  - intros F SF x self.
    set (Q := fun s : Wire.Action.InsideAgentForAction F =>
      Wire.Action.n_digits s = Wire.Action.n_digits self /\
      Wire.Action.n_states_per_digit s
      = Wire.Action.n_states_per_digit self /\
      Wire.Action.vocab_size s = Wire.Action.vocab_size self /\
      Wire.Action.fc1 s = Wire.Action.fc1 self /\
      Wire.Action.fc2 s = Wire.Action.fc2 self /\
      Wire.Action.fc3 s = Wire.Action.fc3 self /\
      bn_same_parameters (Wire.Action.bn1 s) (Wire.Action.bn1 self) /\
      bn_same_parameters (Wire.Action.bn2 s) (Wire.Action.bn2 self)).
    assert (Hm : maintains Q (Wire.Action.forward x)).
    { unfold Wire.Action.forward, Wire.Action.trunk. maintain_steps.
      - apply maintains_call_sub_step.
        intros s (A1 & A2 & A3 & A4 & A5 & A6 & A7 & A8).
        repeat split; auto; simpl;
          try apply (bn_same_parameters_trans
                       (BatchNorm1d_forward_same_parameters _ _) A7);
          apply A8.
      - apply maintains_call_sub_step.
        intros s (A1 & A2 & A3 & A4 & A5 & A6 & A7 & A8).
        repeat split; auto; simpl;
          try apply (bn_same_parameters_trans
                       (BatchNorm1d_forward_same_parameters _ _) A8);
          apply A7. }
    apply (Hm self). unfold Q.
    repeat split; auto.
Qed.

(** ** Evaluation mode acts row by row *)

Section IndexedMaps.

Variables A B : Type.

Lemma firstn_imap_from (f : nat -> A -> B) (k s : nat) (l : list A) :
  firstn k (imap_from f s l) = imap_from f s (firstn k l).
Proof.
  revert s l; induction k as [|k IH]; intros s l; [reflexivity|].
  destruct l as [|x l]; [reflexivity|]. simpl. now rewrite IH.
Qed.

Lemma skipn_imap_from (f : nat -> A -> B) (k s : nat) (l : list A) :
  skipn k (imap_from f s l) = imap_from f (s + k) (skipn k l).
Proof.
  revert s l; induction k as [|k IH]; intros s l.
  - simpl. now rewrite Nat.add_0_r.
  - destruct l as [|x l]; [reflexivity|]. simpl.
    rewrite IH. f_equal. lia.
Qed.

Lemma imap_from_ext (f g : nat -> A -> B) (s t : nat) (l : list A) :
  (forall j x, j < length l -> f (s + j) x = g (t + j) x) ->
  imap_from f s l = imap_from g t l.
Proof.
  revert s t; induction l as [|x l IH]; intros s t Hfg; [reflexivity|].
  simpl. f_equal.
  - specialize (Hfg 0 x). rewrite !Nat.add_0_r in Hfg. apply Hfg. simpl. lia.
  - apply IH. intros j y Hj.
    specialize (Hfg (S j) y). rewrite !Nat.add_succ_r in Hfg.
    apply Hfg. simpl. lia.
Qed.

(** An indexed map whose function only looks at the position within the
    row acts on each row separately. *)
Lemma chunks_imap_from_periodic (f g : nat -> A -> B) (w : nat) :
  (forall q j x, j < w -> f (q * w + j) x = g j x) ->
  forall n q l,
    chunks n w (imap_from f (q * w) l)
    = map (imap_from g 0) (chunks n w l).
Proof.
  intros Hfg n. induction n as [|n IH]; intros q l; [reflexivity|].
  simpl. rewrite firstn_imap_from, skipn_imap_from. f_equal.
  - apply imap_from_ext. intros j x Hj. simpl. apply Hfg.
    rewrite length_firstn in Hj. lia.
  - replace (q * w + w) with (S q * w) by (simpl; lia). apply IH.
Qed.

End IndexedMaps.

Section EvalRows.

Context {F : Type} `{Scalar F}.

Lemma BatchNorm1d_forward_eval_rows (C B : nat) (bn : BatchNorm1d F)
    (t : Tensor F) :
  BatchNorm1d_ok C bn ->
  shape t = [B; C] ->
  1 <= B -> 1 <= C ->
  training bn = false ->
  exists out,
    BatchNorm1d_forward t bn = (Ok out, bn) /\
    shape out = [B; C] /\
    rows out = map (bn_row bn) (rows t).
Proof.
  intros (Hnf & Hw & Hb & Hrm & Hrv) Hs HB HC Htr.
  unfold BatchNorm1d_forward. rewrite Hs, Htr. simpl.
  rewrite Hw, Hb, Hrm, Hrv, Nat.eqb_refl. simpl.
  assert (E0 : (B * (C * 1) =? 0) = false) by (apply Nat.eqb_neq; nia).
  rewrite E0.
  eexists. split; [reflexivity|]. split; [reflexivity|].
  erewrite rows_2d by reflexivity. simpl.
  rewrite (rows_2d _ Hs). unfold bn_apply, imap.
  apply (chunks_imap_from_periodic _
           (fun j x =>
              normalize (eps bn) (nth j (running_mean bn) f0)
                (nth j (running_var bn) f0) (nth j (bn_weight bn) f0)
                (nth j (bn_bias bn) f0) x)
           (w := C)) with (q := 0).
  intros q j x Hj. cbv beta zeta.
  rewrite Nat.div_1_r, Nat.add_comm, Nat.Div0.mod_add.
  now rewrite Nat.mod_small.
Qed.

(** The batch-normalized StateEncoder in evaluation mode, row by row. *)
Lemma Wire_InitState_forward_eval_rows (latent B : nat)
    (self : Wire.InitState.InsideAgentForInitState F) (state : Tensor Z) :
  Wire.InitState.init_ok latent self ->
  1 <= latent ->
  Wire.InitState.in_eval_mode self ->
  shape state = [B; Wire.InitState.n_digits self] ->
  length (data state) = B * Wire.InitState.n_digits self ->
  1 <= B -> 1 <= Wire.InitState.n_states_per_digit self ->
  Forall (valid_digit (Wire.InitState.n_states_per_digit self))
         (data state) ->
  exists out,
    Wire.InitState.forward state self = (Ok out, self) /\
    shape out = [B; Wire.InitState.vocab_size self] /\
    rows out
    = map (fun r =>
             affine (Wire.InitState.fc3 self)
               (map frelu
                  (bn_row (Wire.InitState.bn2 self)
                     (affine (Wire.InitState.fc2 self)
                        (map frelu
                           (bn_row (Wire.InitState.bn1 self)
                              (affine (Wire.InitState.fc1 self)
                                 (encode_row
                                    (Wire.InitState.n_states_per_digit self)
                                    r))))))))
          (rows state).
Proof.
  intros (H1 & N1 & H2 & N2 & H3) Hlat [T1 T2] Hs Hl HB Hn Hv.
  pose proof (encode_valid (F := F) state Hs Hl HB Hn Hv) as Henc.
  pose proof (rows_encode state Hs Hl HB Hn Hv Henc) as Renc.
  set (enc := mkTensor _ _) in Henc, Renc.
  rewrite Nat.mul_comm in H1.
  destruct (@Linear_forward_ok _ _ _ _ B _ enc H1 eq_refl)
    as (a1 & E1 & S1 & _ & R1).
  destruct (@BatchNorm1d_forward_eval_rows latent B _ a1 N1 S1 HB Hlat T1)
    as (h1 & Eb1 & Sh1 & Rh1).
  destruct (@Linear_forward_ok _ _ _ _ B _ (relu h1) H2 Sh1)
    as (a2 & E2 & S2 & _ & R2).
  destruct (@BatchNorm1d_forward_eval_rows latent B _ a2 N2 S2 HB Hlat T2)
    as (h2 & Eb2 & Sh2 & Rh2).
  destruct (@Linear_forward_ok _ _ _ _ B _ (relu h2) H3 Sh2)
    as (out & E3 & S3 & _ & R3).
  exists out. split; [|split; [exact S3|]].
  - unfold Wire.InitState.forward. fwd_unfold.
    rewrite Henc, E1, Eb1. simpl. rewrite E2, Eb2. simpl. rewrite E3.
    now destruct self.
  - rewrite R3, rows_relu, Rh2, R2, rows_relu, Rh1, R1, Renc, !map_map.
    reflexivity.
Qed.

(** The batch-normalized ActionDecoder in evaluation mode, row by row. *)
Lemma Wire_Action_forward_eval_rows (latent B : nat)
    (self : Wire.Action.InsideAgentForAction F) (x : Tensor F) :
  Wire.Action.init_ok latent self ->
  1 <= latent -> 1 <= Wire.Action.n_digits self ->
  Wire.Action.in_eval_mode self ->
  shape x = [B; Wire.Action.vocab_size self] ->
  1 <= B ->
  exists out,
    Wire.Action.forward x self = (Ok out, self) /\
    shape out = [B; Wire.Action.n_digits self;
                 Wire.Action.n_states_per_digit self] /\
    rows out
    = map (fun r =>
             affine (Wire.Action.fc3 self)
               (map frelu
                  (bn_row (Wire.Action.bn2 self)
                     (affine (Wire.Action.fc2 self)
                        (map frelu
                           (bn_row (Wire.Action.bn1 self)
                              (affine (Wire.Action.fc1 self) r)))))))
          (rows x).
Proof.
  intros (H1 & N1 & H2 & N2 & H3) Hlat HD [T1 T2] Hs HB.
  destruct (@Linear_forward_ok _ _ _ _ B _ x H1 Hs)
    as (a1 & E1 & S1 & _ & R1).
  destruct (@BatchNorm1d_forward_eval_rows latent B _ a1 N1 S1 HB Hlat T1)
    as (h1 & Eb1 & Sh1 & Rh1).
  destruct (@Linear_forward_ok _ _ _ _ B _ (relu h1) H2 Sh1)
    as (a2 & E2 & S2 & _ & R2).
  destruct (@BatchNorm1d_forward_eval_rows latent B _ a2 N2 S2 HB Hlat T2)
    as (h2 & Eb2 & Sh2 & Rh2).
  destruct (@Linear_forward_ok _ _ _ _ B _ (relu h2) H3 Sh2)
    as (y & E3 & S3 & _ & R3).
  assert (Er : reshape y [Some B; Some (Wire.Action.n_digits self); None]
               = Ok (mkTensor [B; Wire.Action.n_digits self;
                               Wire.Action.n_states_per_digit self]
                       (data y))).
  { apply reshape_digits; auto. rewrite S3. simpl. nia. }
  exists (mkTensor [B; Wire.Action.n_digits self;
                    Wire.Action.n_states_per_digit self] (data y)).
  split; [|split; [reflexivity|]].
  - unfold Wire.Action.forward, Wire.Action.trunk. fwd_unfold.
    rewrite E1, Eb1. simpl. rewrite E2, Eb2. simpl. rewrite E3.
    unfold shape0. simpl. rewrite Sh2, Er. now destruct self.
  - erewrite rows_3d by reflexivity. simpl.
    rewrite (Nat.mul_comm (Wire.Action.n_digits self)).
    rewrite <- (rows_2d _ S3).
    rewrite R3, rows_relu, Rh2, R2, rows_relu, Rh1, R1, !map_map.
    reflexivity.
Qed.

End EvalRows.

(** X7. In evaluation mode the batch-normalized modules do not couple the
    samples of a batch either: for two valid batches (of any sizes) that
    agree on row [b], the outputs of the StateEncoder agree on row [b],
    and so do the outputs of the ActionDecoder. *)
Theorem X7_evaluation_mode_rows_do_not_interact :
  (forall (F : Type) (SF : Scalar F) (latent B1 B2 b : nat)
          (self : Wire.InitState.InsideAgentForInitState F)
          (state1 state2 : Tensor Z),
      Wire.InitState.init_ok latent self ->
      1 <= latent ->
      Wire.InitState.in_eval_mode self ->
      shape state1 = [B1; Wire.InitState.n_digits self] ->
      shape state2 = [B2; Wire.InitState.n_digits self] ->
      length (data state1) = B1 * Wire.InitState.n_digits self ->
      length (data state2) = B2 * Wire.InitState.n_digits self ->
      1 <= Wire.InitState.n_states_per_digit self ->
      Forall (valid_digit (Wire.InitState.n_states_per_digit self))
             (data state1) ->
      Forall (valid_digit (Wire.InitState.n_states_per_digit self))
             (data state2) ->
      b < B1 -> b < B2 ->
      nth_error (rows state1) b = nth_error (rows state2) b ->
      exists out1 out2 r,
        Wire.InitState.forward state1 self = (Ok out1, self) /\
        Wire.InitState.forward state2 self = (Ok out2, self) /\
        nth_error (rows out1) b = Some r /\
        nth_error (rows out2) b = Some r) /\
  (forall (F : Type) (SF : Scalar F) (latent B1 B2 b : nat)
          (self : Wire.Action.InsideAgentForAction F)
          (x1 x2 : Tensor F),
      Wire.Action.init_ok latent self ->
      1 <= latent -> 1 <= Wire.Action.n_digits self ->
      Wire.Action.in_eval_mode self ->
      shape x1 = [B1; Wire.Action.vocab_size self] ->
      shape x2 = [B2; Wire.Action.vocab_size self] ->
      b < B1 -> b < B2 ->
      nth_error (rows x1) b = nth_error (rows x2) b ->
      exists out1 out2 r,
        Wire.Action.forward x1 self = (Ok out1, self) /\
        Wire.Action.forward x2 self = (Ok out2, self) /\
        nth_error (rows out1) b = Some r /\
        nth_error (rows out2) b = Some r).
Proof.
  split.
  - intros F SF latent B1 B2 b self state1 state2 Hinit Hlat Hev S1 S2
           L1 L2 Hn V1 V2 Hb1 Hb2 Hrow.
    destruct (@Wire_InitState_forward_eval_rows F SF latent B1 self state1)
      as (out1 & F1 & _ & R1); auto; [lia|].
    destruct (@Wire_InitState_forward_eval_rows F SF latent B2 self state2)
      as (out2 & F2 & _ & R2); auto; [lia|].
    assert (Hr : exists r0, nth_error (rows state1) b = Some r0).
    { apply nth_error_in_range.
      rewrite (rows_2d _ S1), chunks_length. exact Hb1. }
    destruct Hr as [r0 Er0].
    eexists out1, out2, _. split; [exact F1|]. split; [exact F2|].
    rewrite R1, R2, !nth_error_map, <- Hrow, Er0. simpl.
    split; reflexivity.
  - intros F SF latent B1 B2 b self x1 x2 Hinit Hlat HD Hev S1 S2
           Hb1 Hb2 Hrow.
    destruct (@Wire_Action_forward_eval_rows F SF latent B1 self x1)
      as (out1 & F1 & _ & R1); auto; [lia|].
    destruct (@Wire_Action_forward_eval_rows F SF latent B2 self x2)
      as (out2 & F2 & _ & R2); auto; [lia|].
    assert (Hr : exists r0, nth_error (rows x1) b = Some r0).
    { apply nth_error_in_range.
      rewrite (rows_2d _ S1), chunks_length. exact Hb1. }
    destruct Hr as [r0 Er0].
    eexists out1, out2, _. split; [exact F1|]. split; [exact F2|].
    rewrite R1, R2, !nth_error_map, <- Hrow, Er0. simpl.
    split; reflexivity.
Qed.

Lemma X7_evaluation_mode_rows_do_not_interact_witness :
  (exists out1 out2 r,
      Wire.InitState.forward Demo.states (Demo.wire_encoder false)
      = (Ok out1, Demo.wire_encoder false) /\
      Wire.InitState.forward Demo.states' (Demo.wire_encoder false)
      = (Ok out2, Demo.wire_encoder false) /\
      nth_error (rows out1) 1 = Some r /\
      nth_error (rows out2) 1 = Some r) /\
  (exists out1 out2 r,
      Wire.Action.forward Demo.symbols (Demo.wire_decoder false)
      = (Ok out1, Demo.wire_decoder false) /\
      Wire.Action.forward Demo.symbols' (Demo.wire_decoder false)
      = (Ok out2, Demo.wire_decoder false) /\
      nth_error (rows out1) 1 = Some r /\
      nth_error (rows out2) 1 = Some r).
Proof.
  split.
  - apply (proj1 X7_evaluation_mode_rows_do_not_interact
             float Binary64 4 2 3 1 (Demo.wire_encoder false)
             Demo.states Demo.states'); demo_ok.
  - apply (proj2 X7_evaluation_mode_rows_do_not_interact
             float Binary64 4 2 3 1 (Demo.wire_decoder false)
             Demo.symbols Demo.symbols'); demo_ok.
Defined.

(** ** The encoding loses nothing *)

Lemma app_inj_same_length {A} (a c b d : list A) :
  length a = length c -> (a ++ b = c ++ d)%list -> a = c /\ b = d.
Proof.
  revert c; induction a as [|x a IH]; intros [|y c] Hl E;
    try discriminate; simpl in *.
  - auto.
  - injection E as -> E. injection Hl as Hl.
    destruct (IH c Hl E) as [-> ->]. auto.
Qed.

Section EncodingInjective.

Context {F : Type} `{Scalar F}.

Hypothesis zero_is_not_one : of_Z 0 <> of_Z 1.

Lemma one_hot_block_inj (n : nat) (v1 v2 : Z) :
  valid_digit n v1 ->
  map of_Z (one_hot_vec n v1) = map of_Z (one_hot_vec n v2) ->
  v1 = v2.
Proof.
  intros [Hlo Hhi] E.
  assert (Hk : Z.to_nat v1 < n) by lia.
  pose proof (f_equal (fun l => nth_error l (Z.to_nat v1)) E) as E'.
  simpl in E'.
  rewrite !nth_error_map, !nth_error_one_hot_vec in E' by assumption.
  rewrite Z2Nat.id, Z.eqb_refl in E' by assumption. simpl in E'.
  destruct (v1 =? v2)%Z eqn:E12; [now apply Z.eqb_eq|].
  injection E' as E'. symmetry in E'. now apply zero_is_not_one in E'.
Qed.

Lemma encode_row_inj (n : nat) (l1 l2 : list Z) :
  1 <= n ->
  Forall (valid_digit n) l1 ->
  encode_row n l1 = encode_row n l2 ->
  l1 = l2.
Proof.
  intros Hn. unfold encode_row.
  revert l2; induction l1 as [|v1 l1 IH]; intros l2 Hv E.
  - destruct l2 as [|v2 l2]; [reflexivity|]. simpl in E.
    apply (f_equal (@length F)) in E.
    rewrite length_map, length_app, one_hot_vec_length in E.
    simpl in E. lia.
  - destruct l2 as [|v2 l2].
    + simpl in E. apply (f_equal (@length F)) in E.
      rewrite length_map, length_app, one_hot_vec_length in E.
      simpl in E. lia.
    + simpl in E. rewrite !map_app in E.
      apply app_inj_same_length in E;
        [|now rewrite !length_map, !one_hot_vec_length].
      destruct E as [Eb Er]. inversion Hv; subst.
      f_equal; [now apply one_hot_block_inj with n | now apply IH].
Qed.

End EncodingInjective.

(** X8. The encoding step is injective on valid batches: two batches of
    valid lock states with the same encoding are the same batch (as soon
    as the scalar type tells 0 from 1). *)
Theorem X8_encoding_is_injective
    (F : Type) (SF : Scalar F) (n B1 D1 B2 D2 : nat)
    (state1 state2 : Tensor Z) :
  of_Z 0 <> of_Z 1 ->
  shape state1 = [B1; D1] -> length (data state1) = B1 * D1 -> 1 <= B1 ->
  shape state2 = [B2; D2] -> length (data state2) = B2 * D2 -> 1 <= B2 ->
  1 <= n ->
  Forall (valid_digit n) (data state1) ->
  Forall (valid_digit n) (data state2) ->
  encode (F := F) n state1 = encode n state2 ->
  state1 = state2.
Proof.
  intros H01 S1 L1 HB1 S2 L2 HB2 Hn V1 V2 E.
  rewrite (encode_valid state1 S1 L1 HB1 Hn V1) in E.
  rewrite (encode_valid state2 S2 L2 HB2 Hn V2) in E.
  injection E as EB ED Edata.
  assert (D1 = D2) by nia. subst B2 D2.
  apply (@encode_row_inj F SF H01 n _ _ Hn V1) in Edata.
  destruct state1, state2. simpl in *. congruence.
Qed.

Lemma X8_encoding_is_injective_witness :
  of_Z (F := float) 0 <> of_Z 1 /\ Demo.states = Demo.states.
Proof.
  assert (H01 : of_Z (F := float) 0 <> of_Z 1).
  { intros E. apply (f_equal (PrimFloat.eqb 0%float)) in E.
    vm_compute in E. discriminate. }
  split; [exact H01|].
  apply (@X8_encoding_is_injective float Binary64 3 2 2 2 2
           Demo.states Demo.states); try demo_ok.
  exact H01.
Defined.

(** ** The wide output layer, digit by digit *)

Lemma nth_error_combine {A B} (l1 : list A) (l2 : list B) (j : nat) :
  nth_error (combine l1 l2) j
  = match nth_error l1 j, nth_error l2 j with
    | Some a, Some b => Some (a, b)
    | _, _ => None
    end.
Proof.
  revert l2 j; induction l1 as [|a l1 IH]; intros l2 j.
  - simpl. now destruct j.
  - destruct l2 as [|b l2]; simpl.
    + destruct j; simpl; [reflexivity|]. now destruct (nth_error l1 j).
    + destruct j; simpl; [reflexivity|]. apply IH.
Qed.

Section WideLayer.

Context {F : Type} `{Scalar F}.

(** Output [j] of a linear layer uses row [j] of the weight and entry [j]
    of the bias, and nothing else of the layer. *)
Lemma nth_error_affine (l : Linear F) (x : list F) (j : nat) :
  nth_error (affine l x) j
  = match nth_error (weight l) j, nth_error (bias l) j with
    | Some w, Some b => Some (fadd (dot x w) b)
    | _, _ => None
    end.
Proof.
  unfold affine. rewrite nth_error_map, nth_error_combine.
  destruct (nth_error (weight l) j), (nth_error (bias l) j); reflexivity.
Qed.

Import Wire.Action.

Lemma Wire_Action_forward_get (latent B : nat)
    (self : InsideAgentForAction F) (x : Tensor F) :
  init_ok latent self ->
  1 <= latent -> 1 <= B -> 1 <= n_digits self ->
  shape x = [B; vocab_size self] ->
  bn_batch_ok (bn1 self) B ->
  bn_batch_ok (bn2 self) B ->
  exists a1 h1 a2 h2 b1 b2 out,
    Linear_forward (fc1 self) x = Ok a1 /\
    BatchNorm1d_forward a1 (bn1 self) = (Ok h1, b1) /\
    Linear_forward (fc2 self) (relu h1) = Ok a2 /\
    BatchNorm1d_forward a2 (bn2 self) = (Ok h2, b2) /\
    forward x self = (Ok out, set_bn2 b2 (set_bn1 b1 self)) /\
    shape out = [B; n_digits self; n_states_per_digit self] /\
    forall b i k,
      b < B -> i < n_digits self -> k < n_states_per_digit self ->
      exists r,
        nth_error (rows (relu h2)) b = Some r /\
        tget out [b; i; k]
        = nth_error (affine (fc3 self) r) (i * n_states_per_digit self + k).
Proof.
  intros Hinit Hlat HB HD Hs Hb1 Hb2.
  destruct (Wire_Action_forward_scores x Hinit Hlat HB HD Hs Hb1 Hb2)
    as (a1 & h1 & a2 & h2 & b1 & b2 & y & out & E1 & Eb1 & E2 & Eb2 & _ & _
        & _ & Ef & So & _ & _ & Hget).
  exists a1, h1, a2, h2, b1, b2, out. repeat split; auto.
Qed.

End WideLayer.

(** X9. In the batch-normalized ActionDecoder the scores of digit [i] use
    only rows [i * n .. i * n + n - 1] of [fc3]'s weight and the matching
    bias entries: two modules that agree on the trunk and on that block
    of [fc3] give the same scores for digit [i] on the same batch,
    however the rest of [fc3] differs. *)
Theorem X9_wide_layer_blocks_are_independent
    (F : Type) (SF : Scalar F) (latent B i : nat)
    (self1 self2 : Wire.Action.InsideAgentForAction F) (x : Tensor F) :
  Wire.Action.init_ok latent self1 ->
  Wire.Action.init_ok latent self2 ->
  1 <= latent -> 1 <= B -> 1 <= Wire.Action.n_digits self1 ->
  shape x = [B; Wire.Action.vocab_size self1] ->
  bn_batch_ok (Wire.Action.bn1 self1) B ->
  bn_batch_ok (Wire.Action.bn2 self1) B ->
  Wire.Action.n_digits self2 = Wire.Action.n_digits self1 ->
  Wire.Action.n_states_per_digit self2
  = Wire.Action.n_states_per_digit self1 ->
  Wire.Action.vocab_size self2 = Wire.Action.vocab_size self1 ->
  Wire.Action.fc1 self2 = Wire.Action.fc1 self1 ->
  Wire.Action.bn1 self2 = Wire.Action.bn1 self1 ->
  Wire.Action.fc2 self2 = Wire.Action.fc2 self1 ->
  Wire.Action.bn2 self2 = Wire.Action.bn2 self1 ->
  (forall k, k < Wire.Action.n_states_per_digit self1 ->
     nth_error (weight (Wire.Action.fc3 self2))
               (i * Wire.Action.n_states_per_digit self1 + k)
     = nth_error (weight (Wire.Action.fc3 self1))
                 (i * Wire.Action.n_states_per_digit self1 + k) /\
     nth_error (bias (Wire.Action.fc3 self2))
               (i * Wire.Action.n_states_per_digit self1 + k)
     = nth_error (bias (Wire.Action.fc3 self1))
                 (i * Wire.Action.n_states_per_digit self1 + k)) ->
  i < Wire.Action.n_digits self1 ->
  exists out1 out2 after1 after2,
    Wire.Action.forward x self1 = (Ok out1, after1) /\
    Wire.Action.forward x self2 = (Ok out2, after2) /\
    forall b k,
      b < B -> k < Wire.Action.n_states_per_digit self1 ->
      tget out1 [b; i; k] = tget out2 [b; i; k].
Proof.
  intros Hi1 Hi2 Hlat HB HD Hs Hb1 Hb2 ED En EV E1 EN1 E2 EN2 Eblock Hi.
  destruct (Wire_Action_forward_get x Hi1 Hlat HB HD Hs Hb1 Hb2)
    as (a1 & h1 & a2 & h2 & b1 & b2 & out1
        & A1 & A2 & A3 & A4 & Ef1 & _ & P1).
  destruct (@Wire_Action_forward_get F SF latent B self2 x Hi2 Hlat HB)
    as (a1' & h1' & a2' & h2' & b1' & b2' & out2
        & A1' & A2' & A3' & A4' & Ef2 & _ & P2);
    [now rewrite ED | now rewrite EV | now rewrite EN1 | now rewrite EN2 |].
  rewrite E1 in A1'. rewrite EN1 in A2'. rewrite E2 in A3'.
  rewrite EN2 in A4'.
  assert (a1' = a1) by congruence. subst a1'.
  assert (h1' = h1) by congruence. subst h1'.
  assert (a2' = a2) by congruence. subst a2'.
  assert (h2' = h2) by congruence. subst h2'.
  eexists out1, out2, _, _. split; [exact Ef1|]. split; [exact Ef2|].
  intros b k Hb Hk.
  destruct (P1 b i k Hb Hi Hk) as (r & Er & ->).
  destruct (P2 b i k) as (r' & Er' & ->);
    [assumption | now rewrite ED | now rewrite En |].
  rewrite Er in Er'. injection Er' as <-.
  rewrite En, !nth_error_affine.
  destruct (Eblock k Hk) as [-> ->]. reflexivity.
Qed.

Lemma X9_wide_layer_blocks_are_independent_witness :
  exists out1 out2 after1 after2,
    Wire.Action.forward Demo.symbols (Demo.wire_decoder true)
    = (Ok out1, after1) /\
    Wire.Action.forward Demo.symbols Demo.wire_decoder_other
    = (Ok out2, after2) /\
    forall b k, b < 2 -> k < 3 -> tget out1 [b; 0; k] = tget out2 [b; 0; k].
Proof.
  apply (@X9_wide_layer_blocks_are_independent float Binary64 4 2 0
           (Demo.wire_decoder true) Demo.wire_decoder_other Demo.symbols);
    try demo_ok.
  intros k Hk. change (k < 3) in Hk.
  destruct k as [|[|[|k]]]; [split; reflexivity .. | lia].
Defined.

(** ** An unbatched symbol in the per-digit-head decoder *)

Lemma nth_error_concat_repeat {A} (d : list A) (L a k : nat) :
  a < L -> k < length d ->
  nth_error (concat (repeat d L)) (a * length d + k) = nth_error d k.
Proof.
  intros Ha Hk.
  replace (concat (repeat d L))
    with (flat_map (fun r : list A => r) (repeat d L))
    by (rewrite flat_map_concat_map, map_id; reflexivity).
  apply (@nth_error_flat_map_const _ _ (fun r : list A => r) (length d)
           a k (repeat d L) d); auto.
  - intros y Hy. apply repeat_spec in Hy. now subst.
  - rewrite nth_error_repeat by assumption. reflexivity.
Qed.

Lemma expand_aligned_repeat {A} (t : nat) (src dst : list nat)
    (d : list A) :
  t <> 1 ->
  expand_aligned (1 :: src) (t :: dst) d
  = option_map (fun e => concat (repeat e t)) (expand_aligned src dst d).
Proof.
  intros Ht. simpl.
  destruct t as [|[|t]]; [reflexivity | congruence | reflexivity].
Qed.

Lemma expand_one_row {A} (L n : nat) (d : list A) :
  length d = n ->
  expand (strip_ones [1; n]) [L; n] d = Some (concat (repeat d L)).
Proof.
  intros Hd.
  assert (E : expand_aligned [1; n] [L; n] d = Some (concat (repeat d L))).
  { destruct (Nat.eq_dec L 1) as [->|HL].
    - rewrite expand_aligned_same by (simpl; lia).
      simpl. now rewrite app_nil_r.
    - rewrite (expand_aligned_repeat _ _ _ HL).
      rewrite expand_aligned_same by (simpl; lia). reflexivity. }
  destruct n as [|[|n]]; exact E.
Qed.

Lemma setitem_mid_one_row {A} (out y : Tensor A) (L D n i : nat) :
  shape out = [L; D; n] ->
  length (data out) = L * D * n ->
  i < D ->
  shape y = [n] ->
  length (data y) = n ->
  exists out',
    setitem_mid out i (unsqueeze0 y) = Ok out' /\
    shape out' = [L; D; n] /\
    length (data out') = L * D * n /\
    forall idx, idx < L * D * n ->
      nth_error (data out') idx
      = if (idx / n) mod D =? i
        then nth_error (data y) (idx mod n)
        else nth_error (data out) idx.
Proof.
  intros Hs Hl Hi Hsy Hly. unfold setitem_mid, unsqueeze0.
  rewrite Hs. simpl shape. simpl data. rewrite Hsy.
  apply Nat.ltb_lt in Hi. rewrite Hi.
  rewrite (expand_one_row L (data y) Hly).
  eexists. split; [reflexivity|]. simpl.
  split; [reflexivity|].
  split; [unfold imap; now rewrite imap_from_length|].
  intros idx Hidx. unfold imap. rewrite nth_error_imap_from. simpl.
  destruct (@nth_error_in_range _ (data out) idx) as [old Eold]; [lia|].
  rewrite Eold. simpl.
  destruct ((idx / n) mod D =? i); [|reflexivity].
  destruct (flat_index_parts L D n Hidx) as (_ & _ & _ & Ha & Hk & _).
  pose proof (@nth_error_concat_repeat _ (data y) L (idx / n / D)
                (idx mod n) Ha) as E.
  rewrite Hly in E. specialize (E Hk).
  destruct (@nth_error_in_range _ (data y) (idx mod n)) as [v Ev]; [lia|].
  rewrite Ev in *. f_equal. now apply nth_error_nth.
Qed.

Section BaseActionUnbatched.

Context {F : Type} `{Scalar F}.

Import Base.Action.

Lemma Linear_forward_1d (i o : nat) (l : Linear F) (t : Tensor F) :
  Linear_ok i o l ->
  shape t = [i] ->
  length (data t) = i ->
  Linear_forward l t = Ok (mkTensor [o] (affine l (data t))).
Proof.
  intros (Hi & Ho & _) Hs Hl. unfold Linear_forward. rewrite Hs. simpl.
  rewrite Hi, Ho, Nat.eqb_refl. rewrite firstn_all2 by lia.
  now rewrite app_nil_r.
Qed.

Variable latent : nat.
Variable self : InsideAgentForAction F.
Hypothesis Hinit : init_ok latent self.

Lemma Base_Action_trunk_1d (x : Tensor F) :
  shape x = [vocab_size self] ->
  length (data x) = vocab_size self ->
  trunk x self
  = (Ok (mkTensor [latent] (trunk_row self (data x))), self).
Proof.
  destruct Hinit as (H1 & H2 & _). intros Hs Hl.
  unfold trunk. fwd_unfold.
  erewrite Linear_forward_1d; [|exact H1|exact Hs|exact Hl].
  erewrite Linear_forward_1d; [reflexivity | exact H2 | reflexivity |].
  simpl. rewrite length_map. now apply affine_length with (vocab_size self).
Qed.

Lemma trunk_row_length (r : list F) : length (trunk_row self r) = latent.
Proof.
  destruct Hinit as (_ & H2 & _). unfold trunk_row.
  rewrite length_map. now apply affine_length with latent.
Qed.

Lemma Base_Action_head_1d (i : nat) (lat : list F) :
  length lat = latent ->
  i < n_digits self ->
  exists l3 l4,
    nth_error (fc3 self) i = Some l3 /\
    nth_error (fc4 self) i = Some l4 /\
    head i (mkTensor [latent] lat) self
    = (Ok (unsqueeze0
             (mkTensor [n_states_per_digit self] (head_row l3 l4 lat))),
       self) /\
    length (head_row l3 l4 lat) = n_states_per_digit self.
Proof.
  destruct Hinit as (_ & _ & Hl3 & H3 & Hl4 & H4). intros Hl Hi.
  destruct (@nth_error_in_range _ (fc3 self) i) as [l3 E3]; [lia|].
  destruct (@nth_error_in_range _ (fc4 self) i) as [l4 E4]; [lia|].
  rewrite Forall_forall in H3, H4.
  pose proof (H3 _ (nth_error_In _ _ E3)) as K3.
  pose proof (H4 _ (nth_error_In _ _ E4)) as K4.
  exists l3, l4. repeat split; auto.
  - unfold head, list_index. fwd_unfold. rewrite E4, E3.
    erewrite Linear_forward_1d; [|exact K3|reflexivity|exact Hl].
    erewrite Linear_forward_1d; [reflexivity | exact K4 | reflexivity |].
    simpl. rewrite length_map. now apply affine_length with latent.
  - unfold head_row. now apply affine_length with (latent / 2).
Qed.

Lemma Base_Action_loop_1d (lat : list F) (out0 : Tensor F) :
  length lat = latent ->
  shape out0 = [latent; n_digits self; n_states_per_digit self] ->
  length (data out0) = latent * n_digits self * n_states_per_digit self ->
  forall j, j <= n_digits self ->
  exists out,
    for_each (seq 0 j)
      (fun i output_lst =>
         (v <- head i (mkTensor [latent] lat) ;;
          call (setitem_mid output_lst i v))%fwd)
      out0 self
    = (Ok out, self) /\
    shape out = [latent; n_digits self; n_states_per_digit self] /\
    length (data out) = latent * n_digits self * n_states_per_digit self /\
    forall idx,
      idx < latent * n_digits self * n_states_per_digit self ->
      if (idx / n_states_per_digit self) mod n_digits self <? j then
        exists l3 l4,
          nth_error (fc3 self)
            ((idx / n_states_per_digit self) mod n_digits self) = Some l3 /\
          nth_error (fc4 self)
            ((idx / n_states_per_digit self) mod n_digits self) = Some l4 /\
          nth_error (data out) idx
          = nth_error (head_row l3 l4 lat) (idx mod n_states_per_digit self)
      else nth_error (data out) idx = nth_error (data out0) idx.
Proof.
  intros Hl Hs0 Hl0 j. induction j as [|j IH]; intros Hj.
  - exists out0. simpl. repeat split; auto.
  - destruct IH as (out & Eout & So & Lo & Po); [lia|].
    destruct (@Base_Action_head_1d j lat Hl Hj)
      as (l3 & l4 & E3 & E4 & Ehead & Ly).
    destruct (@setitem_mid_one_row _ out
                (mkTensor [n_states_per_digit self] (head_row l3 l4 lat))
                latent (n_digits self) (n_states_per_digit self) j
                So Lo Hj eq_refl Ly)
      as (out' & Eset & So' & Lo' & Po').
    exists out'. split.
    + rewrite seq_S, for_each_app. simpl.
      unfold bind at 1. rewrite Eout. simpl. fwd_unfold.
      now rewrite Ehead, Eset.
    + split; [exact So'|]. split; [exact Lo'|].
      intros idx Hidx. rewrite (Po' idx Hidx).
      specialize (Po idx Hidx).
      destruct ((idx / n_states_per_digit self) mod n_digits self =? j)
        eqn:Ej.
      * apply Nat.eqb_eq in Ej. rewrite Ej.
        assert (E : (j <? S j) = true) by (apply Nat.ltb_lt; lia).
        rewrite E. exists l3, l4. simpl. auto.
      * apply Nat.eqb_neq in Ej.
        destruct ((idx / n_states_per_digit self) mod n_digits self <? j)
          eqn:Elt.
        -- assert (E : ((idx / n_states_per_digit self) mod n_digits self
                        <? S j) = true)
             by (apply Nat.ltb_lt; apply Nat.ltb_lt in Elt; lia).
           rewrite E. exact Po.
        -- assert (E : ((idx / n_states_per_digit self) mod n_digits self
                        <? S j) = false)
             by (apply Nat.ltb_ge; apply Nat.ltb_ge in Elt; lia).
           rewrite E. exact Po.
Qed.

Lemma Base_Action_forward_1d (mem : nat -> F) (x : Tensor F) :
  shape x = [vocab_size self] ->
  length (data x) = vocab_size self ->
  exists out,
    forward mem x self = (Ok out, self) /\
    shape out = [latent; n_digits self; n_states_per_digit self] /\
    forall a i k,
      a < latent -> i < n_digits self -> k < n_states_per_digit self ->
      exists l3 l4,
        nth_error (fc3 self) i = Some l3 /\
        nth_error (fc4 self) i = Some l4 /\
        tget out [a; i; k]
        = nth_error (head_row l3 l4 (trunk_row self (data x))) k.
Proof.
  intros Hs Hl.
  pose proof (Base_Action_trunk_1d x Hs Hl) as Et.
  set (lat := trunk_row self (data x)) in *.
  assert (Hlat : length lat = latent) by apply trunk_row_length.
  assert (Hl0 : length (data (empty mem
                   [latent; n_digits self; n_states_per_digit self]))
                = latent * n_digits self * n_states_per_digit self).
  { unfold empty. simpl. rewrite length_map, length_seq. lia. }
  destruct (@Base_Action_loop_1d lat
              (empty mem [latent; n_digits self; n_states_per_digit self])
              Hlat eq_refl Hl0 (n_digits self) (le_n _))
    as (out & Eo & So & Lo & Po).
  exists out. split; [|split; [exact So|]].
  - unfold forward. unfold bind at 1. rewrite Et.
    unfold shape0. fwd_unfold. simpl shape.
    fwd_unfold. unfold bind in Eo. unfold call in Eo.
    now rewrite Eo.
  - intros a i k Ha Hi Hk.
    rewrite (tget_3d _ So Ha Hi Hk).
    pose proof (flat_index_lt Ha Hi Hk) as Hidx.
    specialize (Po _ Hidx).
    destruct (flat_index_of a Hi Hk) as (Q1 & Q2 & Q3 & _).
    rewrite Q1, Q2, Q3 in Po.
    apply Nat.ltb_lt in Hi. rewrite Hi in Po.
    destruct Po as (l3 & l4 & E3 & E4 & ->). exists l3, l4. auto.
Qed.

End BaseActionUnbatched.

(** X10. Given an unbatched symbol (a 1-D tensor of [vocab_size] values,
    the input its docstring describes), the per-digit-head ActionDecoder
    does not return a [(n_digits, n_states_per_digit)] tensor: the first
    dimension of the output is taken from the latent vector, so the result
    has shape [(latent, n_digits, n_states_per_digit)] and holds [latent]
    copies of the per-digit scores. *)
Theorem X10_unbatched_symbol_gives_latent_copies
    (F : Type) (SF : Scalar F) (latent : nat)
    (self : Base.Action.InsideAgentForAction F)
    (mem : nat -> F) (x : Tensor F) :
  Base.Action.init_ok latent self ->
  shape x = [Base.Action.vocab_size self] ->
  length (data x) = Base.Action.vocab_size self ->
  exists out,
    Base.Action.forward mem x self = (Ok out, self) /\
    shape out = [latent; Base.Action.n_digits self;
                 Base.Action.n_states_per_digit self] /\
    forall a i k,
      a < latent -> i < Base.Action.n_digits self ->
      k < Base.Action.n_states_per_digit self ->
      exists l3 l4,
        nth_error (Base.Action.fc3 self) i = Some l3 /\
        nth_error (Base.Action.fc4 self) i = Some l4 /\
        tget out [a; i; k]
        = nth_error
            (Base.Action.head_row l3 l4
               (Base.Action.trunk_row self (data x)))
            k.
Proof.
  intros Hinit Hs Hl.
  destruct (Base_Action_forward_1d Hinit mem x Hs Hl) as (out & Ef & So & P).
  exists out. split; [exact Ef|]. split; [exact So|].
  intros a i k Ha Hi Hk. apply P; assumption.
Qed.

Lemma X10_unbatched_symbol_gives_latent_copies_witness :
  exists out,
    Base.Action.forward (fun _ => 77%float) (mkTensor [2] [0; 1]%float)
      Demo.base_decoder
    = (Ok out, Demo.base_decoder) /\
    shape out = [4; 2; 3] /\
    forall a i k,
      a < 4 -> i < 2 -> k < 3 ->
      exists l3 l4,
        nth_error (Base.Action.fc3 Demo.base_decoder) i = Some l3 /\
        nth_error (Base.Action.fc4 Demo.base_decoder) i = Some l4 /\
        tget out [a; i; k]
        = nth_error
            (Base.Action.head_row l3 l4
               (Base.Action.trunk_row Demo.base_decoder [0; 1]%float))
            k.
Proof.
  apply (@X10_unbatched_symbol_gives_latent_copies float Binary64 4
           Demo.base_decoder (fun _ => 77%float)
           (mkTensor [2] [0; 1]%float)); demo_ok.
Defined.

(** ** Freshly constructed modules *)

Section ConstructionFacts.

Context {F : Type} `{Scalar F}.

Variable draws : nat -> F.

Lemma Linear_init_ok (i o pos : nat) :
  Linear_ok i o (fst (Linear_init draws i o pos)) /\
  snd (Linear_init draws i o pos) = pos + o * i + o.
Proof.
  unfold Linear_init, Linear_ok. simpl.
  rewrite !length_map, !length_seq. repeat split; auto.
  apply Forall_map, Forall_forall. intros r _.
  now rewrite length_map, length_seq.
Qed.

Lemma replicate_Linear_init (n i o pos : nat) :
  length (fst (replicate_ctor n (Linear_init draws i o) pos)) = n /\
  Forall (Linear_ok i o)
         (fst (replicate_ctor n (Linear_init draws i o) pos)) /\
  snd (replicate_ctor n (Linear_init draws i o) pos)
  = pos + n * (o * i + o).
Proof.
  revert pos; induction n as [|n IH]; intros pos.
  - simpl. repeat split; auto.
  - cbn [replicate_ctor].
    destruct (Linear_init draws i o pos) as [l p1] eqn:El.
    pose proof (Linear_init_ok i o pos) as [Hok Hp]. rewrite El in Hok, Hp.
    simpl in Hok, Hp.
    destruct (replicate_ctor n (Linear_init draws i o) p1) as [ls p2] eqn:Er.
    specialize (IH p1). rewrite Er in IH. simpl in IH.
    destruct IH as (Hl & Hall & Hp2). simpl.
    repeat split; [now rewrite Hl | now constructor | lia].
Qed.

Lemma Base_InitState__init__ok (n_digits n_states vocab : nat)
    (latent : option nat) (pos : nat) :
  let self := fst (Base_InitState__init__ draws n_digits n_states vocab
                     latent pos) in
  Base.InitState.init_ok (latent_or 64 latent) self /\
  Base.InitState.n_digits self = n_digits /\
  Base.InitState.n_states_per_digit self = n_states /\
  Base.InitState.vocab_size self = vocab.
Proof.
  unfold Base_InitState__init__, Base.InitState.init_ok. simpl.
  repeat split; try apply Linear_init_ok;
    apply Forall_map, Forall_forall; intros r _;
    now rewrite length_map, length_seq.
Qed.

Lemma Base_Action__init__ok (n_digits n_states vocab : nat)
    (latent : option nat) (pos : nat) :
  let self := fst (Base_Action__init__ draws n_digits n_states vocab
                     latent pos) in
  Base.Action.init_ok (latent_or 64 latent) self /\
  Base.Action.n_digits self = n_digits /\
  Base.Action.n_states_per_digit self = n_states /\
  Base.Action.vocab_size self = vocab.
Proof.
  unfold Base_Action__init__. cbv zeta.
  set (L := latent_or 64 latent).
  destruct (Linear_init draws vocab L pos) as [l1 p1] eqn:E1.
  destruct (Linear_init draws L L p1) as [l2 p2] eqn:E2.
  destruct (replicate_ctor n_digits (Linear_init draws L (L / 2)) p2)
    as [l3 p3] eqn:E3.
  destruct (replicate_ctor n_digits (Linear_init draws (L / 2) n_states) p3)
    as [l4 p4] eqn:E4.
  pose proof (Linear_init_ok vocab L pos) as [K1 _]. rewrite E1 in K1.
  pose proof (Linear_init_ok L L p1) as [K2 _]. rewrite E2 in K2.
  pose proof (replicate_Linear_init n_digits L (L / 2) p2) as (A3 & B3 & _).
  rewrite E3 in A3, B3.
  pose proof (replicate_Linear_init n_digits (L / 2) n_states p3)
    as (A4 & B4 & _).
  rewrite E4 in A4, B4.
  simpl in *. unfold Base.Action.init_ok. simpl. repeat split; auto;
    try apply K1; try apply K2.
Qed.

Variables eps_default momentum_default : F.

Lemma BatchNorm1d_init_ok (c : nat) :
  BatchNorm1d_ok c (BatchNorm1d_init eps_default momentum_default c) /\
  training (BatchNorm1d_init eps_default momentum_default c) = true /\
  num_batches_tracked (BatchNorm1d_init eps_default momentum_default c)
  = 0%Z.
Proof.
  unfold BatchNorm1d_ok, BatchNorm1d_init. simpl.
  rewrite !repeat_length. repeat split.
Qed.

Lemma Wire_InitState__init__ok (n_digits n_states vocab : nat)
    (latent : option nat) (pos : nat) :
  let self := fst (Wire_InitState__init__ draws eps_default momentum_default
                     n_digits n_states vocab latent pos) in
  Wire.InitState.init_ok (latent_or 32 latent) self /\
  Wire.InitState.n_digits self = n_digits /\
  Wire.InitState.n_states_per_digit self = n_states /\
  Wire.InitState.vocab_size self = vocab /\
  Wire.InitState.bn1 self
  = BatchNorm1d_init eps_default momentum_default (latent_or 32 latent) /\
  Wire.InitState.bn2 self
  = BatchNorm1d_init eps_default momentum_default (latent_or 32 latent).
Proof.
  unfold Wire_InitState__init__, Wire.InitState.init_ok. simpl.
  repeat split; try apply Linear_init_ok; try apply BatchNorm1d_init_ok;
    try (apply Forall_map, Forall_forall; intros r _;
         now rewrite length_map, length_seq);
    try (now rewrite repeat_length).
Qed.

Lemma Wire_Action__init__ok (n_digits n_states vocab : nat)
    (latent : option nat) (pos : nat) :
  let self := fst (Wire_Action__init__ draws eps_default momentum_default
                     n_digits n_states vocab latent pos) in
  Wire.Action.init_ok (latent_or 64 latent) self /\
  Wire.Action.n_digits self = n_digits /\
  Wire.Action.n_states_per_digit self = n_states /\
  Wire.Action.vocab_size self = vocab /\
  Wire.Action.bn1 self
  = BatchNorm1d_init eps_default momentum_default (latent_or 64 latent) /\
  Wire.Action.bn2 self
  = BatchNorm1d_init eps_default momentum_default (latent_or 64 latent).
Proof.
  unfold Wire_Action__init__, Wire.Action.init_ok. simpl.
  repeat split; try apply Linear_init_ok; try apply BatchNorm1d_init_ok;
    try (apply Forall_map, Forall_forall; intros r _;
         now rewrite length_map, length_seq);
    try (now rewrite repeat_length).
Qed.

End ConstructionFacts.

Lemma BatchNorm1d_forward_ok_counts {F : Type} `{Scalar F}
    (t out : Tensor F) (bn bn' : BatchNorm1d F) :
  BatchNorm1d_forward t bn = (Ok out, bn') ->
  training bn = true ->
  num_batches_tracked bn' = wrap_int64 (num_batches_tracked bn + 1).
Proof.
  intros E Htr.
  destruct (bn_dims (shape t)) as [dims|] eqn:Ed.
  - pose proof (BatchNorm1d_forward_counts t bn Ed Htr) as K.
    now rewrite E in K.
  - unfold BatchNorm1d_forward in E. rewrite Ed in E. discriminate.
Qed.

(** X11. Whatever the generator hands out and whatever the sizes, a
    freshly constructed non-normalized StateEncoder maps every valid batch
    to a tensor of shape [(batch_size, vocab_size)], and a freshly
    constructed per-digit-head ActionDecoder holds [n_digits] layers in
    each of [fc3] and [fc4] and maps every batch of shape
    [(batch_size, vocab_size)] to a tensor of shape
    [(batch_size, n_digits, n_states_per_digit)]. *)
Theorem X11_fresh_plain_modules_accept_valid_batches :
  (forall (F : Type) (SF : Scalar F) (draws : nat -> F)
          (n_digits n_states vocab : nat) (latent : option nat)
          (pos B : nat) (state : Tensor Z),
      shape state = [B; n_digits] ->
      length (data state) = B * n_digits ->
      1 <= B -> 1 <= n_states ->
      Forall (valid_digit n_states) (data state) ->
      exists out,
        Base.InitState.forward state
          (fst (Base_InitState__init__ draws n_digits n_states vocab
                  latent pos))
        = (Ok out,
           fst (Base_InitState__init__ draws n_digits n_states vocab
                  latent pos)) /\
        shape out = [B; vocab]) /\
  (forall (F : Type) (SF : Scalar F) (draws : nat -> F)
          (n_digits n_states vocab : nat) (latent : option nat)
          (pos : nat),
      let self := fst (Base_Action__init__ draws n_digits n_states vocab
                         latent pos) in
      length (Base.Action.fc3 self) = n_digits /\
      length (Base.Action.fc4 self) = n_digits /\
      forall (mem : nat -> F) (B : nat) (x : Tensor F),
        shape x = [B; vocab] ->
        exists out,
          Base.Action.forward mem x self = (Ok out, self) /\
          shape out = [B; n_digits; n_states]).
Proof.
  split.
  - intros F SF draws n_digits n_states vocab latent pos B state
           Hs Hl HB Hn Hv.
    destruct (Base_InitState__init__ok draws n_digits n_states vocab
                latent pos) as (Hinit & ED & En & EV).
    set (self := fst (Base_InitState__init__ draws n_digits n_states vocab
                        latent pos)) in *.
    destruct (@Base_InitState_forward_valid F SF _ B self state Hinit)
      as (_ & _ & _ & out & _ & _ & _ & _ & Ef & So & _);
      try (rewrite ?ED, ?En; assumption).
    exists out. rewrite EV in So. auto.
  - intros F SF draws n_digits n_states vocab latent pos self.
    destruct (Base_Action__init__ok draws n_digits n_states vocab
                latent pos) as (Hinit & ED & En & EV).
    fold self in Hinit, ED, En, EV.
    pose proof Hinit as (_ & _ & L3 & _ & L4 & _).
    rewrite ED in L3, L4. split; [exact L3|]. split; [exact L4|].
    intros mem B x Hs.
    destruct (@Base_Action_forward_get F SF _ self mem B x Hinit)
      as (out & Ef & So & _); [now rewrite EV|].
    exists out. rewrite ED, En in So. auto.
Qed.

Lemma X11_fresh_plain_modules_accept_valid_batches_witness :
  (exists out,
      Base.InitState.forward Demo.states
        (fst (Base_InitState__init__ demo_draws 2 3 5 (Some 4) 0))
      = (Ok out, fst (Base_InitState__init__ demo_draws 2 3 5 (Some 4) 0)) /\
      shape out = [2; 5]) /\
  (exists out,
      Base.Action.forward (fun _ => 77%float) Demo.symbols
        (fst (Base_Action__init__ demo_draws 2 3 2 None 0))
      = (Ok out, fst (Base_Action__init__ demo_draws 2 3 2 None 0)) /\
      shape out = [2; 2; 3]).
Proof.
  split.
  - apply (proj1 X11_fresh_plain_modules_accept_valid_batches
             float Binary64 demo_draws 2 3 5 (Some 4) 0 2 Demo.states);
      demo_ok.
  - apply (proj2 X11_fresh_plain_modules_accept_valid_batches
             float Binary64 demo_draws 2 3 2 None 0).
    reflexivity.
Defined.

(** X12. A batch-normalized module comes out of its constructor in
    training mode with no batch counted.  Its first forward pass on a
    valid batch of two or more samples returns a tensor of the expected
    shape and leaves each normalization layer with one batch counted. *)
Theorem X12_first_pass_of_a_fresh_normalized_module :
  (forall (F : Type) (SF : Scalar F) (draws : nat -> F) (e m : F)
          (n_digits n_states vocab : nat) (latent : option nat)
          (pos B : nat) (state : Tensor Z),
      let self := fst (Wire_InitState__init__ draws e m n_digits n_states
                         vocab latent pos) in
      1 <= latent_or 32 latent ->
      shape state = [B; n_digits] ->
      length (data state) = B * n_digits ->
      2 <= B -> 1 <= n_states ->
      Forall (valid_digit n_states) (data state) ->
      training (Wire.InitState.bn1 self) = true /\
      training (Wire.InitState.bn2 self) = true /\
      num_batches_tracked (Wire.InitState.bn1 self) = 0%Z /\
      num_batches_tracked (Wire.InitState.bn2 self) = 0%Z /\
      exists out after,
        Wire.InitState.forward state self = (Ok out, after) /\
        shape out = [B; vocab] /\
        num_batches_tracked (Wire.InitState.bn1 after) = 1%Z /\
        num_batches_tracked (Wire.InitState.bn2 after) = 1%Z) /\
  (forall (F : Type) (SF : Scalar F) (draws : nat -> F) (e m : F)
          (n_digits n_states vocab : nat) (latent : option nat)
          (pos B : nat) (x : Tensor F),
      let self := fst (Wire_Action__init__ draws e m n_digits n_states
                         vocab latent pos) in
      1 <= latent_or 64 latent ->
      1 <= n_digits ->
      shape x = [B; vocab] ->
      2 <= B ->
      training (Wire.Action.bn1 self) = true /\
      training (Wire.Action.bn2 self) = true /\
      num_batches_tracked (Wire.Action.bn1 self) = 0%Z /\
      num_batches_tracked (Wire.Action.bn2 self) = 0%Z /\
      exists out after,
        Wire.Action.forward x self = (Ok out, after) /\
        shape out = [B; n_digits; n_states] /\
        num_batches_tracked (Wire.Action.bn1 after) = 1%Z /\
        num_batches_tracked (Wire.Action.bn2 after) = 1%Z).
Proof.
  split.
  - intros F SF draws e m n_digits n_states vocab latent pos B state self
           Hlat Hs Hl HB Hn Hv.
    destruct (Wire_InitState__init__ok draws e m n_digits n_states vocab
                latent pos) as (Hinit & ED & En & EV & EN1 & EN2).
    fold self in Hinit, ED, En, EV, EN1, EN2.
    rewrite EN1, EN2.
    destruct (BatchNorm1d_init_ok e m (latent_or 32 latent))
      as (_ & Htr & Hc).
    repeat (split; [assumption|]).
    destruct (@Wire_InitState_forward_valid F SF _ B self state Hinit Hlat)
      as (_ & a1 & h1 & a2 & h2 & out & b1 & b2
          & _ & _ & Eb1 & _ & Eb2 & _ & Ef & So & _);
      try (rewrite ?ED, ?En; assumption); try lia;
      try (intros _; exact HB).
    exists out, (Wire.InitState.set_bn2 b2 (Wire.InitState.set_bn1 b1 self)).
    rewrite EV in So. split; [exact Ef|]. split; [exact So|]. simpl.
    rewrite EN1 in Eb1. rewrite EN2 in Eb2.
    rewrite (BatchNorm1d_forward_ok_counts _ _ Eb1 Htr).
    rewrite (BatchNorm1d_forward_ok_counts _ _ Eb2 Htr).
    rewrite Hc. split; reflexivity.
  - intros F SF draws e m n_digits n_states vocab latent pos B x self
           Hlat HD Hs HB.
    destruct (Wire_Action__init__ok draws e m n_digits n_states vocab
                latent pos) as (Hinit & ED & En & EV & EN1 & EN2).
    fold self in Hinit, ED, En, EV, EN1, EN2.
    rewrite EN1, EN2.
    destruct (BatchNorm1d_init_ok e m (latent_or 64 latent))
      as (_ & Htr & Hc).
    repeat (split; [assumption|]).
    destruct (@Wire_Action_forward_get F SF _ B self x Hinit Hlat)
      as (a1 & h1 & a2 & h2 & b1 & b2 & out
          & _ & Eb1 & _ & Eb2 & Ef & So & _);
      try (rewrite ?ED, ?EV; assumption); try lia;
      try (intros _; exact HB).
    exists out, (Wire.Action.set_bn2 b2 (Wire.Action.set_bn1 b1 self)).
    rewrite ED, En in So. split; [exact Ef|]. split; [exact So|]. simpl.
    rewrite EN1 in Eb1. rewrite EN2 in Eb2.
    rewrite (BatchNorm1d_forward_ok_counts _ _ Eb1 Htr).
    rewrite (BatchNorm1d_forward_ok_counts _ _ Eb2 Htr).
    rewrite Hc. split; reflexivity.
Qed.

Lemma X12_first_pass_of_a_fresh_normalized_module_witness :
  (exists out after,
      Wire.InitState.forward Demo.states
        (fst (Wire_InitState__init__ demo_draws
                0x1.4f8b588e368f1p-17%float 0x1.999999999999ap-4%float
                2 3 5 (Some 4) 0))
      = (Ok out, after) /\
      shape out = [2; 5] /\
      num_batches_tracked (Wire.InitState.bn1 after) = 1%Z /\
      num_batches_tracked (Wire.InitState.bn2 after) = 1%Z) /\
  (exists out after,
      Wire.Action.forward Demo.symbols
        (fst (Wire_Action__init__ demo_draws
                0x1.4f8b588e368f1p-17%float 0x1.999999999999ap-4%float
                2 3 2 (Some 4) 0))
      = (Ok out, after) /\
      shape out = [2; 2; 3] /\
      num_batches_tracked (Wire.Action.bn1 after) = 1%Z /\
      num_batches_tracked (Wire.Action.bn2 after) = 1%Z).
Proof.
  split.
  - apply (proj1 X12_first_pass_of_a_fresh_normalized_module
             float Binary64 demo_draws
             0x1.4f8b588e368f1p-17%float 0x1.999999999999ap-4%float
             2 3 5 (Some 4) 0 2 Demo.states); demo_ok.
  - apply (proj2 X12_first_pass_of_a_fresh_normalized_module
             float Binary64 demo_draws
             0x1.4f8b588e368f1p-17%float 0x1.999999999999ap-4%float
             2 3 2 (Some 4) 0 2 Demo.symbols); demo_ok.
Defined.

(** ** Training mode ignores the running statistics *)

Section TrainingOutput.

Context {F : Type} `{Scalar F}.

Lemma BatchNorm1d_forward_training_output (C : nat) (t : Tensor F)
    (bn bn' : BatchNorm1d F) :
  training bn = true ->
  bn_same_parameters bn' bn ->
  BatchNorm1d_ok C bn -> BatchNorm1d_ok C bn' ->
  fst (BatchNorm1d_forward t bn') = fst (BatchNorm1d_forward t bn).
Proof.
  intros Htr (_ & Ee & _ & Ew & Eb & Et)
         (_ & _ & _ & Lm & Lv) (_ & _ & _ & Lm' & Lv').
  unfold BatchNorm1d_forward.
  destruct (bn_dims (shape t)) as [[[N C0] L]|]; [|reflexivity].
  rewrite Et, Htr, Ew, Eb, Ee. simpl.
  rewrite Lm, Lv, Lm', Lv'.
  destruct (N * L =? 1); [reflexivity|].
  destruct (numel (shape t) =? 0).
  - destruct (bn_weight bn), (bn_bias bn); reflexivity.
  - destruct (negb _); reflexivity.
Qed.

End TrainingOutput.

(** X13. In training mode the output of a batch-normalized module does
    not depend on the running statistics or batch counters it holds: two
    modules that differ only in those return the same result on every
    input. *)
Theorem X13_training_output_ignores_running_statistics :
  (forall (F : Type) (SF : Scalar F) (latent : nat)
          (self1 self2 : Wire.InitState.InsideAgentForInitState F)
          (state : Tensor Z),
      Wire.InitState.init_ok latent self1 ->
      Wire.InitState.init_ok latent self2 ->
      Wire.InitState.n_states_per_digit self2
      = Wire.InitState.n_states_per_digit self1 ->
      Wire.InitState.fc1 self2 = Wire.InitState.fc1 self1 ->
      Wire.InitState.fc2 self2 = Wire.InitState.fc2 self1 ->
      Wire.InitState.fc3 self2 = Wire.InitState.fc3 self1 ->
      bn_same_parameters (Wire.InitState.bn1 self2)
                         (Wire.InitState.bn1 self1) ->
      bn_same_parameters (Wire.InitState.bn2 self2)
                         (Wire.InitState.bn2 self1) ->
      training (Wire.InitState.bn1 self1) = true ->
      training (Wire.InitState.bn2 self1) = true ->
      fst (Wire.InitState.forward state self2)
      = fst (Wire.InitState.forward state self1)) /\
  (forall (F : Type) (SF : Scalar F) (latent : nat)
          (self1 self2 : Wire.Action.InsideAgentForAction F)
          (x : Tensor F),
      Wire.Action.init_ok latent self1 ->
      Wire.Action.init_ok latent self2 ->
      Wire.Action.n_digits self2 = Wire.Action.n_digits self1 ->
      Wire.Action.fc1 self2 = Wire.Action.fc1 self1 ->
      Wire.Action.fc2 self2 = Wire.Action.fc2 self1 ->
      Wire.Action.fc3 self2 = Wire.Action.fc3 self1 ->
      bn_same_parameters (Wire.Action.bn1 self2) (Wire.Action.bn1 self1) ->
      bn_same_parameters (Wire.Action.bn2 self2) (Wire.Action.bn2 self1) ->
      training (Wire.Action.bn1 self1) = true ->
      training (Wire.Action.bn2 self1) = true ->
      fst (Wire.Action.forward x self2) = fst (Wire.Action.forward x self1)).
Proof.
  split.
  - intros F SF latent self1 self2 state
           (_ & N1 & _ & N2 & _) (_ & N1' & _ & N2' & _)
           En E1 E2 E3 P1 P2 T1 T2.
    unfold Wire.InitState.forward. fwd_unfold. rewrite En, E1.
    destruct (encode _ state) as [enc|e]; [|reflexivity].
    destruct (Linear_forward (Wire.InitState.fc1 self1) enc) as [a1|e];
      [|reflexivity].
    pose proof (BatchNorm1d_forward_training_output a1 T1 P1 N1 N1') as K1.
    destruct (BatchNorm1d_forward a1 (Wire.InitState.bn1 self1))
      as [r1 b1].
    destruct (BatchNorm1d_forward a1 (Wire.InitState.bn1 self2))
      as [r1' b1'].
    simpl in K1. subst r1'. destruct r1 as [h1|e]; [|reflexivity]. simpl.
    rewrite E2.
    destruct (Linear_forward (Wire.InitState.fc2 self1) (relu h1))
      as [a2|e]; [|reflexivity].
    pose proof (BatchNorm1d_forward_training_output a2 T2 P2 N2 N2') as K2.
    destruct (BatchNorm1d_forward a2 (Wire.InitState.bn2 self1))
      as [r2 b2].
    destruct (BatchNorm1d_forward a2 (Wire.InitState.bn2 self2))
      as [r2' b2'].
    simpl in K2. subst r2'. destruct r2 as [h2|e]; [|reflexivity]. simpl.
    rewrite E3.
    destruct (Linear_forward (Wire.InitState.fc3 self1) (relu h2));
      reflexivity.
  - intros F SF latent self1 self2 x
           (_ & N1 & _ & N2 & _) (_ & N1' & _ & N2' & _)
           ED E1 E2 E3 P1 P2 T1 T2.
    unfold Wire.Action.forward, Wire.Action.trunk. fwd_unfold.
    rewrite E1.
    destruct (Linear_forward (Wire.Action.fc1 self1) x) as [a1|e];
      [|reflexivity].
    pose proof (BatchNorm1d_forward_training_output a1 T1 P1 N1 N1') as K1.
    destruct (BatchNorm1d_forward a1 (Wire.Action.bn1 self1)) as [r1 b1].
    destruct (BatchNorm1d_forward a1 (Wire.Action.bn1 self2)) as [r1' b1'].
    simpl in K1. subst r1'. destruct r1 as [h1|e]; [|reflexivity]. simpl.
    rewrite E2.
    destruct (Linear_forward (Wire.Action.fc2 self1) (relu h1))
      as [a2|e]; [|reflexivity].
    pose proof (BatchNorm1d_forward_training_output a2 T2 P2 N2 N2') as K2.
    destruct (BatchNorm1d_forward a2 (Wire.Action.bn2 self1)) as [r2 b2].
    destruct (BatchNorm1d_forward a2 (Wire.Action.bn2 self2)) as [r2' b2'].
    simpl in K2. subst r2'. destruct r2 as [h2|e]; [|reflexivity]. simpl.
    rewrite E3, ED.
    destruct (Linear_forward (Wire.Action.fc3 self1) (relu h2)) as [y|e];
      [|reflexivity].
    destruct (shape0 (relu h2)) as [b|e]; [|reflexivity].
    destruct (reshape y _); reflexivity.
Qed.

Lemma X13_training_output_ignores_running_statistics_witness :
  fst (Wire.InitState.forward Demo.states (Demo.wire_encoder_seen true))
  = fst (Wire.InitState.forward Demo.states (Demo.wire_encoder true)) /\
  fst (Wire.Action.forward Demo.symbols (Demo.wire_decoder_seen true))
  = fst (Wire.Action.forward Demo.symbols (Demo.wire_decoder true)).
Proof.
  split.
  - apply (proj1 X13_training_output_ignores_running_statistics
             float Binary64 4); demo_ok.
  - apply (proj2 X13_training_output_ignores_running_statistics
             float Binary64 4); demo_ok.
Defined.
